(** * Timeline grid engine of the team-planning Apps Script

    A shallow embedding of the date axis, the interval packer, the colour
    assigner and the column resolution of [Code.js] and of its later
    variants (milestone and terms-sheet versions), with the properties the
    design document states about them.

    Conventions of the embedding.
    - A JavaScript [Date] that went through [setHours(0,0,0,0)] is a whole
      day of the script time zone; it is represented by its day number
      (local days since 1970-01-01), an integer of [Z].
    - The script time zone is a parameter of the date axis, given by its
      offset from UTC.  It enters where the scripts go from a local date to
      its [toISOString().slice(0,10)] key and back with [new Date(key)];
      the properties of the axis are stated for the zone [UTC] and for
      days of the years 0000 to 9999, where the key of a date denotes that
      date; elsewhere it may denote the day before, or a whole month.
    - Where the interval rows are resolved against a given map
      ([resolveSpan], [populateCustomerRows]), a date stands for its key.
    - [Array.prototype.sort(cmp)] is stable (ECMAScript 2019).
    - Day numbers are unbounded; the range limit of [Date] (one hundred
      million days around the epoch) is not modelled. *)

From Stdlib Require Import ZArith Lia Bool.
From stdpp Require Import base numbers list sorting gmap strings pretty fin_maps.

Local Open Scope Z_scope.

(** ** Day arithmetic of ECMAScript dates (ECMA-262, Time Values) *)

Definition DaysInYear (y : Z) : Z :=
  if negb (y mod 4 =? 0) then 365
  else if negb (y mod 100 =? 0) then 366
  else if negb (y mod 400 =? 0) then 365
  else 366.

Definition DayFromYear (y : Z) : Z :=
  365 * (y - 1970) + (y - 1969) / 4 - (y - 1901) / 100 + (y - 1601) / 400.

(** The largest [y] with [DayFromYear y <= t], found from the mean length of
    the Gregorian year (146097 days in 400 years) and one correction step. *)
Definition YearFromTime (t : Z) : Z :=
  let y := 1970 + (t * 400) / 146097 in
  if t <? DayFromYear y then y - 1
  else if DayFromYear (y + 1) <=? t then y + 1
  else y.

Definition InLeapYear (t : Z) : Z :=
  if DaysInYear (YearFromTime t) =? 366 then 1 else 0.

Definition DayWithinYear (t : Z) : Z := t - DayFromYear (YearFromTime t).

(** Day within the year on which month [m] (0 = January) starts. *)
Definition monthStart (leap : Z) (m : Z) : Z :=
  match m with
  | 0 => 0 | 1 => 31 | 2 => 59 + leap | 3 => 90 + leap | 4 => 120 + leap
  | 5 => 151 + leap | 6 => 181 + leap | 7 => 212 + leap | 8 => 243 + leap
  | 9 => 273 + leap | 10 => 304 + leap | _ => 334 + leap
  end.

Definition MonthFromTime (t : Z) : Z :=
  let d := DayWithinYear t in
  let leap := InLeapYear t in
  if d <? 31 then 0
  else if d <? 59 + leap then 1
  else if d <? 90 + leap then 2
  else if d <? 120 + leap then 3
  else if d <? 151 + leap then 4
  else if d <? 181 + leap then 5
  else if d <? 212 + leap then 6
  else if d <? 243 + leap then 7
  else if d <? 273 + leap then 8
  else if d <? 304 + leap then 9
  else if d <? 334 + leap then 10
  else 11.

Definition DateFromTime (t : Z) : Z :=
  DayWithinYear t - monthStart (InLeapYear t) (MonthFromTime t) + 1.

Definition WeekDay (t : Z) : Z := (t + 4) mod 7.

(** [MakeDay(year, month, date)]: months outside 0..11 carry into the year,
    dates outside the month carry into the neighbouring months. *)
Definition MakeDay (year month date : Z) : Z :=
  let ym := year + month / 12 in
  let mn := month mod 12 in
  let leap := if DaysInYear ym =? 366 then 1 else 0 in
  DayFromYear ym + monthStart leap mn + date - 1.

(** ** The [Date] methods the scripts call *)

Definition getFullYear (d : Z) : Z := YearFromTime d.
Definition getMonth (d : Z) : Z := MonthFromTime d.
Definition getDate (d : Z) : Z := DateFromTime d.
Definition getDay (d : Z) : Z := WeekDay d.

(** [d.setDate(n)] keeps the year and month of [d]. *)
Definition setDate (d n : Z) : Z := MakeDay (YearFromTime d) (MonthFromTime d) n.

(** [new Date(year, month, date)]: a year from 0 to 99 stands for 1900 + year. *)
Definition newDate (year month date : Z) : Z :=
  let yr := if (0 <=? year) && (year <=? 99) then 1900 + year else year in
  MakeDay yr month date.

(** [new Date("YYYY-MM-DD")] and date literals in examples: month 1..12. *)
Definition ymd (y m d : Z) : Z := MakeDay y (m - 1) d.

(** ** Time values and the script time zone (ECMA-262, Time Values and
    Local Time Zone Adjustment)

    A [Date] holds a time value, the milliseconds since the epoch in UTC.
    The script time zone is given by its offset from UTC in minutes, east
    of Greenwich positive; the offset is the same for every time value, so
    a zone that changes its offset in the course of the year is not
    covered. *)

Definition msPerDay : Z := 86400000.
Definition msPerMinute : Z := 60000.

Definition UTC : Z := 0.

(** [Day(t)], the day number of a time value. *)
Definition Day (t : Z) : Z := t / msPerDay.

(** [LocalTime(t)] and its inverse [UTC(t)]. *)
Definition LocalTime (zone t : Z) : Z := t + zone * msPerMinute.
Definition UTCOfLocal (zone t : Z) : Z := t - zone * msPerMinute.

(** The time value of a whole day: the midnight at which the local day
    [d] begins. *)
Definition timeValue (zone d : Z) : Z := UTCOfLocal zone (d * msPerDay).

(** The local day of a time value: what [getDay], [getDate], [getMonth],
    [getFullYear] and [setHours(0, 0, 0, 0)] go by. *)
Definition localDay (zone t : Z) : Z := Day (LocalTime zone t).

(** ** ISO keys

    [toISOString()] gives the UTC date of a time value.  For a year from
    0000 to 9999 it starts with "YYYY-MM-DD", and these are its first ten
    characters.  For any other year it starts with a sign and six digits of
    the year, so that the first ten characters, "+YYYYYY-MM" or
    "-YYYYYY-MM", hold the year and the month only.

    A key "YYYY-MM-DD" is represented by the day number of its date, which
    is what [new Date(key)] reads from it as a UTC date; a key that holds
    a year and a month only is represented by the day number of the first
    day of that month.  Different strings have different day numbers. *)

(** [toISOString().slice(0, 10)] of a time value. *)
Definition isoDateKey (t : Z) : Z :=
  let day := Day t in
  let year := YearFromTime day in
  if (0 <=? year) && (year <=? 9999) then day
  else MakeDay year (MonthFromTime day) 1.

(** [date.toISOString().slice(0, 10)] of a whole day of the script zone. *)
Definition toISODate (zone d : Z) : Z := isoDateKey (timeValue zone d).

(** [new Date(dateIso)]: the time value of the UTC midnight of the date
    of the key. *)
Definition newDateOfKey (dateIso : Z) : Z := dateIso * msPerDay.

(** The local day of [new Date(dateIso)], by which [getDay] and
    [getTermForDate] go. *)
Definition dateOfKey (zone dateIso : Z) : Z := localDay zone (newDateOfKey dateIso).

(** The order of the keys as strings, which [sort()] without a comparator
    goes by: "+" comes before "-", which comes before the digits.  Keys
    of the years 0000 to 9999 are in the order of their days, and so are
    the keys of the later years; the keys of the years before 0000 are in
    the order of the digits of the year, then of the month. *)
Definition keyClass (dateIso : Z) : Z :=
  let year := YearFromTime dateIso in
  if 9999 <? year then 0 else if year <? 0 then 1 else 2.

Definition compareKeys (a b : Z) : Z :=
  if keyClass a =? keyClass b then
    if keyClass a =? 1 then
      if YearFromTime a =? YearFromTime b then MonthFromTime a - MonthFromTime b
      else YearFromTime b - YearFromTime a
    else a - b
  else keyClass a - keyClass b.

(** ** Week boundaries *)

(** [getStartOfWeek] (Code.js 37-43, identical in every variant). *)
Definition getStartOfWeek (date : Z) : Z :=
  let d := date in
  let day := getDay d in
  let diff := getDate d - day + (if day =? 0 then -6 else 1) in
  newDate (getFullYear d) (getMonth d) diff.

(** The two variants of the time axis: [Code.js] shows work days only, the
    milestone and terms-sheet variants show every day. *)
Inductive WeekMode := WorkWeek | FullWeek.

Definition weekSpan (mode : WeekMode) : Z :=
  match mode with WorkWeek => 4 | FullWeek => 6 end.

(** [getEndOfWeek]: Monday plus 4 days in Code.js (50-55), plus 6 days in
    the full-week variants. *)
Definition getEndOfWeek (mode : WeekMode) (date : Z) : Z :=
  let startOfWeek := getStartOfWeek date in
  let endOfWeek := startOfWeek in
  setDate endOfWeek (getDate startOfWeek + weekSpan mode).

(** ** Intervals *)

(** The objects that are packed carry a [startDate] and an [endDate]; the
    customer (milestone) rows and the project rows run the same loops on
    objects with different further fields. *)
Class HasDates (A : Type) := {
  startDate : A -> Z;
  endDate : A -> Z
}.

(** A customer or milestone: [{ name, startDate, endDate }]. *)
Record Customer := mkCustomer {
  name : string;
  customerStart : Z;
  customerEnd : Z
}.

(** A project assignment of a person:
    [{ key, summary, epicName, startDate, endDate, status }]. *)
Record Project := mkProject {
  key : string;
  summary : string;
  epicName : option string;
  projectStart : Z;
  projectEnd : Z;
  status : option string
}.

#[export] Instance CustomerDates : HasDates Customer :=
  {| startDate := customerStart; endDate := customerEnd |}.
#[export] Instance ProjectDates : HasDates Project :=
  {| startDate := projectStart; endDate := projectEnd |}.

#[export] Instance Customer_eq_dec : EqDecision Customer.
Proof. solve_decision. Defined.

(** ** [Array.prototype.sort] with a comparator

    A stable sort: an element goes in front of the first element of the
    already sorted rest that does not compare smaller than it. *)
Section JsSort.
Context {A : Type} (cmp : A -> A -> Z).

Fixpoint sortInsert (x : A) (l : list A) : list A :=
  match l with
  | [] => [x]
  | y :: l' => if cmp x y <=? 0 then x :: y :: l' else y :: sortInsert x l'
  end.

Fixpoint jsSort (l : list A) : list A :=
  match l with
  | [] => []
  | x :: l' => sortInsert x (jsSort l')
  end.
End JsSort.

(** ** The interval packer *)
Section Packer.
Context {A : Type} `{HasDates A}.

(** [(a, b) => a.startDate.getTime() - b.startDate.getTime()] *)
Definition byStartDate (a b : A) : Z := startDate a - startDate b.

(** The inner [for j] loop with its [break]: [canPlaceInRow] stays true
    only if no member of the row overlaps the new interval. *)
Fixpoint canPlaceInRow (customer : A) (currentRowCustomers : list A) : bool :=
  match currentRowCustomers with
  | [] => true
  | existingCustomer :: rest =>
      if (startDate customer <=? endDate existingCustomer)
         && (endDate customer >=? startDate existingCustomer)
      then false
      else canPlaceInRow customer rest
  end.

(** The outer [for i] loop with its [break]: the rows after the loop and
    the flag [placed]. *)
Fixpoint placeInRows (customer : A) (packedRows : list (list A))
  : list (list A) * bool :=
  match packedRows with
  | [] => ([], false)
  | currentRowCustomers :: rest =>
      if canPlaceInRow customer currentRowCustomers
      then ((currentRowCustomers ++ [customer]) :: rest, true)
      else let '(rest', placed) := placeInRows customer rest in
           (currentRowCustomers :: rest', placed)
  end.

(** One round of the [forEach]: [if (!placed) packedRows.push([customer])]. *)
Definition placeCustomer (packedRows : list (list A)) (customer : A)
  : list (list A) :=
  let '(rows, placed) := placeInRows customer packedRows in
  if placed then rows else rows ++ [[customer]].

(** The [forEach] over the sorted array. *)
Definition packSorted (sorted : list A) : list (list A) :=
  foldl placeCustomer [] sorted.

(** Sort by start date, then place: Code.js 263-291 (customers) and
    556-584 (projects of one person). *)
Definition pack (customerData : list A) : list (list A) :=
  packSorted (jsSort byStartDate customerData).

(** *** The packer in the words of the design document *)

(** Closed ranges: a single common day is an overlap. *)
Definition overlaps (a b : A) : Prop :=
  startDate a <= endDate b /\ endDate a >= startDate b.

#[export] Instance overlaps_dec a b : Decision (overlaps a b).
Proof. unfold overlaps. apply _. Defined.

(** A row qualifies for [x] when every member is non-overlapping with it. *)
Definition qualifies (x : A) (row : list A) : Prop :=
  Forall (fun y => ~ overlaps x y) row.

(** First qualifying row in creation order, else a new row at the end. *)
Definition firstFit (rows : list (list A)) (x : A) : list (list A) :=
  match list_find (qualifies x) rows with
  | Some (i, _) => alter (fun row => row ++ [x]) i rows
  | None => rows ++ [[x]]
  end.

(** An interval is active on day [t] when [t] lies in its closed range. *)
Definition activeOn (t : Z) (x : A) : Prop := startDate x <= t <= endDate x.

#[export] Instance activeOn_dec t x : Decision (activeOn t x).
Proof. unfold activeOn. apply _. Defined.

Definition activeCount (l : list A) (t : Z) : nat :=
  length (filter (activeOn t) l).

(** The largest number of intervals active on one day.  A day on which
    the number is largest can be taken to be a start date. *)
Definition maxActive (l : list A) : nat :=
  max_list ((fun x => activeCount l (startDate x)) <$> l).

(** Dates after normalisation. *)
Definition normalized (x : A) : Prop := startDate x <= endDate x.

(** Two intervals lie apart when one ends before the other starts. *)
Definition apart (a b : A) : Prop :=
  endDate a < startDate b \/ endDate b < startDate a.

(** Every earlier member of a row lies apart from every later one. *)
Definition rowApart (row : list A) : Prop :=
  forall i j a b, (i < j)%nat -> row !! i = Some a -> row !! j = Some b -> apart a b.

(** Some start date lies in a member of every row. *)
Definition commonDay (rows : list (list A)) : Prop :=
  rows = [] \/
  exists t, t ∈ startDate <$> concat rows /\ Forall (Exists (activeOn t)) rows.
End Packer.

(** Day-index intervals as in the examples of the design document. *)
Definition iv (s e : Z) : Customer := mkCustomer "" s e.

(** ** The day-to-column [Map]

    [dailyDateToSheetColMap] is a JavaScript [Map] from the ISO key of a day
    to a sheet column: entries in insertion order, [set] overwrites the
    value of a key that is present, [get] yields [undefined] ([None]) for a
    key that is absent. *)
Fixpoint mapSet (k v : Z) (m : list (Z * Z)) : list (Z * Z) :=
  match m with
  | [] => [(k, v)]
  | (k', v') :: m' => if k' =? k then (k, v) :: m' else (k', v') :: mapSet k v m'
  end.

Fixpoint mapGet (k : Z) (m : list (Z * Z)) : option Z :=
  match m with
  | [] => None
  | (k', v') :: m' => if k' =? k then Some v' else mapGet k m'
  end.

Definition mapKeys (m : list (Z * Z)) : list Z := m.*1.

(** ** The day walk of [generateTimelineHeaders] *)

Record Walk := mkWalk {
  currentDate : Z;
  currentSheetColIndex : Z;
  dailyDateToSheetColMap : list (Z * Z);
  (** the two dates a weekly header string "MM/dd-MM/dd" is formatted from *)
  weeklyHeaderStrings : list (Z * Z);
  weeklyHeaderStartColIndices : list Z
}.

(** Code.js keeps work days only ([dayOfWeek >= 1 && dayOfWeek <= 5]); the
    full-week variants give every day a column. *)
Definition dayIndexed (mode : WeekMode) (dayOfWeek : Z) : bool :=
  match mode with
  | WorkWeek => (1 <=? dayOfWeek) && (dayOfWeek <=? 5)
  | FullWeek => true
  end.

(** The body of [while (currentDate <= lastChartDate)]; the day gets its
    column under the key [currentDate.toISOString().slice(0, 10)]. *)
Definition walkStep (zone : Z) (mode : WeekMode) (w : Walk) : Walk :=
  let dayOfWeek := getDay (currentDate w) in
  let next := setDate (currentDate w) (getDate (currentDate w) + 1) in
  if dayIndexed mode dayOfWeek then
    let monday := dayOfWeek =? 1 in
    {| currentDate := next;
       currentSheetColIndex := currentSheetColIndex w + 1;
       dailyDateToSheetColMap :=
         mapSet (toISODate zone (currentDate w)) (currentSheetColIndex w)
           (dailyDateToSheetColMap w);
       weeklyHeaderStrings :=
         if monday
         then weeklyHeaderStrings w ++ [(currentDate w, getEndOfWeek mode (currentDate w))]
         else weeklyHeaderStrings w;
       weeklyHeaderStartColIndices :=
         if monday
         then weeklyHeaderStartColIndices w ++ [currentSheetColIndex w]
         else weeklyHeaderStartColIndices w |}
  else
    {| currentDate := next;
       currentSheetColIndex := currentSheetColIndex w;
       dailyDateToSheetColMap := dailyDateToSheetColMap w;
       weeklyHeaderStrings := weeklyHeaderStrings w;
       weeklyHeaderStartColIndices := weeklyHeaderStartColIndices w |}.

(** The [while] loop, with a bound on the number of rounds; [None] when
    the bound is used up before the loop condition fails. *)
Fixpoint walkLoop (zone : Z) (mode : WeekMode) (rounds : nat) (lastChartDate : Z)
    (w : Walk) : option Walk :=
  if currentDate w <=? lastChartDate then
    match rounds with
    | O => None
    | S rounds' => walkLoop zone mode rounds' lastChartDate (walkStep zone mode w)
    end
  else Some w.

(** The walk from the Monday of the first week to the end of the last week;
    the loop visits one day per round, so the number of days of the range
    bounds the rounds. *)
Definition walkDays (zone : Z) (mode : WeekMode)
    (minOverallDate maxOverallDate firstFixedColumnIndex : Z) : option Walk :=
  let firstChartDate := getStartOfWeek minOverallDate in
  let lastChartDate := getEndOfWeek mode maxOverallDate in
  walkLoop zone mode (Z.to_nat (lastChartDate - firstChartDate + 1)) lastChartDate
    {| currentDate := firstChartDate;
       currentSheetColIndex := firstFixedColumnIndex + 1;
       dailyDateToSheetColMap := [];
       weeklyHeaderStrings := [];
       weeklyHeaderStartColIndices := [] |}.

(** *** What the walk is expected to leave behind *)

(** The days from [firstChartDate] to [lastChartDate] that get a column. *)
Definition indexedDays (mode : WeekMode) (firstChartDate lastChartDate : Z) : list Z :=
  filter (fun d => dayIndexed mode (getDay d) = true)
    (seqZ firstChartDate (lastChartDate - firstChartDate + 1)).

(** Days paired with consecutive columns from [col] on. *)
Fixpoint columnsFrom (col : Z) (days : list Z) : list (Z * Z) :=
  match days with
  | [] => []
  | d :: days' => (d, col) :: columnsFrom (col + 1) days'
  end.

(** ** Terms *)

(** Code.js: terms as month ranges, [TERMS] (16-21). *)
Record MonthTerm := mkMonthTerm {
  mtName : string;
  startMonth : Z;
  endMonth : Z;
  mtColor : string
}.

Definition TERMS : list MonthTerm :=
  [ mkMonthTerm "T1" 2 4 "#2f75b5";
    mkMonthTerm "T2" 5 7 "#4a4e69";
    mkMonthTerm "T3" 8 10 "#3a6b35";
    mkMonthTerm "T4" 11 1 "#8b0000" ].

(** What [getTermForDate] returns in Code.js: [{ name, year, color }]. *)
Record TermOfDay := mkTermOfDay {
  todName : string;
  todYear : Z;
  todColor : string
}.

(** The [for (const term of TERMS)] loop of [getTermForDate] (Code.js
    100-136); [continue] goes on with the rest of the list. *)
Fixpoint getTermForDate_in (terms : list MonthTerm) (date : Z) : option TermOfDay :=
  match terms with
  | [] => None
  | term :: rest =>
      let month := getMonth date in
      let year := getFullYear date in
      let termStartMonth := startMonth term - 1 in
      let termEndMonth := endMonth term - 1 in
      let isT4 := String.eqb (mtName term) "T4" in
      let isT1 := String.eqb (mtName term) "T1" in
      let skip :=
        if isT4 then negb ((month =? 10) || (month =? 11) || (month =? 0))
        else isT1 && (month =? 0) in
      if skip then getTermForDate_in rest date
      else
        let termYearStart := if isT4 && (month =? 0) then year - 1 else year in
        let termYearEnd :=
          if isT4 && ((month =? 10) || (month =? 11)) then year + 1 else year in
        let termStartDate := newDate termYearStart termStartMonth 1 in
        let termEndDate := newDate termYearEnd (termEndMonth + 1) 0 in
        if (date >=? termStartDate) && (date <=? termEndDate) then
          let displayYear := if isT4 && (month =? 0) then year - 1 else year in
          Some (mkTermOfDay (mtName term) displayYear (mtColor term))
        else getTermForDate_in rest date
  end.

Definition getTermForDate (date : Z) : option TermOfDay :=
  getTermForDate_in TERMS date.

(** The later variants: a catalogue of dated terms, hard-coded
    ([TERMS_DATA]) or read from the "Terms" sheet.  The dates of the
    catalogue are strings "YYYY-MM-DD"; [getTermForDate] reads them with
    [new Date(string)] and [setHours(0, 0, 0, 0)], and [TERMS_DATA] holds
    the days this gives in the zone [UTC]. *)
Record Term := mkTerm {
  termName : string;
  termStart : Z;
  termEnd : Z;
  termColor : string
}.

Definition TERMS_DATA : list Term :=
  [ mkTerm "T1 2025" (ymd 2025 2 3) (ymd 2025 5 4) "#FF6B6B";
    mkTerm "T2 2025" (ymd 2025 5 5) (ymd 2025 8 17) "#4ECDC4";
    mkTerm "T3 2025" (ymd 2025 8 18) (ymd 2025 11 2) "#45B7D1";
    mkTerm "T4 2024" (ymd 2024 11 3) (ymd 2026 2 1) "#96CEB4" ].

(** [getTermForDate] of the variants: the first term of the catalogue whose
    range holds the day. *)
Fixpoint getTermForDate_catalog (terms : list Term) (date : Z) : option Term :=
  match terms with
  | [] => None
  | term :: rest =>
      if (date >=? termStart term) && (date <=? termEnd term) then Some term
      else getTermForDate_catalog rest date
  end.

(** ** Term header segments *)

(** A merge range of the term header row.  Columns come from [Map.get] and
    may be [undefined] ([None]); [currentTermColor] may be [null]. *)
Record TermRange := mkTermRange {
  startCol : option Z;
  endCol : option Z;
  text : string;
  color : option string
}.

Record TermLoop := mkTermLoop {
  lastTermKey : option string;
  currentTermMergeStartCol : option Z;
  currentTermColor : option string;
  termMergeRanges : list TermRange
}.

Section TermSegments.
Variable zone : Z.
(** Term key and colour of a day, [None] for [termForDay === null]:
    the pair [(currentTermKey, currentTermActualColor)].  [getTermForDate]
    goes by the local day of the [Date] it is given. *)
Variable termOf : Z -> option (string * string).
Variable dailyMap : list (Z * Z).
Variable sortedDailyDateKeys : list Z.

(** [if (lastTermKey !== null && currentTermMergeStartCol !== -1)
    termMergeRanges.push(...)] with the given end column. *)
Definition pushRange (st : TermLoop) (endColumn : option Z) : list TermRange :=
  match lastTermKey st with
  | Some key =>
      if decide (currentTermMergeStartCol st = Some (-1)) then termMergeRanges st
      else termMergeRanges st ++
             [ {| startCol := currentTermMergeStartCol st;
                  endCol := endColumn;
                  text := key;
                  color := currentTermColor st |} ]
  | None => termMergeRanges st
  end.

(** Round [i] of [for (let i = 0; i < sortedDailyDateKeys.length; i++)]. *)
Definition termLoopStep (st : TermLoop) (i : nat) : TermLoop :=
  match sortedDailyDateKeys !! i with
  | None => st
  | Some dateIso =>
      let dayDate := dateOfKey zone dateIso in
      let termForDay := termOf dayDate in
      let currentTermKey := fst <$> termForDay in
      let currentTermActualColor := snd <$> termForDay in
      let currentDayColIndex := mapGet dateIso dailyMap in
      if decide (currentTermKey = lastTermKey st) then st
      else
        let previousCol :=
          match i with
          | O => None
          | S j => sortedDailyDateKeys !! j ≫= fun k => mapGet k dailyMap
          end in
        {| lastTermKey := currentTermKey;
           currentTermMergeStartCol := currentDayColIndex;
           currentTermColor := currentTermActualColor;
           termMergeRanges := pushRange st previousCol |}
  end.

(** The loop and the push of the last range after it (Code.js 138-179). *)
Definition computeTermMergeRanges : list TermRange :=
  let st :=
    foldl termLoopStep
      {| lastTermKey := None;
         currentTermMergeStartCol := Some (-1);
         currentTermColor := None;
         termMergeRanges := [] |}
      (seq 0 (length sortedDailyDateKeys)) in
  pushRange st (last sortedDailyDateKeys ≫= fun k => mapGet k dailyMap).
End TermSegments.

(** [`${termForDay.name} ${termForDay.year}`] and the colour (Code.js). *)
Definition termOfMonthRule (date : Z) : option (string * string) :=
  (fun t => (todName t +:+ " " +:+ pretty (todYear t), todColor t))
    <$> getTermForDate date.

(** [`${termForDay.name}`] and the colour (later variants). *)
Definition termOfCatalog (terms : list Term) (date : Z) : option (string * string) :=
  (fun t => (termName t, termColor t)) <$> getTermForDate_catalog terms date.

(** What [generateTimelineHeaders] computes: the map, the column counts
    and the merge ranges of the term header row. *)
Record HeaderInfo := mkHeaderInfo {
  hiDailyDateToSheetColMap : list (Z * Z);
  totalDataColumns : Z;
  totalHeaderColumns : Z;
  hiSortedDailyDateKeys : list Z;
  hiTermMergeRanges : list TermRange;
  hiWeeklyHeaderStartColIndices : list Z
}.

(** [generateTimelineHeaders] of Code.js (66-254, work days, the month
    rule) and of the milestone variant (part_000 90-303, every day, the
    catalogue [TERMS_DATA]), in the script zone [zone]; [termOf] is the term
    lookup, a function of the local day.  [None] stands for a walk that
    does not end within its rounds.

    The terms-sheet variant has the same walk, but its term lookup reads
    the "Terms" sheet in every call and may end in an exception
    ([getTermsData]); its header rows are not covered by a [termOf] that
    always returns. *)
Definition generateTimelineHeaders (zone : Z) (mode : WeekMode)
    (termOf : Z -> option (string * string))
    (minOverallDate maxOverallDate firstFixedColumnIndex : Z)
  : option HeaderInfo :=
  w ← walkDays zone mode minOverallDate maxOverallDate firstFixedColumnIndex;
  let m := dailyDateToSheetColMap w in
  let totalDataColumns := currentSheetColIndex w - (firstFixedColumnIndex + 1) in
  let sortedDailyDateKeys := jsSort compareKeys (mapKeys m) in
  Some {| hiDailyDateToSheetColMap := m;
          totalDataColumns := totalDataColumns;
          totalHeaderColumns := firstFixedColumnIndex + totalDataColumns;
          hiSortedDailyDateKeys := sortedDailyDateKeys;
          hiTermMergeRanges :=
            computeTermMergeRanges zone termOf m sortedDailyDateKeys;
          hiWeeklyHeaderStartColIndices := weeklyHeaderStartColIndices w |}.

(** The columns a merge range spans, from [startCol] to [endCol]. *)
Definition rangeColumns (r : TermRange) : list Z :=
  match startCol r, endCol r with
  | Some a, Some b => seqZ a (b - a + 1)
  | _, _ => []
  end.

(** The columns of a merge range, each with the text of the range. *)
Definition rangeCells (r : TermRange) : list (Z * string) :=
  (fun col => (col, text r)) <$> rangeColumns r.

(** The term key of a day, [None] for a day that no term holds. *)
Definition termKeyOf (termOf : Z -> option (string * string)) (day : Z) : option string :=
  fst <$> termOf day.

(** The columns of the map whose day resolves to a term, in map order, each
    with the term key of its day. *)
Definition termColumns (termOf : Z -> option (string * string)) (m : list (Z * Z))
  : list (Z * string) :=
  omap (fun e => (fun key => (e.2, key)) <$> termKeyOf termOf e.1) m.

(** The state of the term loop before round [k], over the days [days]
    with columns from [c0]: [lastTermKey] is the key of the day before;
    the ranges pushed so far, with the columns of the run that is still
    open, are the term columns of the first [k] days. *)
Definition termLoopInv (termOf : Z -> option (string * string)) (c0 : Z)
    (days : list Z) (k : nat) (st : TermLoop) : Prop :=
  lastTermKey st
    = match k with
      | O => None
      | S j => days !! j ≫= termKeyOf termOf
      end
  /\ match lastTermKey st with
     | None =>
         concat (rangeCells <$> termMergeRanges st)
         = termColumns termOf (take k (columnsFrom c0 days))
     | Some key =>
         exists s : nat, (s < k)%nat
           /\ currentTermMergeStartCol st = Some (c0 + Z.of_nat s)
           /\ concat (rangeCells <$> termMergeRanges st)
                ++ ((fun col => (col, key)) <$> seqZ (c0 + Z.of_nat s) (Z.of_nat (k - s)))
              = termColumns termOf (take k (columnsFrom c0 days))
     end.

(** ** Normalisation of an end date before its start date *)

(** The rows of people, customers and milestones (Code.js 484-487 and
    728-731, the same in the variants):
    [if (endDate < startDate) endDate.setDate(startDate.getDate())]. *)
Definition adjustEndDate (startDate endDate : Z) : Z :=
  if endDate <? startDate then setDate endDate (getDate startDate) else endDate.

(** The rows of the project timeline (Code.js 896-899):
    [if (project.endDate < project.startDate)
       project.endDate = new Date(project.startDate)]. *)
Definition adjustProjectEndDate (startDate endDate : Z) : Z :=
  if endDate <? startDate then startDate else endDate.

(** ** The colour assigner *)

Definition availableColors : list string :=
  [ "#ADD8E6"; "#90EE90"; "#FFDAB9"; "#B0E0E6"; "#DDA0DD"; "#F0E68C";
    "#87CEEB"; "#F5DEB3"; "#C0C0C0"; "#FFA07A"; "#20B2AA"; "#E6E6FA";
    "#FFB6C1"; "#AFEEEE"; "#F08080"; "#DA70D6"; "#FFEFD5"; "#FFE4B5"; "#7FFFD4" ].

(** The variables [getProjectColor] closes over. *)
Record Colors := mkColors {
  projectColors : gmap string string;
  colorIndex : nat
}.

Definition noColors : Colors := {| projectColors := ∅; colorIndex := 0 |}.

(** [getProjectColor] (Code.js 541-547): the colour returned ([None] for
    [undefined]) and the variables after the call. *)
Definition getProjectColor (projectIdentifier : string) (c : Colors)
  : option string * Colors :=
  let c' :=
    match projectColors c !! projectIdentifier with
    | Some _ => c
    | None =>
        {| projectColors :=
             <[ projectIdentifier :=
                  availableColors !!! (colorIndex c mod length availableColors)%nat ]>
               (projectColors c);
           colorIndex := S (colorIndex c) |}
    end in
  (projectColors c' !! projectIdentifier, c').

(** The colours returned by successive calls within one run. *)
Fixpoint colorsFrom (c : Colors) (identifiers : list string) : list (option string) :=
  match identifiers with
  | [] => []
  | x :: rest =>
      let '(col, c') := getProjectColor x c in col :: colorsFrom c' rest
  end.

Definition colorsOfRun (identifiers : list string) : list (option string) :=
  colorsFrom noColors identifiers.

(** The distinct identifiers of a run in the order of their first request:
    an identifier that was not requested before goes to the end. *)
Definition seenAfter (seen identifiers : list string) : list string :=
  foldl (fun seen x => if decide (x ∈ seen) then seen else seen ++ [x]) seen identifiers.

Definition firstRequests (identifiers : list string) : list string :=
  seenAfter [] identifiers.

(** The variables of the assigner agree with the identifiers seen so far:
    the n-th of them (from 0) holds colour [n mod 19], no other has one. *)
Definition colorsAgree (c : Colors) (seen : list string) : Prop :=
  colorIndex c = length seen
  /\ NoDup seen
  /\ (forall n id, seen !! n = Some id ->
        projectColors c !! id
        = Some (availableColors !!! (n mod length availableColors)%nat))
  /\ (forall id, id ∉ seen -> projectColors c !! id = None).

(** ** Resolving an interval to a column span *)

(** What a bar-drawing round does: the span painted, if any, and the
    messages raised ([Logger.log], [Browser.msgBox]). *)
Record Drawn := mkDrawn {
  bar : option (Z * Z);
  messages : list string
}.

(** Code.js 303-318 (customers, [firstColumn = fixedColumnIndex + 1]) and
    599-615 (projects of a person, [firstColumn = 2]). *)
Definition resolveSpan (firstColumn totalHeaderColumns : Z) (m : list (Z * Z))
    (projectStartDate projectEndDate : Z) : Drawn :=
  let startSheetCol := mapGet projectStartDate m in
  let endSheetCol := mapGet projectEndDate m in
  let startSheetCol :=
    match startSheetCol with
    | Some c => if c <? firstColumn then firstColumn else c
    | None => firstColumn
    end in
  let endSheetCol :=
    match endSheetCol with
    | Some c => if c <? firstColumn then totalHeaderColumns else c
    | None => totalHeaderColumns
    end in
  let endSheetCol := if startSheetCol >? endSheetCol then startSheetCol else endSheetCol in
  let numColsToColor := endSheetCol - startSheetCol + 1 in
  {| bar := if numColsToColor >? 0 then Some (startSheetCol, endSheetCol) else None;
     messages := [] |}.

(** The customer and milestone rows of the later variants first test
    [startSheetCol === undefined || endSheetCol === undefined], raise a
    message box (its text goes on with the two ISO keys) and leave the
    round. *)
Definition resolveSpanChecked (firstColumn totalHeaderColumns : Z) (m : list (Z * Z))
    (customer : Customer) : Drawn :=
  match mapGet (customerStart customer) m, mapGet (customerEnd customer) m with
  | Some _, Some _ =>
      resolveSpan firstColumn totalHeaderColumns m
        (customerStart customer) (customerEnd customer)
  | _, _ =>
      {| bar := None;
         messages := ["Mapping is wrong for customer: " +:+ name customer] |}
  end.

(** For comparison, the reading of the design document: the column of the
    first indexed day at or after a day, and of the last one at or before. *)
Definition nearestColumnAtOrAfter (m : list (Z * Z)) (day : Z) : option Z :=
  snd <$> head (filter (fun e => day <= e.1) (jsSort (fun a b => a.1 - b.1) m)).

Definition nearestColumnAtOrBefore (m : list (Z * Z)) (day : Z) : option Z :=
  snd <$> last (filter (fun e => e.1 <= day) (jsSort (fun a b => a.1 - b.1) m)).

(** ** Mutable objects: shared [Date]s and the array that is sorted in place

    The objects of [customerData] hold references to [Date] objects; a
    [Date] is mutable ([setHours], [setDate]) and may be shared.  The array
    itself is mutable: [sort] reorders it in place. *)
Record CustomerObj := mkCustomerObj {
  objName : string;
  startRef : nat;
  endRef : nat
}.

#[export] Instance CustomerObj_eq_dec : EqDecision CustomerObj.
Proof. solve_decision. Defined.

Record Store := mkStore {
  dateObjects : gmap nat Z;
  customerData : list CustomerObj
}.

(** [d.getTime()] of the [Date] at a reference. *)
Definition timeOf (h : gmap nat Z) (r : nat) : Z := default 0 (h !! r).

(** The dates of an object, read through the store. *)
Definition datesIn (h : gmap nat Z) : HasDates CustomerObj :=
  {| startDate := fun o => timeOf h (startRef o);
     endDate := fun o => timeOf h (endRef o) |}.

(** [new Date(v)]: a fresh object. *)
Definition newDateObject (v : Z) (h : gmap nat Z) : nat * gmap nat Z :=
  let r := fresh (dom h) in (r, <[ r := v ]> h).

(** [d.setHours(0, 0, 0, 0)]: a write to the object; a whole day is its own
    start of day. *)
Definition setHoursZero (r : nat) (h : gmap nat Z) : gmap nat Z :=
  <[ r := timeOf h r ]> h.

(** What [populateCustomerRows] leaves behind: the packed rows with the
    bar of each member, the next free sheet row, and the store. *)
Record Populated := mkPopulated {
  packedCustomerRows : list (list (CustomerObj * Drawn));
  nextRow : Z;
  storeAfter : Store
}.

(** [populateCustomerRows] (Code.js 257-332) on the store. *)
Definition populateCustomerRows (σ : Store) (dailyMap : list (Z * Z))
    (totalHeaderColumns startRow fixedColumnIndex : Z) : Populated :=
  let h := dateObjects σ in
  match customerData σ with
  | [] => {| packedCustomerRows := []; nextRow := startRow; storeAfter := σ |}
  | _ =>
      let sorted := jsSort (byStartDate (H := datesIn h)) (customerData σ) in
      let rows : list (list CustomerObj) := packSorted (H := datesIn h) sorted in
      {| packedCustomerRows :=
           map (fun rowCustomers : list CustomerObj =>
              map (fun customer =>
                 (customer,
                  resolveSpan (fixedColumnIndex + 1) totalHeaderColumns dailyMap
                    (timeOf h (startRef customer)) (timeOf h (endRef customer))))
                rowCustomers) rows;
         nextRow := startRow + Z.of_nat (length rows);
         storeAfter := {| dateObjects := h; customerData := sorted |} |}
  end.

(** [getTermForDate] of Code.js on the store: the loop of
    [getTermForDate_in], with [date.setHours(0, 0, 0, 0)] written out for
    every term that is not skipped. *)
Fixpoint getTermForDate_store (terms : list MonthTerm) (month year : Z)
    (date : nat) (h : gmap nat Z) : option TermOfDay * gmap nat Z :=
  match terms with
  | [] => (None, h)
  | term :: rest =>
      let isT4 := String.eqb (mtName term) "T4" in
      let isT1 := String.eqb (mtName term) "T1" in
      let skip :=
        if isT4 then negb ((month =? 10) || (month =? 11) || (month =? 0))
        else isT1 && (month =? 0) in
      if skip then getTermForDate_store rest month year date h
      else
        let termYearStart := if isT4 && (month =? 0) then year - 1 else year in
        let termYearEnd :=
          if isT4 && ((month =? 10) || (month =? 11)) then year + 1 else year in
        let termStartDate := newDate termYearStart (startMonth term - 1) 1 in
        let termEndDate := newDate termYearEnd (endMonth term - 1 + 1) 0 in
        let h' := setHoursZero date h in
        if (timeOf h' date >=? termStartDate) && (timeOf h' date <=? termEndDate) then
          let displayYear := if isT4 && (month =? 0) then year - 1 else year in
          (Some (mkTermOfDay (mtName term) displayYear (mtColor term)), h')
        else getTermForDate_store rest month year date h'
  end.

(** One round of the term loop on the store:
    [const dayDate = new Date(dateIso); getTermForDate(dayDate)]. *)
Definition termRound_store (h : gmap nat Z) (dateIso : Z)
  : option TermOfDay * gmap nat Z :=
  let '(dayDate, h1) := newDateObject dateIso h in
  getTermForDate_store TERMS (getMonth (timeOf h1 dayDate))
    (getFullYear (timeOf h1 dayDate)) dayDate h1.

(** The store after the term loop over the day keys. *)
Definition termLoop_store (σ : Store) (sortedDailyDateKeys : list Z) : Store :=
  {| dateObjects :=
       foldl (fun h dateIso => (termRound_store h dateIso).2)
         (dateObjects σ) sortedDailyDateKeys;
     customerData := customerData σ |}.

(** ** Reading the interval rows *)

(** A data row of the "Customers" sheet after [new Date(cell)] and
    [setHours(0,0,0,0)]: a cell that is no date gives [None]. *)
Record CustomerRow := mkCustomerRow {
  crName : string;
  crStart : option Z;
  crEnd : option Z
}.

(** One round of [dataRows.forEach] in [getCustomerData] (Code.js 709-738):
    a row without any date is skipped, a missing date is copied from the
    other one, an end before the start is adjusted with [setDate]. *)
Definition customerOfRow (row : CustomerRow) : option Customer :=
  match crStart row, crEnd row with
  | None, None => None
  | Some startDate, Some endDate =>
      Some (mkCustomer (crName row) startDate (adjustEndDate startDate endDate))
  | Some startDate, None =>
      let endDate := startDate in
      Some (mkCustomer (crName row) startDate (adjustEndDate startDate endDate))
  | None, Some endDate =>
      let startDate := endDate in
      Some (mkCustomer (crName row) startDate (adjustEndDate startDate endDate))
  end.

(** [getCustomerData] (Code.js 686-741) on the data rows of a sheet that
    has the three header columns; without data rows the loop has nothing
    to push, as the early return has it. *)
Definition getCustomerData (dataRows : list CustomerRow) : list Customer :=
  omap customerOfRow dataRows.

(** The day before the first day of the month of a date. *)
Definition beforeMonth (d : Z) : Z := d - getDate d.

(** ** The weekly header row *)

(** A merged cell of header row 2: the first column and the number of
    columns, the two dates of its text, and its formatting. *)
Record WeekRange := mkWeekRange {
  wrStartCol : Z;
  wrNumCols : Z;
  wrText : Z * Z;
  wrBackground : string;
  wrFontColor : string;
  wrBold : bool
}.

(** [sortedDailyDateKeys[idx]] for a numeric index. *)
Definition keyAt (sortedDailyDateKeys : list Z) (idx : Z) : option Z :=
  if idx <? 0 then None else sortedDailyDateKeys !! Z.to_nat idx.

(** The formatting of a weekly header: [termForWeek && termForWeek.color]
    gives the colour of the term with bold white text, anything else the
    grey fallback. *)
Definition weekStyle (termForWeek : option (string * string)) : string * string * bool :=
  match termForWeek with
  | Some (_, color) =>
      if String.eqb color "" then ("#D3D3D3", "#000000", false)
      else (color, "#FFFFFF", true)
  | None => ("#D3D3D3", "#000000", false)
  end.

(** One round of the loop over [weeklyHeaderStrings] (Code.js 198-223 with
    [startCol + 4]; the terms-sheet variant has [startCol + 6], and a term
    lookup that may end in an exception, which [termOf] does not cover);
    the Monday is read back from the sorted keys with [new Date(key)], a
    missing key gives an invalid date, which is in no term. *)
Definition weekRange (zone : Z) (mode : WeekMode)
    (termOf : Z -> option (string * string))
    (firstFixedColumnIndex totalHeaderColumns : Z) (sortedDailyDateKeys : list Z)
    (text : Z * Z) (startCol : Z) : option WeekRange :=
  let endCol := Z.min (startCol + weekSpan mode) totalHeaderColumns in
  let numColsToMerge := endCol - startCol + 1 in
  if numColsToMerge >? 0 then
    let weekMonday :=
      dateOfKey zone
        <$> keyAt sortedDailyDateKeys (startCol - (firstFixedColumnIndex + 1)) in
    let termForWeek := weekMonday ≫= termOf in
    let '(background, fontColor, bold) := weekStyle termForWeek in
    Some (mkWeekRange startCol numColsToMerge text background fontColor bold)
  else None.

(** The weekly merge ranges [generateTimelineHeaders] paints. *)
Definition weeklyHeaderRanges (zone : Z) (mode : WeekMode)
    (termOf : Z -> option (string * string))
    (minOverallDate maxOverallDate firstFixedColumnIndex : Z)
  : option (list WeekRange) :=
  w ← walkDays zone mode minOverallDate maxOverallDate firstFixedColumnIndex;
  let totalDataColumns := currentSheetColIndex w - (firstFixedColumnIndex + 1) in
  let totalHeaderColumns := firstFixedColumnIndex + totalDataColumns in
  let sortedDailyDateKeys := jsSort compareKeys (mapKeys (dailyDateToSheetColMap w)) in
  Some (omap (fun '(text, startCol) =>
                weekRange zone mode termOf firstFixedColumnIndex totalHeaderColumns
                  sortedDailyDateKeys text startCol)
          (zip (weeklyHeaderStrings w) (weeklyHeaderStartColIndices w))).

(** The entries of a list of days and columns whose day is a Monday. *)
Definition mondaysOf (m : list (Z * Z)) : list (Z * Z) :=
  filter (fun e => getDay e.1 = 1) m.

(** ** Hiding the columns before today *)

(** The call of [sheet.hideColumns] at the end of
    [generateTimelineHeaders] (Code.js 238-251): the first column and the
    number of columns to hide, if any.  [today] is the time value of
    [new Date()], the current time; it is looked up by its key
    [todayISO], and compared with [new Date(sortedDailyDateKeys[0])]. *)
Definition columnsToHide (firstFixedColumnIndex totalDataColumns : Z)
    (dailyMap : list (Z * Z)) (sortedDailyDateKeys : list Z) (today : Z)
  : option (Z * Z) :=
  let todayISO := isoDateKey today in
  match mapGet todayISO dailyMap with
  | Some currentDayCol =>
      if currentDayCol >? firstFixedColumnIndex + 1 then
        let numColsToHide := currentDayCol - (firstFixedColumnIndex + 1) in
        if numColsToHide >? 0 then Some (firstFixedColumnIndex + 1, numColsToHide)
        else None
      else None
  | None =>
      match sortedDailyDateKeys with
      | firstKey :: _ =>
          if newDateOfKey firstKey >? today
          then Some (firstFixedColumnIndex + 1, totalDataColumns)
          else None
      | [] => None
      end
  end.

Definition hiddenColumns (zone : Z) (mode : WeekMode)
    (termOf : Z -> option (string * string))
    (minOverallDate maxOverallDate firstFixedColumnIndex today : Z)
  : option (option (Z * Z)) :=
  info ← generateTimelineHeaders zone mode termOf minOverallDate maxOverallDate
            firstFixedColumnIndex;
  Some (columnsToHide firstFixedColumnIndex (totalDataColumns info)
          (hiDailyDateToSheetColMap info) (hiSortedDailyDateKeys info) today).

(** [sheet.hideColumns(columnIndex, numColumns)] hides the columns from
    [columnIndex] to [columnIndex + numColumns - 1]. *)
Definition hides (hidden : option (Z * Z)) (col : Z) : Prop :=
  match hidden with
  | Some (columnIndex, numColumns) => columnIndex <= col < columnIndex + numColumns
  | None => False
  end.

(** The column the walk gives a day: a day from the first to the last day
    of the walk whose weekday is shown comes after the shown days before
    it. *)
Definition columnOf (mode : WeekMode) (firstColumn firstChartDate lastChartDate d : Z)
  : option Z :=
  if (firstChartDate <=? d) && (d <=? lastChartDate) && dayIndexed mode (getDay d)
  then Some (firstColumn + Z.of_nat (length (indexedDays mode firstChartDate (d - 1))))
  else None.

(** ** The rows of the "Combined" sheet (milestone variant)

    The milestone variant reads one sheet: a row whose Person cell is
    'Milestone' is a milestone, every other row an assignment of a person.
    A date cell that is no date gives [None]. *)
Record SheetRow := mkSheetRow {
  cellPerson : string;
  cellProject : string;
  cellSummary : string;
  cellStart : option Z;
  cellEnd : option Z
}.

(** One round of [dataRows.forEach] in [getMilestoneData] (part_000
    693-729): the rows of milestones only, from there on as for a
    customer, with the Summary cell as the name. *)
Definition milestoneOfRow (row : SheetRow) : option Customer :=
  if decide (cellPerson row = "Milestone") then
    customerOfRow {| crName := cellSummary row;
                     crStart := cellStart row;
                     crEnd := cellEnd row |}
  else None.

(** [getMilestoneData] (part_000 669-732) on the data rows of a sheet that
    has the four header columns. *)
Definition getMilestoneData (dataRows : list SheetRow) : list Customer :=
  omap milestoneOfRow dataRows.

(** ** The date range and the projects of each person *)

(** [new Date(8640000000000000)], the latest date there is, in days; the
    earliest one is its negation. *)
Definition latestDate : Z := 100000000.

(** [milestoneData.forEach] (part_000 445-448), [customerData.forEach]
    (Code.js 452-455, part_000 1216-1219). *)
Definition widenByCustomer (range : Z * Z) (customer : Customer) : Z * Z :=
  let '(minOverallTimelineDate, maxOverallTimelineDate) := range in
  (if customerStart customer <? minOverallTimelineDate
   then customerStart customer else minOverallTimelineDate,
   if customerEnd customer >? maxOverallTimelineDate
   then customerEnd customer else maxOverallTimelineDate).

(** The variables the loop over the rows of people updates. *)
Record Collected := mkCollected {
  minOverallTimelineDate : Z;
  maxOverallTimelineDate : Z;
  projectsByPerson : gmap string (list Project)
}.

(** One round of the loop over the rows of people (part_000 452-495 with
    the test for 'Milestone', 1222-1261 without it): a row without two
    dates is skipped; the objects of the variants hold
    [{ key, summary, startDate, endDate }]. *)
Definition collectRow (skipMilestones : bool) (acc : Collected) (row : SheetRow)
  : Collected :=
  let person := cellPerson row in
  if skipMilestones && String.eqb person "Milestone" then acc
  else
    match cellStart row, cellEnd row with
    | Some startDate, Some endDate =>
        let endDate := adjustEndDate startDate endDate in
        {| minOverallTimelineDate :=
             if startDate <? minOverallTimelineDate acc
             then startDate else minOverallTimelineDate acc;
           maxOverallTimelineDate :=
             if endDate >? maxOverallTimelineDate acc
             then endDate else maxOverallTimelineDate acc;
           projectsByPerson :=
             <[ person := default [] (projectsByPerson acc !! person)
                          ++ [ mkProject (cellProject row) (cellSummary row) None
                                 startDate endDate None ] ]>
               (projectsByPerson acc) |}
    | _, _ => acc
    end.

(** Part 3 of [updatePeopleTimeline] in the variants: the range over the
    milestones (or customers), then over the rows of people. *)
Definition collect (skipMilestones : bool) (milestoneData : list Customer)
    (dataRows : list SheetRow) : Collected :=
  let range := foldl widenByCustomer (latestDate, - latestDate) milestoneData in
  foldl (collectRow skipMilestones)
    {| minOverallTimelineDate := range.1;
       maxOverallTimelineDate := range.2;
       projectsByPerson := ∅ |}
    dataRows.

(** *** The rows that are kept *)

(** The assignment a row of people stands for, if it is kept. *)
Definition assignmentOfRow (skipMilestones : bool) (row : SheetRow) : option Project :=
  if skipMilestones && String.eqb (cellPerson row) "Milestone" then None
  else
    startDate ← cellStart row;
    endDate ← cellEnd row;
    Some (mkProject (cellProject row) (cellSummary row) None
            startDate (adjustEndDate startDate endDate) None).

Definition assignmentsOf (skipMilestones : bool) (person : string)
    (dataRows : list SheetRow) : list Project :=
  omap (assignmentOfRow skipMilestones)
    (filter (fun row => cellPerson row = person) dataRows).


(** ** Reading the "Terms" sheet (terms-sheet variant)

    A run either returns or stops at an exception. *)
Inductive Outcome (A : Type) :=
  | Returned (a : A)
  | Thrown (error : string).
Arguments Returned {A} a.
Arguments Thrown {A} error.

(** A date cell as [getValues] returns it: a [Date], a string (with what
    [new Date(string)] makes of it, [None] for an invalid date; an empty
    cell is the empty string), or a value of another type. *)
Inductive DateCell :=
  | DateValue (d : Z)
  | StringValue (parsed : option Z)
  | OtherValue.

Record TermRow := mkTermRow {
  trName : string;
  trStart : DateCell;
  trEnd : DateCell;
  trBackground : string
}.

(** [startDate.getTime()] after
    [if (typeof startDate === 'string') startDate = new Date(startDate)]:
    a value that is neither a [Date] nor a string has no [getTime]. *)
Definition getTimeOfCell (cell : DateCell) : Outcome (option Z) :=
  match cell with
  | DateValue d => Returned (Some d)
  | StringValue parsed => Returned parsed
  | OtherValue => Thrown "TypeError: getTime is not a function"
  end.

(** One round of [dataRows.forEach] in [getTermsData] (part_000 783-829):
    the term to push, if any.  The colour is settled first; for a name cell
    without a background, or with a white one, the round calls
    [getTermColor], which no file defines.  [isNaN(startDate.getTime()) ||
    isNaN(endDate.getTime())] does not look at the end date when the start
    date is invalid. *)
Definition termOfRow (row : TermRow) : Outcome (option Term) :=
  let backgroundColor := trBackground row in
  if negb (String.eqb backgroundColor "")
     && negb (String.eqb backgroundColor "#ffffff")
     && negb (String.eqb backgroundColor "#FFFFFF")
  then
    let color := backgroundColor in
    match getTimeOfCell (trStart row) with
    | Thrown error => Thrown error
    | Returned None => Returned None
    | Returned (Some startDate) =>
        match getTimeOfCell (trEnd row) with
        | Thrown error => Thrown error
        | Returned None => Returned None
        | Returned (Some endDate) =>
            if endDate <? startDate then Returned None
            else Returned (Some (mkTerm (trName row) startDate endDate color))
        end
    end
  else Thrown "ReferenceError: getTermColor is not defined".

(** [getTermsData] (part_000 760-832) on the data rows of a sheet that has
    the three header columns: [dataRows.forEach] with [terms.push]; an
    exception ends the loop. *)
Definition getTermsData (dataRows : list TermRow) : Outcome (list Term) :=
  foldl (fun terms row =>
           match terms with
           | Thrown error => Thrown error
           | Returned terms =>
               match termOfRow row with
               | Thrown error => Thrown error
               | Returned None => Returned terms
               | Returned (Some term) => Returned (terms ++ [term])
               end
           end)
    (Returned []) dataRows.

(** A name cell whose background gives the term its colour. *)
Definition colored (row : TermRow) : Prop :=
  trBackground row <> "" /\ trBackground row <> "#ffffff"
  /\ trBackground row <> "#FFFFFF".

#[export] Instance colored_dec row : Decision (colored row).
Proof. unfold colored. apply _. Defined.

(** The date of a cell, if it holds one. *)
Definition dateOfCell (cell : DateCell) : option Z :=
  match cell with
  | DateValue d => Some d
  | StringValue parsed => parsed
  | OtherValue => None
  end.

(** The term of a row with two dates in order. *)
Definition datedTerm (row : TermRow) : option Term :=
  startDate ← dateOfCell (trStart row);
  endDate ← dateOfCell (trEnd row);
  if endDate <? startDate then None
  else Some (mkTerm (trName row) startDate endDate (trBackground row)).

Section PackerOrder.
Context {A : Type} `{HasDates A}.

(** The members of a row follow one another in time: an earlier member
    starts no later than a later one, and ends before it starts. *)
Definition rowChronological (row : list A) : Prop :=
  forall i j a b, (i < j)%nat -> row !! i = Some a -> row !! j = Some b ->
    startDate a <= startDate b /\ endDate a < startDate b.

(** No member of a row fits into an earlier row: it overlaps some member
    of each of them. *)
Definition rowsGreedy (rows : list (list A)) : Prop :=
  forall i j earlier later x,
    (i < j)%nat -> rows !! i = Some earlier -> rows !! j = Some later -> x ∈ later ->
    exists y, y ∈ earlier /\ overlaps x y.
End PackerOrder.

(** ** The projects of the project timeline (Code.js) *)

(** A data row of the "Projects" sheet; a date cell that is no date gives
    [None], an empty Epic Name cell gives [null]. *)
Record ProjectRow := mkProjectRow {
  rowKey : string;
  rowSummary : string;
  rowEpicName : option string;
  rowStart : option Z;
  rowDue : option Z;
  rowStatus : option string
}.

(** The first pass over the rows (Code.js 847-877): each valid date widens
    the range on its own. *)
Definition widenByProjectRow (range : Z * Z) (row : ProjectRow) : Z * Z :=
  let '(minOverallStartDateFound, maxOverallEndDateFound) := range in
  (match rowStart row with
   | Some startDate =>
       if startDate <? minOverallStartDateFound then startDate
       else minOverallStartDateFound
   | None => minOverallStartDateFound
   end,
   match rowDue row with
   | Some endDate =>
       if endDate >? maxOverallEndDateFound then endDate else maxOverallEndDateFound
   | None => maxOverallEndDateFound
   end).

(** The range of the project timeline (Code.js 837-884): when the minimum
    is still the latest date there is, the range is the month of today. *)
Definition projectsRange (today : Z) (customers : list Customer)
    (dataRowsProjects : list ProjectRow) : Z * Z :=
  let range :=
    foldl widenByProjectRow
      (foldl widenByCustomer (latestDate, - latestDate) customers)
      dataRowsProjects in
  if range.1 =? latestDate then
    (newDate (getFullYear today) (getMonth today) 1,
     newDate (getFullYear today) (getMonth today + 1) 0)
  else range.

(** The second pass (Code.js 886-900): a missing start date becomes the
    minimum of the range, a missing due date the maximum, and an end date
    before the start date becomes the start date. *)
Definition defaultProject (range : Z * Z) (row : ProjectRow) : Project :=
  let startDate := default range.1 (rowStart row) in
  let endDate := default range.2 (rowDue row) in
  mkProject (rowKey row) (rowSummary row) (rowEpicName row)
    startDate (adjustProjectEndDate startDate endDate) (rowStatus row).

(** [allProjectsData] after the sort of Code.js 908. *)
Definition allProjectsData (today : Z) (customers : list Customer)
    (dataRowsProjects : list ProjectRow) : list Project :=
  let range := projectsRange today customers dataRowsProjects in
  jsSort byStartDate (defaultProject range <$> dataRowsProjects).

(** ** The weekly header row of the milestone variant

    The milestone variant does not use the recorded Mondays: it walks the
    sorted keys and merges each run of work days and each run of weekend
    days (part_000 196-270). *)

(** A merged cell of that row, with the first and the last key of its
    block, from which its text is formatted; a weekend block has no
    text. *)
Record HeaderBlock := mkHeaderBlock {
  hbStartCol : Z;
  hbNumCols : Z;
  hbText : option (Z * Z);
  hbBackground : string;
  hbFontColor : string;
  hbBold : bool
}.

Definition isWorkDay (dayOfWeek : Z) : bool := (1 <=? dayOfWeek) && (dayOfWeek <=? 5).
Definition isWeekendDay (dayOfWeek : Z) : bool := (dayOfWeek =? 6) || (dayOfWeek =? 0).

(** The inner [while]: [endIdx] moves on while the next key exists and
    the weekday of [new Date(key)] belongs to the block; [None] when the
    rounds run out. *)
Fixpoint runEnd (zone : Z) (inBlock : Z -> bool) (sortedDailyDateKeys : list Z)
    (rounds endIdx : nat) : option nat :=
  match sortedDailyDateKeys !! S endIdx with
  | Some next =>
      if inBlock (getDay (dateOfKey zone next)) then
        match rounds with
        | O => None
        | S rounds' => runEnd zone inBlock sortedDailyDateKeys rounds' (S endIdx)
        end
      else Some endIdx
  | None => Some endIdx
  end.

(** [endCol - startCol + 1] and the test [numColsToMerge > 0]; a column
    that is [undefined] makes the number [NaN] and the test false. *)
Definition blockColumns (startCol endCol : option Z) : option (Z * Z) :=
  match startCol, endCol with
  | Some s, Some e => if e - s + 1 >? 0 then Some (s, e - s + 1) else None
  | _, _ => None
  end.

(** The outer [while (i < sortedDailyDateKeys.length)]; [dayDate] is
    [new Date(dateIso)], read in the script zone. *)
Fixpoint blockLoop (zone : Z) (termOf : Z -> option (string * string))
    (dailyMap : list (Z * Z)) (sortedDailyDateKeys : list Z) (rounds i : nat)
  : option (list HeaderBlock) :=
  match sortedDailyDateKeys !! i with
  | None => Some []
  | Some dateIso =>
      match rounds with
      | O => None
      | S rounds' =>
          let dayDate := dateOfKey zone dateIso in
          let dayOfWeek := getDay dayDate in
          if isWorkDay dayOfWeek then
            let startCol := mapGet dateIso dailyMap in
            endIdx ← runEnd zone isWorkDay sortedDailyDateKeys
                       (length sortedDailyDateKeys) i;
            let endKey := sortedDailyDateKeys !! endIdx in
            let endCol := endKey ≫= fun k => mapGet k dailyMap in
            let block :=
              match blockColumns startCol endCol with
              | Some (s, n) =>
                  let '(background, fontColor, bold) := weekStyle (termOf dayDate) in
                  [ mkHeaderBlock s n ((fun k => (dateIso, k)) <$> endKey)
                      background fontColor bold ]
              | None => []
              end in
            rest ← blockLoop zone termOf dailyMap sortedDailyDateKeys rounds' (S endIdx);
            Some (block ++ rest)
          else if isWeekendDay dayOfWeek then
            let startCol := mapGet dateIso dailyMap in
            endIdx ← runEnd zone isWeekendDay sortedDailyDateKeys
                       (length sortedDailyDateKeys) i;
            let endCol := sortedDailyDateKeys !! endIdx ≫= fun k => mapGet k dailyMap in
            let block :=
              match blockColumns startCol endCol with
              | Some (s, n) => [ mkHeaderBlock s n None "#D3D3D3" "#000000" false ]
              | None => []
              end in
            rest ← blockLoop zone termOf dailyMap sortedDailyDateKeys rounds' (S endIdx);
            Some (block ++ rest)
          else blockLoop zone termOf dailyMap sortedDailyDateKeys rounds' (S i)
      end
  end.

(** The blocks [generateTimelineHeaders] of the milestone variant paints;
    every round moves [i] on, so the number of keys bounds the rounds. *)
Definition weeklyHeaderBlocks (zone : Z) (termOf : Z -> option (string * string))
    (minOverallDate maxOverallDate firstFixedColumnIndex : Z)
  : option (list HeaderBlock) :=
  info ← generateTimelineHeaders zone FullWeek termOf minOverallDate maxOverallDate
            firstFixedColumnIndex;
  blockLoop zone termOf (hiDailyDateToSheetColMap info) (hiSortedDailyDateKeys info)
    (length (hiSortedDailyDateKeys info)) 0.

(** The two blocks of week [k] (from 0) of a walk that starts on [monday]:
    the work days and the weekend. *)
Definition weekBlocks (termOf : Z -> option (string * string))
    (monday firstFixedColumnIndex : Z) (k : nat) : list HeaderBlock :=
  let weekMonday := monday + 7 * Z.of_nat k in
  let col := firstFixedColumnIndex + 1 + 7 * Z.of_nat k in
  let '(background, fontColor, bold) := weekStyle (termOf weekMonday) in
  [ mkHeaderBlock col 5 (Some (weekMonday, weekMonday + 4)) background fontColor bold;
    mkHeaderBlock (col + 5) 2 None "#D3D3D3" "#000000" false ].

(** ** The rows of people in Code.js: dates taken over from the project

    A row of the "People" sheet without a date of its own takes the [Date]
    object of its project: the object is shared by every row that takes it
    and by the map of the projects, and [setDate] writes to it. *)

(** An entry of [projectDetailsMap]; the two dates are references to
    [Date] objects, or [null]. *)
Record ProjectDetail := mkProjectDetail {
  pdSummary : string;
  pdEpicName : option string;
  pdProjectStartDate : option nat;
  pdProjectEndDate : option nat;
  pdStatus : option string
}.

(** [new Date(cell)] with the test [isNaN(date.getTime())]: a valid date
    is a fresh object; an invalid one is never stored, so it stays [None]. *)
Definition newDateOfCell (cell : option Z) (h : gmap nat Z) : option nat * gmap nat Z :=
  match cell with
  | Some v => let '(r, h') := newDateObject v h in (Some r, h')
  | None => (None, h)
  end.

(** One round of [dataRowsProjectsRaw.forEach] (Code.js 407-431): a row
    without a key gives no entry, a later row of the same key replaces the
    entry of an earlier one. *)
Definition projectDetailRound (acc : gmap nat Z * gmap string ProjectDetail)
    (row : ProjectRow) : gmap nat Z * gmap string ProjectDetail :=
  let '(h, projectDetailsMap) := acc in
  let '(projectStartDate, h) := newDateOfCell (rowStart row) h in
  let '(projectEndDate, h) := newDateOfCell (rowDue row) h in
  if String.eqb (rowKey row) "" then (h, projectDetailsMap)
  else (h, <[ rowKey row :=
              mkProjectDetail (rowSummary row) (rowEpicName row)
                projectStartDate projectEndDate (rowStatus row) ]>
             projectDetailsMap).

(** A data row of the "People" sheet. *)
Record PeopleRow := mkPeopleRow {
  prPerson : string;
  prProject : string;
  prStart : option Z;
  prEnd : option Z
}.

(** An object pushed to the list of a person; its dates are references. *)
Record Assigned := mkAssigned {
  asKey : string;
  asSummary : string;
  asEpicName : option string;
  asStartRef : nat;
  asEndRef : nat;
  asStatus : option string
}.

(** The variables of the loop: the [Date] objects, the two ends of the
    range (references as well) and the lists of the persons. *)
Record People := mkPeople {
  peDates : gmap nat Z;
  peMin : nat;
  peMax : nat;
  peProjectsByPerson : gmap string (list Assigned)
}.

(** The entry of a key, or the entry made up for a key without one. *)
Definition projectDetailOf (projectDetailsMap : gmap string ProjectDetail)
    (jiraKeyFromPeople : string) : ProjectDetail :=
  default (mkProjectDetail jiraKeyFromPeople None None None None)
    (projectDetailsMap !! jiraKeyFromPeople).

(** One round of [dataRowsPeople.forEach] (Code.js 459-508). *)
Definition peopleRound (projectDetailsMap : gmap string ProjectDetail)
    (st : People) (row : PeopleRow) : People :=
  let person := prPerson row in
  let jiraKeyFromPeople := prProject row in
  let '(startDate, h) := newDateOfCell (prStart row) (peDates st) in
  let '(endDate, h) := newDateOfCell (prEnd row) h in
  let projectDetail := projectDetailOf projectDetailsMap jiraKeyFromPeople in
  let startDate :=
    match startDate with
    | Some r => Some r
    | None => pdProjectStartDate projectDetail
    end in
  let endDate :=
    match endDate with
    | Some r => Some r
    | None => pdProjectEndDate projectDetail
    end in
  match startDate, endDate with
  | Some startDate, Some endDate =>
      let h :=
        if timeOf h endDate <? timeOf h startDate
        then <[ endDate := setDate (timeOf h endDate) (getDate (timeOf h startDate)) ]> h
        else h in
      {| peDates := h;
         peMin := if timeOf h startDate <? timeOf h (peMin st)
                  then startDate else peMin st;
         peMax := if timeOf h endDate >? timeOf h (peMax st)
                  then endDate else peMax st;
         peProjectsByPerson :=
           <[ person := default [] (peProjectsByPerson st !! person)
                        ++ [ mkAssigned jiraKeyFromPeople (pdSummary projectDetail)
                               (pdEpicName projectDetail) startDate endDate
                               (pdStatus projectDetail) ] ]>
             (peProjectsByPerson st) |}
  | _, _ =>
      {| peDates := h;
         peMin := peMin st;
         peMax := peMax st;
         peProjectsByPerson := peProjectsByPerson st |}
  end.

Definition peopleLoop (projectDetailsMap : gmap string ProjectDetail)
    (st : People) (dataRowsPeople : list PeopleRow) : People :=
  foldl (peopleRound projectDetailsMap) st dataRowsPeople.

(** An assignment with the dates its references hold. *)
Definition projectOf (h : gmap nat Z) (a : Assigned) : Project :=
  mkProject (asKey a) (asSummary a) (asEpicName a)
    (timeOf h (asStartRef a)) (timeOf h (asEndRef a)) (asStatus a).

(** *** The rows in terms of their dates *)

(** The date a row works with: its own, else the one of its project. *)
Definition dateOrElse (h : gmap nat Z) (cell : option Z) (projectDate : option nat)
  : option Z :=
  match cell with
  | Some v => Some v
  | None => timeOf h <$> projectDate
  end.

(** The assignment a row stands for when the dates of the projects are
    read from the store [h]. *)
Definition assignmentOfPeopleRow (h : gmap nat Z)
    (projectDetailsMap : gmap string ProjectDetail) (row : PeopleRow) : option Project :=
  let projectDetail := projectDetailOf projectDetailsMap (prProject row) in
  startDate ← dateOrElse h (prStart row) (pdProjectStartDate projectDetail);
  endDate ← dateOrElse h (prEnd row) (pdProjectEndDate projectDetail);
  Some (mkProject (prProject row) (pdSummary projectDetail) (pdEpicName projectDetail)
          startDate (adjustEndDate startDate endDate) (pdStatus projectDetail)).

(** No row that takes the due date of its project starts after it, so
    that no shared date is adjusted. *)
Definition dueDatesHold (h : gmap nat Z) (projectDetailsMap : gmap string ProjectDetail)
    (dataRowsPeople : list PeopleRow) : Prop :=
  Forall (fun row =>
            prEnd row = None ->
            forall startDate due,
              dateOrElse h (prStart row)
                (pdProjectStartDate (projectDetailOf projectDetailsMap (prProject row)))
              = Some startDate ->
              pdProjectEndDate (projectDetailOf projectDetailsMap (prProject row))
              = Some due ->
              startDate <= timeOf h due)
    dataRowsPeople.

(** The references of the map of the projects and of the range hold
    objects of the store. *)
Definition allocated (h : gmap nat Z) (projectDetailsMap : gmap string ProjectDetail)
    (st : People) : Prop :=
  peDates st = h
  /\ peProjectsByPerson st = ∅
  /\ is_Some (h !! peMin st) /\ is_Some (h !! peMax st)
  /\ (forall k pd r, projectDetailsMap !! k = Some pd ->
        pdProjectStartDate pd = Some r \/ pdProjectEndDate pd = Some r ->
        is_Some (h !! r)).

(** The objects of [h] are objects of [h'], unchanged. *)
Definition keeps (h h' : gmap nat Z) : Prop :=
  forall r, is_Some (h !! r) -> h' !! r = h !! r.

(** What a round leaves behind, in terms of the assignment of its row. *)
Definition roundResult (h0 : gmap nat Z) (projectDetailsMap : gmap string ProjectDetail)
    (st st' : People) (row : PeopleRow) : Prop :=
  keeps (peDates st) (peDates st')
  /\ is_Some (peDates st' !! peMin st') /\ is_Some (peDates st' !! peMax st')
  /\ match assignmentOfPeopleRow h0 projectDetailsMap row with
     | Some x =>
         exists a,
           peProjectsByPerson st'
           = <[ prPerson row := default [] (peProjectsByPerson st !! prPerson row) ++ [a] ]>
               (peProjectsByPerson st)
           /\ projectOf (peDates st') a = x
           /\ is_Some (peDates st' !! asStartRef a)
           /\ is_Some (peDates st' !! asEndRef a)
           /\ timeOf (peDates st') (peMin st')
              = Z.min (projectStart x) (timeOf (peDates st) (peMin st))
           /\ timeOf (peDates st') (peMax st')
              = Z.max (projectEnd x) (timeOf (peDates st) (peMax st))
     | None =>
         peProjectsByPerson st' = peProjectsByPerson st
         /\ peMin st' = peMin st /\ peMax st' = peMax st
     end.

(** The map of the projects after [dataRowsProjectsRaw.forEach], with the
    store. *)
Definition projectDetails (h : gmap nat Z) (dataRowsProjectsRaw : list ProjectRow)
  : gmap nat Z * gmap string ProjectDetail :=
  foldl projectDetailRound (h, ∅) dataRowsProjectsRaw.

(** An entry of the map agrees with a row of the sheet: the texts of the
    row, and objects that hold its dates. *)
Definition detailOfRow (h : gmap nat Z) (pd : ProjectDetail) (row : ProjectRow) : Prop :=
  pdSummary pd = rowSummary row
  /\ pdEpicName pd = rowEpicName row
  /\ pdStatus pd = rowStatus row
  /\ (fun r => h !! r) <$> pdProjectStartDate pd = Some <$> rowStart row
  /\ (fun r => h !! r) <$> pdProjectEndDate pd = Some <$> rowDue row.

(** * Properties *)

(** Case analysis on the integer comparisons of the goal. *)
Ltac destruct_comparisons :=
  repeat (match goal with
          | |- context [?a <? ?b] => destruct (Z.ltb_spec a b)
          | |- context [?a >=? ?b] => destruct (Z.geb_spec a b)
          | |- context [?a <=? ?b] => destruct (Z.leb_spec a b)
          end; cbn [andb]).

(** ** The calendar *)

Lemma YearFromTime_spec t :
  DayFromYear (YearFromTime t) <= t < DayFromYear (YearFromTime t + 1).
Proof.
  unfold YearFromTime. cbv zeta.
  set (y := 1970 + t * 400 / 146097).
  assert (Hy : 146097 * (y - 1970) <= t * 400 < 146097 * (y - 1970) + 146097)
    by (subst y; Z.div_mod_to_equations; lia).
  clearbody y.
  destruct (Z.ltb_spec t (DayFromYear y)) as [H1|H1];
    [|destruct (Z.leb_spec (DayFromYear (y + 1)) t) as [H2|H2]];
    unfold DayFromYear in *; Z.div_mod_to_equations; lia.
Qed.

Lemma DayFromYear_succ y : DayFromYear (y + 1) = DayFromYear y + DaysInYear y.
Proof.
  unfold DayFromYear, DaysInYear.
  repeat (case_match; simpl in * );
    rewrite ?negb_true_iff, ?negb_false_iff, ?Z.eqb_eq, ?Z.eqb_neq in *;
    Z.div_mod_to_equations; lia.
Qed.

Lemma MonthFromTime_range t : 0 <= MonthFromTime t <= 11.
Proof. unfold MonthFromTime. cbv zeta. repeat case_match; lia. Qed.

(** Setting the day of the month relative to the current one moves the
    date by that many days: [d.setDate(d.getDate() + k)] is [d + k]. *)
Lemma MakeDay_fields t k :
  MakeDay (YearFromTime t) (MonthFromTime t) (DateFromTime t + k) = t + k.
Proof.
  pose proof (MonthFromTime_range t) as Hm.
  unfold MakeDay. cbv zeta.
  rewrite (Z.div_small (MonthFromTime t) 12), (Z.mod_small (MonthFromTime t) 12) by lia.
  rewrite Z.add_0_r. unfold DateFromTime, DayWithinYear, InLeapYear. lia.
Qed.

Lemma setDate_shift d k : setDate d (getDate d + k) = d + k.
Proof. apply MakeDay_fields. Qed.

Lemma newDate_full y m dt : ~ (0 <= y <= 99) -> newDate y m dt = MakeDay y m dt.
Proof.
  intros Hy. unfold newDate. cbv zeta.
  destruct (Z.leb_spec 0 y); destruct (Z.leb_spec y 99); simpl; try done; lia.
Qed.

Lemma MakeDay_month y m dt :
  0 <= m <= 11 ->
  MakeDay y m dt
  = DayFromYear y + monthStart (if DaysInYear y =? 366 then 1 else 0) m + dt - 1.
Proof.
  intros Hm. unfold MakeDay. cbv zeta.
  rewrite (Z.div_small m 12), (Z.mod_small m 12), Z.add_0_r by lia. done.
Qed.

Lemma DaysInYear_cases y : DaysInYear y = 365 \/ DaysInYear y = 366.
Proof. unfold DaysInYear. repeat case_match; auto. Qed.

Lemma DayFromYear_mono y1 y2 : y1 <= y2 -> DayFromYear y1 <= DayFromYear y2.
Proof. intros Hle. unfold DayFromYear. Z.div_mod_to_equations; lia. Qed.

Lemma YearFromTime_mono d1 d2 : d1 <= d2 -> YearFromTime d1 <= YearFromTime d2.
Proof.
  intros Hle. pose proof (YearFromTime_spec d1) as H1.
  pose proof (YearFromTime_spec d2) as H2.
  destruct (Z.le_gt_cases (YearFromTime d1) (YearFromTime d2)) as [|Hgt]; [done|].
  pose proof (DayFromYear_mono (YearFromTime d2 + 1) (YearFromTime d1)). lia.
Qed.

(** The calendar fields of a day, as linear facts: the day within its year
    lies between the start of its month and the start of the next. *)
Lemma calendar_fields d :
  let Y := YearFromTime d in
  let L := InLeapYear d in
  let w := d - DayFromYear Y in
  (L = 0 \/ L = 1)
  /\ DaysInYear Y = 365 + L
  /\ 0 <= w < 365 + L
  /\ DayFromYear (Y + 1) = DayFromYear Y + 365 + L
  /\ (MonthFromTime d = 0 /\ w < 31
      \/ MonthFromTime d = 1 /\ 31 <= w < 59 + L
      \/ MonthFromTime d = 2 /\ 59 + L <= w < 90 + L
      \/ MonthFromTime d = 3 /\ 90 + L <= w < 120 + L
      \/ MonthFromTime d = 4 /\ 120 + L <= w < 151 + L
      \/ MonthFromTime d = 5 /\ 151 + L <= w < 181 + L
      \/ MonthFromTime d = 6 /\ 181 + L <= w < 212 + L
      \/ MonthFromTime d = 7 /\ 212 + L <= w < 243 + L
      \/ MonthFromTime d = 8 /\ 243 + L <= w < 273 + L
      \/ MonthFromTime d = 9 /\ 273 + L <= w < 304 + L
      \/ MonthFromTime d = 10 /\ 304 + L <= w < 334 + L
      \/ MonthFromTime d = 11 /\ 334 + L <= w).
Proof.
  cbv zeta. pose proof (YearFromTime_spec d) as Hy.
  rewrite DayFromYear_succ in *.
  assert (HL : DaysInYear (YearFromTime d) = 365 + InLeapYear d).
  { unfold InLeapYear. destruct (DaysInYear_cases (YearFromTime d)) as [-> | ->]; done. }
  assert (HL01 : InLeapYear d = 0 \/ InLeapYear d = 1).
  { unfold InLeapYear. case_match; auto. }
  split_and!; [done|done|lia|lia|lia|].
  unfold MonthFromTime, DayWithinYear. cbv zeta.
  destruct_comparisons;
    repeat (first [left; split; [reflexivity|lia] | right; split; [reflexivity|lia] | right]).
Qed.

(** Known days: the epoch, a leap day, a month carry of [setDate], and the
    Monday 2025-01-06. *)
Example calendar_known_days :
  ymd 1970 1 1 = 0
  /\ ymd 2000 3 1 = 11017
  /\ (getFullYear (ymd 2024 2 29), getMonth (ymd 2024 2 29), getDate (ymd 2024 2 29))
     = (2024, 1, 29)
  /\ setDate (ymd 2025 1 31) 32 = ymd 2025 2 1
  /\ getDay (ymd 2025 1 6) = 1
  /\ getStartOfWeek (ymd 2025 1 12) = ymd 2025 1 6
  /\ getEndOfWeek WorkWeek (ymd 2025 1 12) = ymd 2025 1 10
  /\ getEndOfWeek FullWeek (ymd 2025 1 8) = ymd 2025 1 12.
Proof. vm_compute. done. Qed.

(** ** The stable sort *)
Section JsSortFacts.
Context {A : Type} (keyOf : A -> Z).
Local Abbreviation cmp := (fun a b : A => keyOf a - keyOf b).

Lemma sortInsert_perm x l : sortInsert cmp x l ≡ₚ x :: l.
Proof.
  induction l as [|y l IH]; simpl; [done|].
  case_match; [done|]. rewrite IH. apply Permutation_swap.
Qed.

Lemma jsSort_perm l : jsSort cmp l ≡ₚ l.
Proof.
  induction l as [|x l IH]; simpl; [done|].
  by rewrite sortInsert_perm, IH.
Qed.

Lemma sortInsert_sorted x l :
  StronglySorted (fun a b => keyOf a <= keyOf b) l ->
  StronglySorted (fun a b => keyOf a <= keyOf b) (sortInsert cmp x l).
Proof.
  induction 1 as [|y l Hs IH Hy]; simpl.
  - repeat constructor.
  - destruct (Z.leb_spec (keyOf x - keyOf y) 0) as [Hle|Hgt].
    + constructor; [by constructor|].
      constructor; [lia|].
      eapply Forall_impl; [exact Hy|]. simpl. intros; lia.
    + constructor; [done|].
      rewrite (sortInsert_perm x l). constructor; [lia|done].
Qed.

Lemma jsSort_sorted l :
  StronglySorted (fun a b => keyOf a <= keyOf b) (jsSort cmp l).
Proof.
  induction l as [|x l IH]; simpl; [constructor|].
  by apply sortInsert_sorted.
Qed.

(** Stability: the elements with one key keep their relative order. *)
Lemma sortInsert_stable k x l :
  filter (fun a => keyOf a = k) (sortInsert cmp x l)
  = filter (fun a => keyOf a = k) (x :: l).
Proof.
  induction l as [|y l IH]; simpl; [done|].
  destruct (Z.leb_spec (keyOf x - keyOf y) 0) as [Hle|Hgt]; [done|].
  rewrite filter_cons, IH, !filter_cons.
  repeat case_decide; try done; lia.
Qed.

Lemma jsSort_stable k l :
  filter (fun a => keyOf a = k) (jsSort cmp l) = filter (fun a => keyOf a = k) l.
Proof.
  induction l as [|x l IH]; simpl; [done|].
  rewrite sortInsert_stable, !filter_cons, IH. done.
Qed.

(** A sorted array is left as it is. *)
Lemma jsSort_sorted_id l :
  StronglySorted (fun a b => keyOf a <= keyOf b) l -> jsSort cmp l = l.
Proof.
  induction 1 as [|x l Hs IH Hx]; simpl; [done|].
  rewrite IH. destruct l as [|y l]; simpl; [done|].
  apply Forall_cons in Hx as [Hxy _].
  destruct (Z.leb_spec (keyOf x - keyOf y) 0); [done|lia].
Qed.
End JsSortFacts.

(** ** The packer *)

Section PackerFacts.
Context {A : Type} `{HasDates A}.

Lemma byStartDate_perm (l : list A) : jsSort byStartDate l ≡ₚ l.
Proof. apply (jsSort_perm startDate). Qed.

Lemma byStartDate_sorted (l : list A) :
  StronglySorted (fun a b => startDate a <= startDate b) (jsSort byStartDate l).
Proof. apply (jsSort_sorted startDate). Qed.

Lemma byStartDate_stable k (l : list A) :
  filter (fun a => startDate a = k) (jsSort byStartDate l)
  = filter (fun a => startDate a = k) l.
Proof. apply (jsSort_stable startDate). Qed.

Lemma apart_sym a b : apart a b -> apart b a.
Proof. unfold apart. tauto. Qed.

Lemma not_overlaps_apart a b : ~ overlaps a b <-> apart b a.
Proof. unfold overlaps, apart. lia. Qed.

Lemma canPlaceInRow_qualifies x row :
  canPlaceInRow x row = true <-> qualifies x row.
Proof.
  unfold qualifies. induction row as [|y row IH]; simpl.
  - split; [constructor|done].
  - rewrite Forall_cons, <- IH. unfold overlaps.
    destruct (Z.leb_spec (startDate x) (endDate y));
      destruct (Z.geb_spec (endDate x) (startDate y)); simpl;
      intuition (try discriminate; lia).
Qed.

(** The two loops find the first qualifying row, as [list_find] does. *)
Lemma placeInRows_find x rows :
  placeInRows x rows =
    match list_find (qualifies x) rows with
    | Some (i, _) => (alter (fun row => row ++ [x]) i rows, true)
    | None => (rows, false)
    end.
Proof.
  induction rows as [|row rows IH]; simpl; [done|].
  destruct (canPlaceInRow x row) eqn:Hc.
  - apply canPlaceInRow_qualifies in Hc. by rewrite decide_True.
  - rewrite decide_False
      by (intros Hq; apply canPlaceInRow_qualifies in Hq; congruence).
    rewrite IH. destruct (list_find (qualifies x) rows) as [[i r]|]; done.
Qed.

Lemma placeCustomer_firstFit rows x : placeCustomer rows x = firstFit rows x.
Proof.
  unfold placeCustomer, firstFit. rewrite placeInRows_find.
  destruct (list_find (qualifies x) rows) as [[i r]|]; done.
Qed.

Lemma packSorted_firstFit l : packSorted l = foldl firstFit [] l.
Proof.
  unfold packSorted. generalize (@nil (list A)).
  induction l as [|x l IH]; intros rows; simpl; [done|].
  by rewrite placeCustomer_firstFit, IH.
Qed.

(** What one placement does to the rows: either a qualifying row, with
    no qualifying row before it, takes the interval at its end, or no row
    qualifies and a new last row is opened. *)
Lemma firstFit_cases rows x :
  (exists before row after,
      rows = before ++ row :: after /\ qualifies x row /\
      Forall (fun r => ~ qualifies x r) before /\
      firstFit rows x = before ++ (row ++ [x]) :: after)
  \/ (Forall (fun r => ~ qualifies x r) rows /\ firstFit rows x = rows ++ [[x]]).
Proof.
  unfold firstFit.
  destruct (list_find (qualifies x) rows) as [[i row]|] eqn:Hf.
  - left. apply list_find_Some in Hf as (Hi & Hq & Hbefore).
    exists (take i rows), row, (drop (S i) rows).
    assert (Hlen : (i < length rows)%nat) by (by eapply lookup_lt_Some).
    assert (Hsplit : rows = take i rows ++ row :: drop (S i) rows)
      by (by rewrite <- (take_drop_middle rows i row Hi) at 1).
    split_and!; [done|done| |].
    + apply Forall_forall. intros r [j Hj]%list_elem_of_lookup.
      apply lookup_take_Some in Hj as [Hj Hlt]. eauto.
    + rewrite Hsplit at 1.
      rewrite alter_app_r_alt by (rewrite length_take; lia).
      rewrite length_take, Nat.min_l, Nat.sub_diag by lia. done.
  - right. split; [|done]. by apply (list_find_None (qualifies x)).
Qed.

(** *** Every interval lands in exactly one row *)

Lemma firstFit_concat rows x : concat (firstFit rows x) ≡ₚ concat rows ++ [x].
Proof.
  destruct (firstFit_cases rows x)
    as [(before & row & after & -> & _ & _ & ->)|[_ ->]].
  - rewrite !concat_app. simpl. rewrite <- !(assoc_L (++)).
    apply Permutation_app_head, Permutation_app_head.
    rewrite Permutation_app_comm. done.
  - rewrite concat_app. simpl. done.
Qed.

Lemma firstFit_nonempty rows x :
  Forall (fun row => row <> []) rows ->
  Forall (fun row => row <> []) (firstFit rows x).
Proof.
  intros Hne.
  destruct (firstFit_cases rows x)
    as [(before & row & after & -> & _ & _ & ->)|[_ ->]].
  - apply Forall_app in Hne as [Hb Ha]. apply Forall_cons in Ha as [_ Ha].
    apply Forall_app. split; [done|]. apply Forall_cons. split; [|done].
    by destruct row.
  - apply Forall_app. split; [done|]. by repeat constructor.
Qed.

Lemma foldl_firstFit_concat l rows :
  concat (foldl firstFit rows l) ≡ₚ concat rows ++ l.
Proof.
  revert rows. induction l as [|x l IH]; intros rows; simpl.
  - by rewrite app_nil_r.
  - rewrite IH, firstFit_concat, <- (assoc_L (++)). done.
Qed.

Lemma foldl_firstFit_nonempty l rows :
  Forall (fun row => row <> []) rows ->
  Forall (fun row => row <> []) (foldl firstFit rows l).
Proof.
  revert rows. induction l as [|x l IH]; intros rows Hne; simpl; [done|].
  by apply IH, firstFit_nonempty.
Qed.

Lemma pack_perm l : concat (pack l) ≡ₚ l.
Proof.
  unfold pack. rewrite packSorted_firstFit, foldl_firstFit_concat. simpl.
  apply byStartDate_perm.
Qed.

(** *** Members of one row lie apart *)

Lemma rowApart_snoc row x : rowApart row -> qualifies x row -> rowApart (row ++ [x]).
Proof.
  intros Hrow Hq i j a b Hij Ha Hb.
  assert (Hj : (j < length (row ++ [x]))%nat) by (by eapply lookup_lt_Some).
  rewrite length_app in Hj. simpl in Hj.
  rewrite lookup_app_l in Ha by lia.
  destruct (decide (j < length row)%nat) as [Hlt|Hge].
  - rewrite lookup_app_l in Hb by lia. eauto.
  - rewrite lookup_app_r in Hb by lia.
    replace (j - length row)%nat with 0%nat in Hb by lia.
    simpl in Hb. injection Hb as <-.
    unfold qualifies in Hq. rewrite Forall_forall in Hq.
    apply not_overlaps_apart, Hq. by eapply list_elem_of_lookup_2.
Qed.

Lemma firstFit_apart rows x :
  Forall rowApart rows -> Forall rowApart (firstFit rows x).
Proof.
  intros Hrows.
  destruct (firstFit_cases rows x)
    as [(before & row & after & -> & Hq & _ & ->)|[_ ->]].
  - apply Forall_app in Hrows as [Hb Ha]. apply Forall_cons in Ha as [Hr Ha].
    apply Forall_app. split; [done|]. apply Forall_cons. split; [|done].
    by apply rowApart_snoc.
  - apply Forall_app. split; [done|]. apply Forall_cons. split; [|constructor].
    intros i j a b Hij Ha Hb. apply lookup_lt_Some in Hb. simpl in Hb. lia.
Qed.

Lemma foldl_firstFit_apart l rows :
  Forall rowApart rows -> Forall rowApart (foldl firstFit rows l).
Proof.
  revert rows. induction l as [|x l IH]; intros rows Hrows; simpl; [done|].
  by apply IH, firstFit_apart.
Qed.

Lemma pack_apart l : Forall rowApart (pack l).
Proof.
  unfold pack. rewrite packSorted_firstFit.
  apply foldl_firstFit_apart. constructor.
Qed.

(** *** The number of rows is the largest number of simultaneously
    active intervals *)

Lemma rowApart_cons a row :
  rowApart (a :: row) -> rowApart row /\ Forall (apart a) row.
Proof.
  intros Hrow. split.
  - intros i j x y Hij Hx Hy. apply (Hrow (S i) (S j) x y); [lia|done|done].
  - apply Forall_forall. intros b [j Hj]%list_elem_of_lookup.
    apply (Hrow 0%nat (S j) a b); [lia|done|done].
Qed.

Lemma activeOn_not_apart t a b : activeOn t a -> activeOn t b -> ~ apart a b.
Proof. unfold activeOn, apart. lia. Qed.

(** At most one member of a row is active on a given day. *)
Lemma rowApart_active_le_1 t row :
  rowApart row -> (length (filter (activeOn t) row) <= 1)%nat.
Proof.
  induction row as [|a row IH]; intros Hrow; simpl; [lia|].
  apply rowApart_cons in Hrow as [Hrow Ha].
  rewrite filter_cons. case_decide as Hact; [|auto].
  replace (filter (activeOn t) row) with (@nil A); [simpl; lia|].
  symmetry. clear IH Hrow.
  induction Ha as [|b row Hab _ IH]; [done|].
  rewrite filter_cons, decide_False; [done|].
  intros Hb. exact (activeOn_not_apart t a b Hact Hb Hab).
Qed.

Lemma activeCount_concat_le t rows :
  Forall rowApart rows -> (activeCount (concat rows) t <= length rows)%nat.
Proof.
  unfold activeCount. induction 1 as [|row rows Hrow _ IH]; simpl; [lia|].
  rewrite filter_app, length_app.
  pose proof (rowApart_active_le_1 t row Hrow). lia.
Qed.

Lemma activeCount_concat_ge t rows :
  Forall (Exists (activeOn t)) rows ->
  (length rows <= activeCount (concat rows) t)%nat.
Proof.
  unfold activeCount. induction 1 as [|row rows Hrow _ IH]; simpl; [lia|].
  rewrite filter_app, length_app.
  assert (0 < length (filter (activeOn t) row))%nat; [|lia].
  apply Exists_exists in Hrow as (y & Hy & Hact).
  assert (Hin : y ∈ filter (activeOn t) row) by (by apply list_elem_of_filter).
  destruct (filter (activeOn t) row); [by apply elem_of_nil in Hin|simpl; lia].
Qed.

Lemma activeCount_perm t l1 l2 : l1 ≡ₚ l2 -> activeCount l1 t = activeCount l2 t.
Proof. unfold activeCount. by intros ->. Qed.

Lemma firstFit_commonDay rows x :
  normalized x ->
  Forall (fun y => startDate y <= startDate x) (concat rows) ->
  commonDay rows -> commonDay (firstFit rows x).
Proof.
  intros Hx Hle Hrows. right.
  destruct (firstFit_cases rows x)
    as [(before & row & after & Heq & Hq & _ & Hfit)|[Hnone Hfit]].
  - destruct Hrows as [->|(t & Ht & Hall)]; [by destruct before|].
    exists t. split.
    + rewrite (firstFit_concat rows x), fmap_app. apply elem_of_app. by left.
    + rewrite Hfit. rewrite Heq in Hall.
      apply Forall_app in Hall as [Hb Ha]. apply Forall_cons in Ha as [Hr Ha].
      apply Forall_app. split; [done|]. apply Forall_cons. split; [|done].
      apply Exists_app. by left.
  - exists (startDate x). split.
    + rewrite (firstFit_concat rows x), fmap_app. apply elem_of_app. right.
      simpl. apply list_elem_of_singleton. done.
    + rewrite Hfit. apply Forall_app. split.
      * apply Forall_forall. intros row Hrow.
        rewrite Forall_forall in Hnone. specialize (Hnone row Hrow).
        unfold qualifies in Hnone. apply not_Forall_Exists in Hnone; [|apply _].
        apply Exists_exists in Hnone as (y & Hy & Hov).
        apply Exists_exists. exists y. split; [done|].
        assert (startDate y <= startDate x).
        { rewrite Forall_forall in Hle. apply Hle.
          apply list_elem_of_In, in_concat. exists row.
          by rewrite <- !list_elem_of_In. }
        assert (Hov' : overlaps x y)
          by (destruct (decide (overlaps x y)); [done|by destruct Hov]).
        unfold overlaps in Hov'. unfold activeOn. lia.
      * apply Forall_cons. split; [|constructor].
        apply Exists_cons. left. unfold activeOn, normalized in *. lia.
Qed.

Lemma foldl_firstFit_commonDay l rows :
  StronglySorted (fun a b => startDate a <= startDate b) l ->
  Forall normalized l ->
  Forall (fun y => Forall (fun x => startDate y <= startDate x) l) (concat rows) ->
  commonDay rows -> commonDay (foldl firstFit rows l).
Proof.
  intros Hs. revert rows.
  induction Hs as [|x l Hs IH Hx]; intros rows Hn Hle Hrows; simpl; [done|].
  apply Forall_cons in Hn as [Hnx Hn].
  apply IH; [done| |].
  - rewrite (firstFit_concat rows x). apply Forall_app. split.
    + eapply Forall_impl; [exact Hle|]. simpl. by intros y [_ ?]%Forall_cons.
    + by repeat constructor.
  - apply firstFit_commonDay; [done| |done].
    eapply Forall_impl; [exact Hle|]. simpl. by intros y [? _]%Forall_cons.
Qed.

Lemma pack_commonDay l : Forall normalized l -> commonDay (pack l).
Proof.
  intros Hn. unfold pack. rewrite packSorted_firstFit.
  apply foldl_firstFit_commonDay.
  - apply byStartDate_sorted.
  - by rewrite byStartDate_perm.
  - constructor.
  - by left.
Qed.

Lemma maxActive_bound l n :
  (forall t, activeCount l t <= n)%nat -> (maxActive l <= n)%nat.
Proof.
  intros Hb. unfold maxActive.
  assert (Hall : forall l' : list A,
    (max_list ((fun x => activeCount l (startDate x)) <$> l') <= n)%nat); [|apply Hall].
  intros l'. induction l' as [|x l' IH]; simpl; [lia|].
  apply Nat.max_lub; [apply Hb|exact IH].
Qed.

(** *** Rows stay in the order in which they were opened *)

Lemma firstFit_openers rows x :
  Forall (fun row => row <> []) rows ->
  omap head (firstFit rows x) = omap head rows
  \/ omap head (firstFit rows x) = omap head rows ++ [x].
Proof.
  intros Hne.
  destruct (firstFit_cases rows x)
    as [(before & row & after & -> & _ & _ & ->)|[_ ->]].
  - left. rewrite !omap_app. f_equal.
    apply Forall_app in Hne as [_ Hne]. apply Forall_cons in Hne as [Hrow _].
    by destruct row.
  - right. by rewrite omap_app.
Qed.

Lemma foldl_firstFit_openers l rows :
  Forall (fun row => row <> []) rows ->
  exists opened, sublist opened l /\
    omap head (foldl firstFit rows l) = omap head rows ++ opened.
Proof.
  revert rows. induction l as [|x l IH]; intros rows Hne; simpl.
  - exists []. by rewrite app_nil_r.
  - destruct (IH (firstFit rows x)) as (opened & Hsub & Heq);
      [by apply firstFit_nonempty|].
    rewrite Heq.
    destruct (firstFit_openers rows x Hne) as [->| ->].
    + exists opened. split; [by apply sublist_cons|done].
    + exists (x :: opened). split; [by apply sublist_skip|].
      by rewrite <- (assoc_L (++)).
Qed.

Lemma pack_length_maxActive l :
  Forall normalized l -> length (pack l) = maxActive l.
Proof.
  intros Hn.
  assert (Hup : forall t, (activeCount l t <= length (pack l))%nat).
  { intros t. rewrite <- (activeCount_perm t _ _ (pack_perm l)).
    apply activeCount_concat_le, pack_apart. }
  apply Nat.le_antisymm; [|by apply maxActive_bound].
  destruct (pack_commonDay l Hn) as [->|(t & Ht & Hall)]; [simpl; lia|].
  apply activeCount_concat_ge in Hall.
  rewrite (activeCount_perm t _ _ (pack_perm l)) in Hall.
  etrans; [exact Hall|].
  rewrite (pack_perm l) in Ht.
  apply list_elem_of_fmap in Ht as (x & -> & Hx).
  apply max_list_elem_of_le. apply list_elem_of_fmap. eauto.
Qed.
End PackerFacts.

(** ** The claims about the packer *)

(** C1: for intervals with normalised dates (start <= end) the packer
    returns exactly as many rows as the largest number of intervals that
    are active on one and the same day: no day has more active intervals
    than there are rows, and some day has exactly that many.  For
    [1,5], [3,7], [6,10] these are two rows, [1,5] with [6,10], and [3,7]
    alone. *)
Theorem pack_rows_equal_max_active {A : Type} `{HasDates A} (l : list A) :
  Forall normalized l ->
  length (pack l) = maxActive l
  /\ (forall t, (activeCount l t <= length (pack l))%nat)
  /\ (l <> [] -> exists t, activeCount l t = length (pack l))
  /\ pack [iv 1 5; iv 3 7; iv 6 10] = [[iv 1 5; iv 6 10]; [iv 3 7]]
  /\ maxActive [iv 1 5; iv 3 7; iv 6 10] = 2%nat.
Proof.
  intros Hn. pose proof (pack_length_maxActive l Hn) as Hlen.
  split_and!; [done| | |reflexivity|reflexivity].
  - intros t. rewrite <- (activeCount_perm t _ _ (pack_perm l)).
    apply activeCount_concat_le, pack_apart.
  - intros Hne. rewrite Hlen. unfold maxActive.
    assert (Hl : (fun x => activeCount l (startDate x)) <$> l <> [])
      by (by destruct l).
    apply max_list_elem_of in Hl.
    apply list_elem_of_fmap in Hl as (x & Hx & _). eauto.
Qed.

Lemma pack_rows_equal_max_active_witness :
  Forall normalized [iv 1 5; iv 3 7; iv 6 10]
  /\ length (pack [iv 1 5; iv 3 7; iv 6 10]) = maxActive [iv 1 5; iv 3 7; iv 6 10].
Proof.
  assert (Hn : Forall normalized [iv 1 5; iv 3 7; iv 6 10])
    by (repeat constructor; unfold normalized; simpl; lia).
  split; [exact Hn|].
  exact (proj1 (pack_rows_equal_max_active [iv 1 5; iv 3 7; iv 6 10] Hn)).
Defined.

(** C2: in every row the packer returns, any two members at different
    positions lie apart, one ending before the other starts; they do not
    overlap in the closed-range sense (a.start <= b.end and
    a.end >= b.start), so no day, not even a single one, belongs to both. *)
Theorem pack_rows_never_overlap {A : Type} `{HasDates A}
    (l : list A) (row : list A) (i j : nat) (a b : A) :
  row ∈ pack l -> i <> j -> row !! i = Some a -> row !! j = Some b ->
  (endDate a < startDate b \/ endDate b < startDate a)
  /\ ~ (startDate a <= endDate b /\ endDate a >= startDate b)
  /\ (overlaps a b <-> startDate a <= endDate b /\ endDate a >= startDate b)
  /\ (forall t, ~ (activeOn t a /\ activeOn t b)).
Proof.
  intros Hrow Hij Ha Hb.
  pose proof (pack_apart l) as Hall. rewrite Forall_forall in Hall.
  specialize (Hall row Hrow).
  assert (Hap : apart a b).
  { destruct (decide (i < j)%nat).
    - by apply (Hall i j a b).
    - apply apart_sym. apply (Hall j i b a); [lia|done|done]. }
  unfold apart in Hap. unfold overlaps, activeOn.
  split_and!; [done|lia|done|intros t; lia].
Qed.

Lemma pack_rows_never_overlap_witness :
  endDate (iv 1 5) < startDate (iv 6 10) \/ endDate (iv 6 10) < startDate (iv 1 5).
Proof.
  refine (proj1 (pack_rows_never_overlap [iv 1 5; iv 3 7; iv 6 10]
                   [iv 1 5; iv 6 10] 0 1 (iv 1 5) (iv 6 10) _ _ _ _)).
  - vm_compute. apply list_elem_of_here.
  - lia.
  - reflexivity.
  - reflexivity.
Defined.

(** C3: the packer handles the intervals in the order of a stable sort by
    start date (ascending, equal start dates in input order), puts each
    into the first row, in creation order, all of whose members do not
    overlap it, and opens a new last row when there is none; rows are
    returned in the order they were opened, and no interval gives no row. *)
Theorem pack_is_stable_first_fit {A : Type} `{HasDates A} (l : list A) :
  let sorted := jsSort byStartDate l in
  StronglySorted (fun a b => startDate a <= startDate b) sorted
  /\ sorted ≡ₚ l
  /\ (forall k, filter (fun a => startDate a = k) sorted
               = filter (fun a => startDate a = k) l)
  /\ pack l = foldl firstFit [] sorted
  /\ (exists opened, sublist opened sorted /\ omap head (pack l) = opened)
  /\ pack (@nil A) = [].
Proof.
  cbv zeta. split_and!.
  - apply byStartDate_sorted.
  - apply byStartDate_perm.
  - intros k. apply byStartDate_stable.
  - unfold pack. apply packSorted_firstFit.
  - unfold pack. rewrite packSorted_firstFit.
    destruct (foldl_firstFit_openers (jsSort byStartDate l) [])
      as (opened & Hsub & Heq); [constructor|].
    exists opened. by rewrite Heq.
  - reflexivity.
Qed.

(** C10: the packer partitions its input: the rows together hold exactly
    the intervals of the input, each once, no row is empty, and the row
    sizes add up to the length of the input. *)
Theorem pack_partitions_input {A : Type} `{HasDates A} (l : list A) :
  concat (pack l) ≡ₚ l
  /\ Forall (fun row => row <> []) (pack l)
  /\ sum_list (length <$> pack l) = length l.
Proof.
  split_and!.
  - apply pack_perm.
  - unfold pack. rewrite packSorted_firstFit.
    apply foldl_firstFit_nonempty. constructor.
  - rewrite <- (Permutation_length (pack_perm l)).
    induction (pack l) as [|row rows IH]; simpl; [done|].
    rewrite length_app. f_equal. exact IH.
Qed.

(** ** The day index *)

Lemma getStartOfWeek_eq d :
  ~ (0 <= getFullYear d <= 99) -> getStartOfWeek d = d - (d + 3) mod 7.
Proof.
  intros Hy. unfold getStartOfWeek, newDate. cbv zeta.
  replace ((0 <=? getFullYear d) && (getFullYear d <=? 99)) with false
    by (symmetry; apply andb_false_iff; rewrite Z.leb_gt, Z.leb_gt; lia).
  unfold getFullYear, getMonth, getDate.
  match goal with
  | |- MakeDay _ _ (?a - ?b + ?c) = _ => replace (a - b + c) with (a + (c - b)) by lia
  end.
  rewrite MakeDay_fields. unfold getDay, WeekDay.
  destruct (Z.eqb_spec ((d + 4) mod 7) 0); Z.div_mod_to_equations; lia.
Qed.

Lemma getEndOfWeek_eq mode d :
  getEndOfWeek mode d = getStartOfWeek d + weekSpan mode.
Proof. unfold getEndOfWeek. cbv zeta. apply setDate_shift. Qed.

Lemma getStartOfWeek_monday d :
  ~ (0 <= getFullYear d <= 99) ->
  getDay (getStartOfWeek d) = 1 /\ d - 6 <= getStartOfWeek d <= d.
Proof.
  intros Hy. rewrite (getStartOfWeek_eq d Hy). unfold getDay, WeekDay.
  Z.div_mod_to_equations; lia.
Qed.

Lemma getStartOfWeek_mono d1 d2 :
  ~ (0 <= getFullYear d1 <= 99) -> ~ (0 <= getFullYear d2 <= 99) ->
  d1 <= d2 -> getStartOfWeek d1 <= getStartOfWeek d2.
Proof.
  intros H1 H2 Hle. rewrite (getStartOfWeek_eq d1 H1), (getStartOfWeek_eq d2 H2).
  Z.div_mod_to_equations; lia.
Qed.

Lemma mapSet_fresh k v m :
  Forall (fun e => e.1 <> k) m -> mapSet k v m = m ++ [(k, v)].
Proof.
  induction 1 as [|[k' v'] m Hk _ IH]; simpl; [done|].
  simpl in Hk. destruct (Z.eqb_spec k' k); [done|]. by rewrite IH.
Qed.

Lemma columnsFrom_keys col days : (columnsFrom col days).*1 = days.
Proof. revert col. induction days as [|d days IH]; intros col; simpl; [done|]. by rewrite IH. Qed.

Lemma columnsFrom_columns col days :
  (columnsFrom col days).*2 = seqZ col (Z.of_nat (length days)).
Proof.
  revert col. induction days as [|d days IH]; intros col; [done|].
  rewrite seqZ_cons by (simpl; lia). simpl. rewrite IH. do 2 f_equal; lia.
Qed.

Lemma mapGet_columnsFrom col days i d :
  NoDup days -> days !! i = Some d ->
  mapGet d (columnsFrom col days) = Some (col + Z.of_nat i).
Proof.
  intros Hnd. revert col i. induction Hnd as [|d' days Hd' Hnd IH]; intros col i Hi.
  - by rewrite lookup_nil in Hi.
  - simpl. destruct i as [|i]; simpl in Hi.
    + injection Hi as ->. rewrite Z.eqb_refl. f_equal. lia.
    + destruct (Z.eqb_spec d' d) as [->|Hne].
      * exfalso. apply Hd'. by eapply list_elem_of_lookup_2.
      * rewrite (IH (col + 1) i Hi). f_equal. lia.
Qed.

Lemma mapGet_columnsFrom_None col days d :
  d ∉ days -> mapGet d (columnsFrom col days) = None.
Proof.
  revert col. induction days as [|d' days IH]; intros col Hd; simpl; [done|].
  apply not_elem_of_cons in Hd as [Hne Hd].
  destruct (Z.eqb_spec d' d); [congruence|]. by apply IH.
Qed.

(** In the work-week index a Saturday or Sunday has no column. *)
Lemma weekend_not_indexed col firstChartDate lastChartDate d :
  getDay d = 6 \/ getDay d = 0 ->
  mapGet d (columnsFrom col (indexedDays WorkWeek firstChartDate lastChartDate)) = None.
Proof.
  intros Hd. apply mapGet_columnsFrom_None. unfold indexedDays.
  intros [Hidx _]%list_elem_of_filter. unfold dayIndexed in Hidx.
  destruct Hd as [Hd|Hd]; rewrite Hd in Hidx; discriminate.
Qed.

(** *** Keys in the zone UTC

    In the zone UTC a whole day begins at the UTC midnight of its date, so
    [new Date(key)] is the day of the key, and the key of a day of the years
    0000 to 9999 denotes that day. *)
Lemma Day_newDateOfKey dateIso : Day (newDateOfKey dateIso) = dateIso.
Proof. unfold Day, newDateOfKey, msPerDay. by rewrite Z.div_mul. Qed.

Lemma dateOfKey_UTC dateIso : dateOfKey UTC dateIso = dateIso.
Proof.
  unfold dateOfKey, localDay, LocalTime, UTC. rewrite Z.mul_0_l, Z.add_0_r.
  apply Day_newDateOfKey.
Qed.

Lemma timeValue_UTC d : timeValue UTC d = newDateOfKey d.
Proof. unfold timeValue, UTCOfLocal, UTC, newDateOfKey. lia. Qed.

Lemma isoDateKey_day t :
  0 <= getFullYear (Day t) <= 9999 -> isoDateKey t = Day t.
Proof.
  intros Hy. unfold isoDateKey, getFullYear in *. cbv zeta.
  destruct (Z.leb_spec 0 (YearFromTime (Day t)));
    destruct (Z.leb_spec (YearFromTime (Day t)) 9999); simpl; try done; lia.
Qed.

Lemma toISODate_UTC d : 0 <= getFullYear d <= 9999 -> toISODate UTC d = d.
Proof.
  intros Hy. unfold toISODate. rewrite timeValue_UTC.
  rewrite isoDateKey_day; rewrite Day_newDateOfKey; done.
Qed.

(** A key holds the year of its date, also when it holds no day. *)
Lemma YearFromTime_DayFromYear y : YearFromTime (DayFromYear y) = y.
Proof.
  pose proof (YearFromTime_spec (DayFromYear y)) as [H1 H2].
  destruct (Z.lt_trichotomy (YearFromTime (DayFromYear y)) y) as [Hlt|[Heq|Hgt]];
    [|done|].
  - pose proof (DayFromYear_mono (YearFromTime (DayFromYear y) + 1) y). lia.
  - pose proof (DayFromYear_mono (y + 1) (YearFromTime (DayFromYear y))).
    pose proof (DayFromYear_succ y). pose proof (DaysInYear_cases y). lia.
Qed.

Lemma firstOfMonth_year d :
  YearFromTime (MakeDay (YearFromTime d) (MonthFromTime d) 1) = YearFromTime d.
Proof.
  pose proof (MonthFromTime_range d) as Hm.
  destruct (calendar_fields d) as (HL & Hdays & Hw & Hnext & Hmonth).
  rewrite (MakeDay_month _ _ _ Hm).
  change (if DaysInYear (YearFromTime d) =? 366 then 1 else 0) with (InLeapYear d).
  set (x := DayFromYear (YearFromTime d) + monthStart (InLeapYear d) (MonthFromTime d) + 1 - 1).
  assert (Hx : DayFromYear (YearFromTime d) <= x <= d).
  { subst x.
    destruct Hmonth
      as [[-> ?]|[[-> ?]|[[-> ?]|[[-> ?]|[[-> ?]|[[-> ?]|[[-> ?]|[[-> ?]|[[-> ?]|
          [[-> ?]|[[-> ?]|[-> ?]]]]]]]]]]]]; cbn [monthStart]; lia. }
  pose proof (YearFromTime_mono _ _ (proj1 Hx)) as H1.
  pose proof (YearFromTime_mono _ _ (proj2 Hx)) as H2.
  rewrite YearFromTime_DayFromYear in H1. lia.
Qed.

Lemma toISODate_UTC_year d : getFullYear (toISODate UTC d) = getFullYear d.
Proof.
  unfold toISODate, isoDateKey, getFullYear. cbv zeta.
  rewrite timeValue_UTC, Day_newDateOfKey.
  case_match; [done|]. apply firstOfMonth_year.
Qed.

(** The days between two days of the years 0000 to 9999 lie in these
    years. *)
Lemma years_between firstChartDate lastChartDate d :
  0 <= getFullYear firstChartDate -> getFullYear lastChartDate <= 9999 ->
  firstChartDate <= d <= lastChartDate ->
  0 <= getFullYear d <= 9999.
Proof.
  unfold getFullYear. intros H1 H2 [Hd1 Hd2].
  pose proof (YearFromTime_mono _ _ Hd1). pose proof (YearFromTime_mono _ _ Hd2). lia.
Qed.

Lemma compareKeys_days a b :
  0 <= getFullYear a <= 9999 -> 0 <= getFullYear b <= 9999 -> compareKeys a b = a - b.
Proof.
  unfold getFullYear. intros Ha Hb.
  assert (Hclass : forall k, 0 <= YearFromTime k <= 9999 -> keyClass k = 2).
  { intros k Hk. unfold keyClass. cbv zeta.
    destruct (Z.ltb_spec 9999 (YearFromTime k)); [lia|].
    destruct (Z.ltb_spec (YearFromTime k) 0); [lia|done]. }
  unfold compareKeys. by rewrite (Hclass a Ha), (Hclass b Hb).
Qed.

(** Sorted keys of the years 0000 to 9999 are left as they are. *)
Lemma jsSort_compareKeys_id l :
  Forall (fun k => 0 <= getFullYear k <= 9999) l ->
  StronglySorted Z.le l -> jsSort compareKeys l = l.
Proof.
  intros Hyears Hsorted. induction Hsorted as [|x l Hs IH Hx]; simpl; [done|].
  apply Forall_cons in Hyears as [Hxy Hyears]. rewrite (IH Hyears).
  destruct l as [|y l]; simpl; [done|].
  apply Forall_cons in Hx as [Hle _]. apply Forall_cons in Hyears as [Hyy _].
  rewrite (compareKeys_days x y Hxy Hyy).
  destruct (Z.leb_spec (x - y) 0); [done|lia].
Qed.

(** The loop visits the days up to [lastChartDate] one by one and ends
    within the given number of rounds; when the key of each of these days
    denotes the day, the map pairs the days with their columns. *)
Lemma walkLoop_run zone mode rounds lastChartDate w :
  (forall d, currentDate w <= d <= lastChartDate -> toISODate zone d = d) ->
  lastChartDate - currentDate w + 1 <= Z.of_nat rounds ->
  Forall (fun e => e.1 < currentDate w) (dailyDateToSheetColMap w) ->
  exists w',
    walkLoop zone mode rounds lastChartDate w = Some w'
    /\ dailyDateToSheetColMap w' =
         dailyDateToSheetColMap w ++
         columnsFrom (currentSheetColIndex w)
           (indexedDays mode (currentDate w) lastChartDate)
    /\ currentSheetColIndex w' =
         currentSheetColIndex w +
         Z.of_nat (length (indexedDays mode (currentDate w) lastChartDate)).
Proof.
  revert w. induction rounds as [|rounds IH]; intros w Hiso Hrounds Hkeys.
  - exists w. unfold indexedDays. simpl.
    destruct (Z.leb_spec (currentDate w) lastChartDate); [lia|].
    rewrite seqZ_nil by lia. simpl. rewrite app_nil_r. split_and!; [done|done|lia].
  - simpl. destruct (Z.leb_spec (currentDate w) lastChartDate) as [Hle|Hgt].
    2:{ exists w. unfold indexedDays. rewrite seqZ_nil by lia. simpl.
        rewrite app_nil_r. split_and!; [done|done|lia]. }
    assert (Hnext : currentDate (walkStep zone mode w) = currentDate w + 1).
    { unfold walkStep. cbv zeta. case_match; simpl; apply setDate_shift. }
    assert (Hkey : toISODate zone (currentDate w) = currentDate w)
      by (apply Hiso; lia).
    destruct (IH (walkStep zone mode w)) as (w' & Hrun & Hmap & Hcol).
    { rewrite Hnext. intros d Hd. apply Hiso. lia. }
    { rewrite Hnext. lia. }
    { rewrite Hnext. unfold walkStep. cbv zeta. rewrite Hkey. case_match; simpl.
      - rewrite mapSet_fresh.
        + apply Forall_app. split.
          * eapply Forall_impl; [exact Hkeys|]. simpl. intros; lia.
          * repeat constructor. simpl. lia.
        + eapply Forall_impl; [exact Hkeys|]. simpl. intros; lia.
      - eapply Forall_impl; [exact Hkeys|]. simpl. intros; lia. }
    exists w'. split; [done|].
    rewrite Hmap, Hcol, Hnext. unfold indexedDays.
    rewrite (seqZ_cons (currentDate w)) by lia.
    replace (Z.pred (lastChartDate - currentDate w + 1))
      with (lastChartDate - (currentDate w + 1) + 1) by lia.
    replace (Z.succ (currentDate w)) with (currentDate w + 1) by lia.
    rewrite filter_cons. unfold walkStep. cbv zeta. rewrite Hkey.
    destruct (dayIndexed mode (getDay (currentDate w))) eqn:Hidx; simpl.
    + rewrite mapSet_fresh
        by (eapply Forall_impl; [exact Hkeys|]; simpl; intros; lia).
      rewrite <- (assoc_L (++)). simpl. split; [done|lia].
    + done.
Qed.

(** In the zone UTC the walk over days of the years 0000 to 9999 pairs the
    indexed days of the range, in order, with consecutive columns from the
    first data column. *)
Lemma walkDays_run mode minOverallDate maxOverallDate firstFixedColumnIndex :
  let days := indexedDays mode (getStartOfWeek minOverallDate)
                (getEndOfWeek mode maxOverallDate) in
  0 <= getFullYear (getStartOfWeek minOverallDate) ->
  getFullYear (getEndOfWeek mode maxOverallDate) <= 9999 ->
  exists w,
    walkDays UTC mode minOverallDate maxOverallDate firstFixedColumnIndex = Some w
    /\ dailyDateToSheetColMap w = columnsFrom (firstFixedColumnIndex + 1) days
    /\ currentSheetColIndex w = firstFixedColumnIndex + 1 + Z.of_nat (length days).
Proof.
  cbv zeta. unfold walkDays. cbv zeta.
  generalize (getStartOfWeek minOverallDate) as firstChartDate.
  generalize (getEndOfWeek mode maxOverallDate) as lastChartDate.
  intros lastChartDate firstChartDate Hfirst Hlast.
  destruct (walkLoop_run UTC mode (Z.to_nat (lastChartDate - firstChartDate + 1))
              lastChartDate
              {| currentDate := firstChartDate;
                 currentSheetColIndex := firstFixedColumnIndex + 1;
                 dailyDateToSheetColMap := [];
                 weeklyHeaderStrings := [];
                 weeklyHeaderStartColIndices := [] |})
    as (w & Hrun & Hmap & Hcol).
  - cbn [currentDate]. intros d Hd. apply toISODate_UTC.
    by apply (years_between firstChartDate lastChartDate).
  - cbn [currentDate]. lia.
  - cbn [dailyDateToSheetColMap]. constructor.
  - exists w. split; [exact Hrun|].
    cbn [currentDate currentSheetColIndex dailyDateToSheetColMap app] in Hmap, Hcol.
    split; assumption.
Qed.

Lemma filter_seqZ_sorted (P : Z -> Prop) `{!forall d, Decision (P d)} a n :
  StronglySorted Z.le (filter P (seqZ a n)) /\ NoDup (filter P (seqZ a n)).
Proof.
  split; [|apply NoDup_filter, NoDup_seqZ].
  destruct (Z.le_gt_cases n 0) as [Hn|Hn]; [rewrite seqZ_nil by lia; constructor|].
  rewrite <- (Z2Nat.id n) by lia. generalize (Z.to_nat n) as k. clear n Hn.
  intros k. revert a. induction k as [|k IH]; intros a; [constructor|].
  rewrite seqZ_cons by lia.
  replace (Z.pred (Z.of_nat (S k))) with (Z.of_nat k) by lia.
  assert (Hrest : Forall (Z.le a) (filter P (seqZ (Z.succ a) (Z.of_nat k)))).
  { apply Forall_forall. intros d [_ Hd]%list_elem_of_filter.
    apply elem_of_seqZ in Hd. lia. }
  rewrite filter_cons. case_decide; [constructor|]; auto.
Qed.

Lemma indexedDays_sorted mode firstChartDate lastChartDate :
  0 <= getFullYear firstChartDate -> getFullYear lastChartDate <= 9999 ->
  jsSort compareKeys (indexedDays mode firstChartDate lastChartDate)
  = indexedDays mode firstChartDate lastChartDate.
Proof.
  intros Hfirst Hlast. apply jsSort_compareKeys_id.
  - apply Forall_forall. intros d [_ Hd]%list_elem_of_filter.
    apply elem_of_seqZ in Hd.
    apply (years_between firstChartDate lastChartDate); [done|done|lia].
  - unfold indexedDays.
    apply (filter_seqZ_sorted (fun d => dayIndexed mode (getDay d) = true)).
Qed.

Lemma indexedDays_NoDup mode firstChartDate lastChartDate :
  NoDup (indexedDays mode firstChartDate lastChartDate).
Proof.
  unfold indexedDays.
  apply (filter_seqZ_sorted (fun d => dayIndexed mode (getDay d) = true)).
Qed.

Lemma indexedDays_range mode firstChartDate lastChartDate d :
  d ∈ indexedDays mode firstChartDate lastChartDate ->
  firstChartDate <= d <= lastChartDate.
Proof.
  unfold indexedDays. intros [_ Hd]%list_elem_of_filter.
  apply elem_of_seqZ in Hd. lia.
Qed.

Lemma indexedDays_head mode firstChartDate lastChartDate :
  firstChartDate <= lastChartDate ->
  dayIndexed mode (getDay firstChartDate) = true ->
  head (indexedDays mode firstChartDate lastChartDate) = Some firstChartDate.
Proof.
  intros Hle Hidx. unfold indexedDays.
  rewrite seqZ_cons by lia. by rewrite filter_cons, decide_True.
Qed.

Lemma indexedDays_last mode firstChartDate lastChartDate :
  firstChartDate <= lastChartDate ->
  dayIndexed mode (getDay lastChartDate) = true ->
  last (indexedDays mode firstChartDate lastChartDate) = Some lastChartDate.
Proof.
  intros Hle Hidx. unfold indexedDays.
  replace (lastChartDate - firstChartDate + 1)
    with ((lastChartDate - firstChartDate) + 1) by lia.
  rewrite seqZ_app by lia.
  replace (firstChartDate + (lastChartDate - firstChartDate))
    with lastChartDate by lia.
  rewrite (seqZ_cons lastChartDate 1), (seqZ_nil _ (Z.pred 1)) by lia.
  rewrite filter_app, filter_cons, decide_True by done.
  apply last_snoc.
Qed.

(** In the zone UTC, over days of the years 0000 to 9999,
    [generateTimelineHeaders] returns; its map, its sorted keys and its
    counts are those of the indexed days of the range. *)
Lemma generateTimelineHeaders_run mode termOf minOverallDate maxOverallDate ff :
  let days := indexedDays mode (getStartOfWeek minOverallDate)
                (getEndOfWeek mode maxOverallDate) in
  0 <= getFullYear (getStartOfWeek minOverallDate) ->
  getFullYear (getEndOfWeek mode maxOverallDate) <= 9999 ->
  exists info,
    generateTimelineHeaders UTC mode termOf minOverallDate maxOverallDate ff = Some info
    /\ hiDailyDateToSheetColMap info = columnsFrom (ff + 1) days
    /\ hiSortedDailyDateKeys info = days
    /\ totalDataColumns info = Z.of_nat (length days)
    /\ totalHeaderColumns info = ff + Z.of_nat (length days)
    /\ hiTermMergeRanges info
       = computeTermMergeRanges UTC termOf (columnsFrom (ff + 1) days) days.
Proof.
  cbv zeta. intros Hfirst Hlast. unfold generateTimelineHeaders.
  destruct (walkDays_run mode minOverallDate maxOverallDate ff Hfirst Hlast)
    as (w & -> & Hmap & Hcol).
  eexists. split; [reflexivity|]. cbn [mbind option_bind].
  cbn [hiDailyDateToSheetColMap hiSortedDailyDateKeys totalDataColumns
       totalHeaderColumns hiTermMergeRanges].
  unfold mapKeys. rewrite Hmap, Hcol, columnsFrom_keys, indexedDays_sorted by done.
  split_and!; try done; lia.
Qed.




(** ** The colour assigner *)

Lemma availableColors_lookup n :
  availableColors !! (n mod length availableColors)%nat
  = Some (availableColors !!! (n mod length availableColors)%nat).
Proof.
  apply list_lookup_lookup_total_lt, Nat.mod_upper_bound. discriminate.
Qed.

Lemma seenAfter_cons seen x rest :
  seenAfter seen (x :: rest)
  = seenAfter (if decide (x ∈ seen) then seen else seen ++ [x]) rest.
Proof. reflexivity. Qed.

Lemma seenAfter_prefix seen identifiers n id :
  seen !! n = Some id -> seenAfter seen identifiers !! n = Some id.
Proof.
  unfold seenAfter. revert seen.
  induction identifiers as [|x rest IH]; intros seen Hn; simpl; [done|].
  apply IH. case_decide; [done|]. by apply lookup_app_l_Some.
Qed.

Lemma seenAfter_NoDup seen identifiers :
  NoDup seen -> NoDup (seenAfter seen identifiers).
Proof.
  unfold seenAfter. revert seen.
  induction identifiers as [|x rest IH]; intros seen Hnd; simpl; [done|].
  apply IH. case_decide; [done|].
  apply NoDup_app. split_and!; [done| |apply NoDup_singleton].
  intros y Hy ->%list_elem_of_singleton. done.
Qed.

(** One call: the colour returned, and the agreement carried on. *)
Lemma getProjectColor_step c seen x :
  colorsAgree c seen ->
  let seen' := if decide (x ∈ seen) then seen else seen ++ [x] in
  colorsAgree (getProjectColor x c).2 seen'
  /\ exists n, seen' !! n = Some x
       /\ (getProjectColor x c).1
          = Some (availableColors !!! (n mod length availableColors)%nat).
Proof.
  intros (Hidx & Hnd & Hseen & Hnew). cbv zeta. unfold getProjectColor.
  case_decide as Hx.
  - apply list_elem_of_lookup in Hx as [n Hn].
    rewrite (Hseen n x Hn). cbn [fst snd]. rewrite (Hseen n x Hn).
    split; [by split_and!|]. eauto.
  - rewrite (Hnew x Hx). cbn [fst snd projectColors]. rewrite lookup_insert_eq.
    split.
    + unfold colorsAgree. cbn [projectColors colorIndex]. split_and!.
      * rewrite length_app. cbn [length]. lia.
      * apply NoDup_app. split_and!; [done| |apply NoDup_singleton].
        intros y Hy ->%list_elem_of_singleton. done.
      * intros n id Hn. apply lookup_app_Some in Hn as [Hn|[Hlen Hn]].
        -- rewrite lookup_insert_ne; [eauto|].
           intros <-. apply Hx. by eapply list_elem_of_lookup_2.
        -- destruct (n - length seen)%nat as [|k] eqn:Hk; [|done].
           injection Hn as <-. rewrite lookup_insert_eq.
           replace n with (colorIndex c) by lia. done.
      * intros id Hid. apply not_elem_of_app in Hid as [Hid Hne].
        rewrite lookup_insert_ne; [eauto|].
        intros <-. apply Hne, list_elem_of_singleton. done.
    + exists (length seen). split.
      * rewrite lookup_app_r, Nat.sub_diag by lia. done.
      * by rewrite Hidx.
Qed.

Lemma colorsFrom_lookup c seen identifiers i id :
  colorsAgree c seen ->
  identifiers !! i = Some id ->
  exists n, seenAfter seen identifiers !! n = Some id
    /\ colorsFrom c identifiers !! i
       = Some (Some (availableColors !!! (n mod length availableColors)%nat)).
Proof.
  revert c seen i.
  induction identifiers as [|x rest IH]; intros c seen i Hagree Hi; [done|].
  destruct (getProjectColor_step c seen x Hagree) as (Hagree' & n & Hn & Hcol).
  cbn [colorsFrom]. destruct (getProjectColor x c) as [col c'] eqn:Hcall.
  cbn [fst snd] in *.
  rewrite seenAfter_cons.
  destruct i as [|i]; cbn [lookup list_lookup] in Hi |- *.
  - injection Hi as <-. exists n. split; [|by rewrite Hcol].
    by apply seenAfter_prefix.
  - by apply (IH c' _ i).
Qed.

Lemma noColors_agree : colorsAgree noColors [].
Proof.
  split_and!; [done|constructor|done|]. intros id _. apply lookup_empty.
Qed.

(** C7: within one run the colour of a request depends only on the rank of
    its identifier among the distinct identifiers in order of first
    request: the identifier of rank n (counted from 0, so the (n+1)-th
    distinct one) gets palette[n mod 19] at every request, the first and
    all later ones; with the 19 colours of the palette the 20th distinct
    identifier gets palette[0]. *)
Theorem colors_stable_and_cycling (identifiers : list string) (i : nat) (id : string) :
  identifiers !! i = Some id ->
  exists n,
    firstRequests identifiers !! n = Some id
    /\ (forall m, firstRequests identifiers !! m = Some id -> m = n)
    /\ colorsOfRun identifiers !! i
       = Some (availableColors !! (n mod length availableColors)%nat)
    /\ (forall j, identifiers !! j = Some id ->
          colorsOfRun identifiers !! j = colorsOfRun identifiers !! i)
    /\ (n = 19%nat -> colorsOfRun identifiers !! i = Some (availableColors !! 0%nat))
    /\ length availableColors = 19%nat.
Proof.
  intros Hi.
  assert (Hnd : NoDup (firstRequests identifiers))
    by (apply seenAfter_NoDup; constructor).
  assert (Hall : forall j, identifiers !! j = Some id ->
            exists n, firstRequests identifiers !! n = Some id
              /\ colorsOfRun identifiers !! j
                 = Some (availableColors !! (n mod length availableColors)%nat)).
  { intros j Hj.
    destruct (colorsFrom_lookup noColors [] identifiers j id noColors_agree Hj)
      as (n & Hn & Hcol).
    exists n. split; [done|]. unfold colorsOfRun.
    by rewrite Hcol, availableColors_lookup. }
  destruct (Hall i Hi) as (n & Hn & Hcol).
  assert (Huniq : forall m, firstRequests identifiers !! m = Some id -> m = n)
    by (intros m Hm; by eapply NoDup_lookup).
  exists n. split_and!; [done|done|done| | |done].
  - intros j Hj. destruct (Hall j Hj) as (m & Hm & Hcolj).
    rewrite Hcolj, Hcol. by rewrite (Huniq m Hm).
  - intros ->. by rewrite Hcol.
Qed.

Lemma colors_stable_and_cycling_witness :
  exists n,
    firstRequests
      [ "P1"; "P2"; "P3"; "P4"; "P5"; "P6"; "P7"; "P8"; "P9"; "P10";
        "P11"; "P12"; "P13"; "P14"; "P15"; "P16"; "P17"; "P18"; "P19"; "P20"; "P1" ]
      !! n = Some "P20"
    /\ colorsOfRun
      [ "P1"; "P2"; "P3"; "P4"; "P5"; "P6"; "P7"; "P8"; "P9"; "P10";
        "P11"; "P12"; "P13"; "P14"; "P15"; "P16"; "P17"; "P18"; "P19"; "P20"; "P1" ]
      !! 19%nat = Some (availableColors !! (n mod length availableColors)%nat).
Proof.
  destruct (colors_stable_and_cycling
    [ "P1"; "P2"; "P3"; "P4"; "P5"; "P6"; "P7"; "P8"; "P9"; "P10";
      "P11"; "P12"; "P13"; "P14"; "P15"; "P16"; "P17"; "P18"; "P19"; "P20"; "P1" ]
    19%nat "P20" eq_refl) as (n & Hn & _ & Hcol & _).
  exists n. split; assumption.
Defined.

(** ** Term header segments *)

Lemma columnsFrom_lookup c0 days k d :
  days !! k = Some d -> columnsFrom c0 days !! k = Some (d, c0 + Z.of_nat k).
Proof.
  revert c0 k. induction days as [|d' days IH]; intros c0 k Hk; [done|].
  destruct k as [|k]; simpl in *.
  - injection Hk as ->. do 2 f_equal. lia.
  - rewrite (IH (c0 + 1) k Hk). do 2 f_equal. lia.
Qed.

Lemma termColumns_snoc termOf m d col :
  termColumns termOf (m ++ [(d, col)])
  = termColumns termOf m
    ++ match termKeyOf termOf d with Some key => [(col, key)] | None => [] end.
Proof.
  unfold termColumns. rewrite omap_app. f_equal. simpl.
  by destruct (termKeyOf termOf d).
Qed.

Lemma concat_snoc {B} (ls : list (list B)) (l : list B) :
  concat (ls ++ [l]) = concat ls ++ l.
Proof. rewrite concat_app. simpl. by rewrite app_nil_r. Qed.

Lemma termColumns_ext termOf1 termOf2 (m : list (Z * Z)) :
  (forall d, termOf1 d = termOf2 d) -> termColumns termOf1 m = termColumns termOf2 m.
Proof.
  intros Heq. unfold termColumns, termKeyOf.
  induction m as [|e m IH]; [done|]. cbn [omap list_omap]. by rewrite Heq, IH.
Qed.

Section TermLoopFacts.
Variable zone : Z.
Variable termLookup : Z -> option (string * string).
(** The term of a key: [getTermForDate(new Date(dateIso))]. *)
Local Abbreviation termOf := (fun dateIso => termLookup (dateOfKey zone dateIso)).
Variable c0 : Z.
Variable days : list Z.
Hypothesis c0_column : 0 <= c0.
Hypothesis days_NoDup : NoDup days.

Local Abbreviation dailyMap := (columnsFrom c0 days).

Lemma termLoop_get k d : days !! k = Some d -> mapGet d dailyMap = Some (c0 + Z.of_nat k).
Proof. by apply mapGet_columnsFrom. Qed.

(** The cells of the range that [pushRange] adds for an open run. *)
Lemma pushRange_cells st key (s k : nat) :
  lastTermKey st = Some key -> (s < k)%nat ->
  currentTermMergeStartCol st = Some (c0 + Z.of_nat s) ->
  concat (rangeCells <$> pushRange st (Some (c0 + Z.of_nat k - 1)))
  = concat (rangeCells <$> termMergeRanges st)
    ++ ((fun col => (col, key)) <$> seqZ (c0 + Z.of_nat s) (Z.of_nat (k - s))).
Proof.
  intros Hkey Hsk Hstart. unfold pushRange. rewrite Hkey, Hstart.
  rewrite decide_False by (intros [=]; lia).
  rewrite fmap_snoc, concat_snoc. f_equal.
  unfold rangeCells, rangeColumns. cbn [startCol endCol text].
  do 2 f_equal. lia.
Qed.

Lemma termLoopStep_inv k st :
  (k < length days)%nat ->
  termLoopInv termOf c0 days k st ->
  termLoopInv termOf c0 days (S k)
    (termLoopStep zone termLookup dailyMap days st k).
Proof.
  intros Hk [Hlast Hcells].
  destruct (lookup_lt_is_Some_2 days k Hk) as [d Hd].
  assert (Htake : take (S k) dailyMap = take k dailyMap ++ [(d, c0 + Z.of_nat k)])
    by (apply take_S_r; by apply columnsFrom_lookup).
  unfold termLoopStep. rewrite Hd. cbv zeta.
  rewrite (termLoop_get k d Hd).
  change (fst <$> termLookup (dateOfKey zone d)) with (termKeyOf termOf d).
  assert (Hprev : match k with
                  | O => None
                  | S j => days !! j ≫= (fun k0 => mapGet k0 dailyMap)
                  end = match k with O => None | S _ => Some (c0 + Z.of_nat k - 1) end).
  { destruct k as [|j]; [done|].
    destruct (lookup_lt_is_Some_2 days j ltac:(lia)) as [d' Hd'].
    rewrite Hd'. cbn [mbind option_bind]. rewrite (termLoop_get j d' Hd').
    f_equal. lia. }
  rewrite Hprev. clear Hprev.
  unfold termLoopInv. rewrite Htake, termColumns_snoc.
  case_decide as Hsame.
  - (* the day continues the run of the day before *)
    split; [by rewrite Hd, <- Hsame|].
    rewrite <- Hsame in *. destruct (termKeyOf termOf d) as [key|] eqn:Hkey.
    + destruct Hcells as (s & Hs & Hstart & Hcells).
      exists s. split_and!; [lia|done|].
      replace (S k - s)%nat with (S (k - s)) by lia.
      rewrite seqZ_S, fmap_snoc, (assoc_L (++)), Hcells.
      do 3 f_equal. lia.
    + by rewrite app_nil_r.
  - (* the key changes: the open run, if any, is closed *)
    cbn [lastTermKey currentTermMergeStartCol termMergeRanges].
    split; [by rewrite Hd|].
    assert (Hclosed :
      concat (rangeCells <$> pushRange st
                (match k with O => None | S _ => Some (c0 + Z.of_nat k - 1) end))
      = termColumns termOf (take k dailyMap)).
    { destruct (lastTermKey st) as [key0|] eqn:Hkey0.
      - destruct Hcells as (s & Hs & Hstart & Hcells).
        destruct k as [|j]; [lia|].
        by rewrite (pushRange_cells st key0 s (S j) Hkey0 Hs Hstart).
      - unfold pushRange. by rewrite Hkey0. }
    destruct (termKeyOf termOf d) as [key|] eqn:Hkey.
    + exists k. split_and!; [lia|done|].
      rewrite Hclosed. replace (S k - k)%nat with 1%nat by lia.
      rewrite (seqZ_cons _ (Z.of_nat 1)), seqZ_nil by lia. done.
    + by rewrite Hclosed, app_nil_r.
Qed.

Lemma termLoop_inv k :
  (k <= length days)%nat ->
  termLoopInv termOf c0 days k
    (foldl (termLoopStep zone termLookup dailyMap days)
       {| lastTermKey := None;
          currentTermMergeStartCol := Some (-1);
          currentTermColor := None;
          termMergeRanges := [] |}
       (seq 0 k)).
Proof.
  induction k as [|k IH]; intros Hk.
  - split; simpl; done.
  - rewrite seq_S, foldl_snoc. simpl. apply termLoopStep_inv; [lia|]. apply IH. lia.
Qed.

(** The merge ranges hold, in order, exactly the columns of the days that
    resolve to a term, each under the key of its day. *)
Lemma computeTermMergeRanges_cells :
  concat (rangeCells <$> computeTermMergeRanges zone termLookup dailyMap days)
  = termColumns termOf dailyMap.
Proof.
  unfold computeTermMergeRanges. cbv zeta.
  destruct (termLoop_inv (length days) (le_n _)) as [Hlast Hcells].
  set (st := foldl _ _ _) in *.
  rewrite firstn_all2 in Hcells
    by (rewrite <- (length_fmap fst), columnsFrom_keys; lia).
  destruct (lastTermKey st) as [key|] eqn:Hkey.
  - destruct Hcells as (s & Hs & Hstart & Hcells).
    rewrite last_lookup.
    destruct (lookup_lt_is_Some_2 days (pred (length days)) ltac:(lia)) as [d Hd].
    rewrite Hd. cbn [mbind option_bind]. rewrite (termLoop_get _ d Hd).
    replace (c0 + Z.of_nat (pred (length days)))
      with (c0 + Z.of_nat (length days) - 1) by lia.
    by rewrite (pushRange_cells st key s (length days) Hkey Hs Hstart).
  - unfold pushRange. by rewrite Hkey.
Qed.
End TermLoopFacts.

Lemma rangeCells_columns (ranges : list TermRange) :
  (concat (rangeCells <$> ranges)).*1 = concat (rangeColumns <$> ranges).
Proof.
  induction ranges as [|r ranges IH]; [done|].
  rewrite !fmap_cons. cbn [concat]. rewrite fmap_app, IH. f_equal.
  unfold rangeCells. rewrite <- list_fmap_compose. apply list_fmap_id.
Qed.

Lemma termColumns_total termOf (m : list (Z * Z)) :
  (forall d, d ∈ m.*1 -> is_Some (termOf d)) -> (termColumns termOf m).*1 = m.*2.
Proof.
  induction m as [|[d col] m IH]; intros Hall; [done|].
  unfold termColumns, termKeyOf in *. cbn [omap list_omap fst snd].
  destruct (Hall d) as [kc Hkc]; [simpl; left|].
  rewrite Hkc. simpl. f_equal. apply IH. intros d' Hd'. apply Hall. simpl. by right.
Qed.

Lemma termColumns_sublist termOf (m : list (Z * Z)) :
  sublist (termColumns termOf m).*1 m.*2.
Proof.
  unfold termColumns. induction m as [|[d col] m IH]; [done|].
  cbn [omap list_omap fst snd]. destruct (termKeyOf termOf d); simpl.
  - by apply sublist_skip.
  - by apply sublist_cons.
Qed.

Lemma termColumns_length termOf (m : list (Z * Z)) :
  (length (termColumns termOf m) <= length m)%nat.
Proof.
  unfold termColumns. induction m as [|e m IH]; [done|].
  cbn [omap list_omap]. destruct (_ <$> termKeyOf termOf e.1); simpl in *; lia.
Qed.

Lemma termColumns_shorter termOf (m : list (Z * Z)) d :
  d ∈ m.*1 -> termOf d = None -> (length (termColumns termOf m) < length m)%nat.
Proof.
  induction m as [|[d' col] m IH]; intros Hd Hnone; [by apply elem_of_nil in Hd|].
  simpl in Hd. apply elem_of_cons in Hd as [<-|Hd].
  - unfold termColumns, termKeyOf. cbn [omap list_omap fst snd]. rewrite Hnone. simpl.
    pose proof (termColumns_length termOf m). unfold termColumns, termKeyOf in *. lia.
  - specialize (IH Hd Hnone). unfold termColumns in *. cbn [omap list_omap].
    destruct (_ <$> termKeyOf termOf (d', col).1); simpl in *; lia.
Qed.

(** With the month rules of Code.js every day of a year after 100 lies in a
    term: January in T4 of the year before, February to April in T1, May
    to July in T2, August to October in T3, November and December in T4. *)
Lemma getTermForDate_total d : 100 < getFullYear d -> is_Some (getTermForDate d).
Proof.
  intros Hy. unfold getTermForDate, TERMS.
  cbn [getTermForDate_in mtName startMonth endMonth mtColor].
  simpl (String.eqb _ _). cbn [andb orb negb].
  change (2 - 1) with 1. change (4 - 1 + 1) with 4. change (5 - 1) with 4.
  change (7 - 1 + 1) with 7. change (8 - 1) with 7. change (10 - 1 + 1) with 10.
  change (11 - 1) with 10. change (1 - 1 + 1) with 1.
  unfold getFullYear, getMonth in *.
  destruct (calendar_fields d) as (HL & Hdays & Hw & Hnext & Hmonth).
  pose proof (DayFromYear_succ (YearFromTime d - 1)) as Hprev.
  replace (YearFromTime d - 1 + 1) with (YearFromTime d) in Hprev by lia.
  pose proof (DaysInYear_cases (YearFromTime d - 1)) as Hprevdays.
  assert (Hends :
    forall y, y = YearFromTime d \/ y = YearFromTime d + 1 \/ y = YearFromTime d - 1 ->
      forall m dt, 0 <= m <= 11 ->
        newDate y m dt
        = DayFromYear y + monthStart (if DaysInYear y =? 366 then 1 else 0) m + dt - 1).
  { intros y Hyy m dt Hm. rewrite newDate_full by lia. by apply MakeDay_month. }
  set (Y := YearFromTime d) in *. set (L := InLeapYear d) in *.
  assert (HLY : (if DaysInYear Y =? 366 then 1 else 0) = L) by reflexivity.
  destruct Hmonth
    as [[-> ?]|[[-> ?]|[[-> ?]|[[-> ?]|[[-> ?]|[[-> ?]|[[-> ?]|[[-> ?]|[[-> ?]|
        [[-> ?]|[[-> ?]|[-> ?]]]]]]]]]]]];
    cbn [Z.eqb Pos.eqb orb negb monthStart] in *;
    rewrite !Hends by (auto; lia); rewrite ?HLY; cbn [monthStart];
    destruct_comparisons; try (eexists; reflexivity).
  all: try (exfalso; repeat case_match; lia).
Qed.

Lemma termOfMonthRule_total d : 100 < getFullYear d -> is_Some (termOfMonthRule d).
Proof.
  intros Hy. destruct (getTermForDate_total d Hy) as [t Ht].
  unfold termOfMonthRule. rewrite Ht. by eexists.
Qed.

(** The merge ranges of a built index hold the term columns of its map. *)
Lemma generateTimelineHeaders_term_cells mode termOf minOverallDate maxOverallDate ff :
  0 <= ff ->
  0 <= getFullYear (getStartOfWeek minOverallDate) ->
  getFullYear (getEndOfWeek mode maxOverallDate) <= 9999 ->
  exists info,
    generateTimelineHeaders UTC mode termOf minOverallDate maxOverallDate ff = Some info
    /\ hiDailyDateToSheetColMap info
       = columnsFrom (ff + 1)
           (indexedDays mode (getStartOfWeek minOverallDate)
              (getEndOfWeek mode maxOverallDate))
    /\ (hiDailyDateToSheetColMap info).*2 = seqZ (ff + 1) (totalDataColumns info)
    /\ concat (rangeCells <$> hiTermMergeRanges info)
       = termColumns termOf (hiDailyDateToSheetColMap info).
Proof.
  intros Hff Hfirst Hlast.
  destruct (generateTimelineHeaders_run mode termOf minOverallDate maxOverallDate ff
              Hfirst Hlast)
    as (info & Hrun & Hmap & Hkeys & Hdata & _ & Hranges).
  exists info. split_and!; [done|done| |].
  - by rewrite Hmap, Hdata, columnsFrom_columns.
  - rewrite Hranges, Hmap.
    rewrite computeTermMergeRanges_cells by (lia || apply indexedDays_NoDup).
    apply termColumns_ext. intros d. by rewrite dateOfKey_UTC.
Qed.

(** With the month rules of Code.js, for dates of years after 100, every
    indexed day resolves to a term and the term ranges tile the data
    columns. *)
Lemma month_rule_ranges_tile mode minOverallDate maxOverallDate ff :
  0 <= ff ->
  100 < getFullYear (getStartOfWeek minOverallDate) ->
  getFullYear (getEndOfWeek mode maxOverallDate) <= 9999 ->
  exists info,
    generateTimelineHeaders UTC mode termOfMonthRule minOverallDate maxOverallDate ff
    = Some info
    /\ concat (rangeColumns <$> hiTermMergeRanges info)
       = seqZ (ff + 1) (totalDataColumns info).
Proof.
  intros Hff Hyear Hlast.
  destruct (generateTimelineHeaders_term_cells mode termOfMonthRule
              minOverallDate maxOverallDate ff Hff ltac:(lia) Hlast)
    as (info & Hrun & Hmap & Hcols & Hcells).
  exists info. split; [exact Hrun|].
  rewrite <- rangeCells_columns, Hcells, <- Hcols.
  apply termColumns_total. intros d Hd.
  rewrite Hmap, columnsFrom_keys in Hd. apply indexedDays_range in Hd.
  apply termOfMonthRule_total.
  pose proof (YearFromTime_mono (getStartOfWeek minOverallDate) d ltac:(lia)) as Hmono.
  unfold getFullYear in *. lia.
Qed.

(** C5, as the code has it: in the zone UTC, for a walk within the years
    0000 to 9999, the keys of the index are its days, each read back by
    [new Date(key)] as the day itself, and the term merge ranges hold, in
    column order and without repetition, exactly the columns of the
    indexed days that resolve to a term, each under the term key of its
    day; a run of days without term gets no range.  The data columns are
    consecutive from the first data column, so the ranges tile the whole
    axis exactly when every indexed day resolves to a term. *)
Theorem term_ranges_cover_term_days (mode : WeekMode)
    (termOf : Z -> option (string * string))
    (minOverallDate maxOverallDate firstFixedColumnIndex : Z) :
  0 <= firstFixedColumnIndex ->
  0 <= getFullYear (getStartOfWeek minOverallDate) ->
  getFullYear (getEndOfWeek mode maxOverallDate) <= 9999 ->
  exists info,
    generateTimelineHeaders UTC mode termOf minOverallDate maxOverallDate
      firstFixedColumnIndex = Some info
    /\ mapKeys (hiDailyDateToSheetColMap info)
       = indexedDays mode (getStartOfWeek minOverallDate)
           (getEndOfWeek mode maxOverallDate)
    /\ (forall d, d ∈ mapKeys (hiDailyDateToSheetColMap info) ->
          toISODate UTC d = d /\ dateOfKey UTC d = d)
    /\ (hiDailyDateToSheetColMap info).*2
       = seqZ (firstFixedColumnIndex + 1) (totalDataColumns info)
    /\ concat (rangeCells <$> hiTermMergeRanges info)
       = termColumns termOf (hiDailyDateToSheetColMap info)
    /\ concat (rangeColumns <$> hiTermMergeRanges info)
       = (termColumns termOf (hiDailyDateToSheetColMap info)).*1
    /\ sublist (concat (rangeColumns <$> hiTermMergeRanges info))
         (seqZ (firstFixedColumnIndex + 1) (totalDataColumns info))
    /\ ((forall d, d ∈ mapKeys (hiDailyDateToSheetColMap info) -> is_Some (termOf d)) ->
        concat (rangeColumns <$> hiTermMergeRanges info)
        = seqZ (firstFixedColumnIndex + 1) (totalDataColumns info))
    /\ ((exists d, d ∈ mapKeys (hiDailyDateToSheetColMap info) /\ termOf d = None) ->
        concat (rangeColumns <$> hiTermMergeRanges info)
        <> seqZ (firstFixedColumnIndex + 1) (totalDataColumns info)).
Proof.
  intros Hff Hfirst Hlast.
  destruct (generateTimelineHeaders_term_cells mode termOf minOverallDate
              maxOverallDate firstFixedColumnIndex Hff Hfirst Hlast)
    as (info & Hrun & Hmap & Hcols & Hcells).
  assert (Hkeys : mapKeys (hiDailyDateToSheetColMap info)
                  = indexedDays mode (getStartOfWeek minOverallDate)
                      (getEndOfWeek mode maxOverallDate))
    by (unfold mapKeys; by rewrite Hmap, columnsFrom_keys).
  exists info. split_and!; [done|done| |done|done| | | |].
  - intros d Hd. rewrite Hkeys in Hd. apply indexedDays_range in Hd.
    split; [|apply dateOfKey_UTC]. apply toISODate_UTC.
    by apply (years_between (getStartOfWeek minOverallDate)
                (getEndOfWeek mode maxOverallDate)).
  - by rewrite <- rangeCells_columns, Hcells.
  - rewrite <- rangeCells_columns, Hcells, <- Hcols. apply termColumns_sublist.
  - intros Hall. rewrite <- rangeCells_columns, Hcells, <- Hcols.
    by apply termColumns_total.
  - intros (d & Hd & Hnone) Heq.
    rewrite <- rangeCells_columns, Hcells, <- Hcols in Heq.
    apply (f_equal length) in Heq. rewrite !length_fmap in Heq.
    pose proof (termColumns_shorter termOf (hiDailyDateToSheetColMap info) d Hd Hnone).
    lia.
Qed.

Lemma term_ranges_cover_term_days_witness :
  exists info,
    generateTimelineHeaders UTC WorkWeek termOfMonthRule (ymd 2025 1 29) (ymd 2025 2 5) 1
      = Some info
    /\ concat (rangeCells <$> hiTermMergeRanges info)
       = termColumns termOfMonthRule (hiDailyDateToSheetColMap info).
Proof.
  destruct (term_ranges_cover_term_days WorkWeek termOfMonthRule
              (ymd 2025 1 29) (ymd 2025 2 5) 1)
    as (info & Hrun & _ & _ & _ & Hcells & _);
    [lia | vm_compute; discriminate | vm_compute; discriminate |].
  exists info. split; assumption.
Defined.

(** C5 as stated fails in the variants with a term catalogue, also in the
    zone UTC: over the two weeks from Monday 2024-10-28 to Sunday
    2024-11-10 the fourteen data columns are 2..15, the days before
    2024-11-03 lie in no term of [TERMS_DATA], and the only merge range is
    8..15: columns 2..7 are in no segment. *)
Lemma term_ranges_leave_gaps :
  (fun info => (hiDailyDateToSheetColMap info).*2)
    <$> generateTimelineHeaders UTC FullWeek (termOfCatalog TERMS_DATA)
          (ymd 2024 10 29) (ymd 2024 11 5) 1
  = Some [2; 3; 4; 5; 6; 7; 8; 9; 10; 11; 12; 13; 14; 15]
  /\ (fun info => concat (rangeColumns <$> hiTermMergeRanges info))
       <$> generateTimelineHeaders UTC FullWeek (termOfCatalog TERMS_DATA)
             (ymd 2024 10 29) (ymd 2024 11 5) 1
     = Some [8; 9; 10; 11; 12; 13; 14; 15]
  /\ termOfCatalog TERMS_DATA (ymd 2024 10 28) = None
  /\ termOfCatalog TERMS_DATA (ymd 2024 11 2) = None
  /\ termOfCatalog TERMS_DATA (ymd 2024 11 3) = Some ("T4 2024", "#96CEB4").
Proof. vm_compute. done. Qed.

(** ** Resolving an interval to columns *)

(** C8, as the code has it: a start day that is not in the index is put at
    the first data column of the row, an end day that is not in the index
    at the last header column (and at the start column if that is larger);
    a day that is in the index, at or after the first data column, keeps
    its column.  The bar is always painted, on at least one column, and no
    message is raised.  The customer and milestone rows of the later
    variants instead raise a message box for a missing day and paint no
    bar. *)
Theorem resolveSpan_clamps_to_axis_ends
    (firstColumn totalHeaderColumns : Z) (m : list (Z * Z))
    (projectStartDate projectEndDate : Z) :
  (exists a b,
      resolveSpan firstColumn totalHeaderColumns m projectStartDate projectEndDate
      = {| bar := Some (a, b); messages := [] |}
      /\ a <= b
      /\ (mapGet projectStartDate m = None -> a = firstColumn)
      /\ (mapGet projectEndDate m = None -> b = Z.max a totalHeaderColumns)
      /\ (forall c, mapGet projectStartDate m = Some c -> firstColumn <= c -> a = c)
      /\ (forall c, mapGet projectEndDate m = Some c -> firstColumn <= c ->
            b = Z.max a c))
  /\ (forall customer,
        customerStart customer = projectStartDate ->
        customerEnd customer = projectEndDate ->
        mapGet projectStartDate m = None \/ mapGet projectEndDate m = None ->
        resolveSpanChecked firstColumn totalHeaderColumns m customer
        = {| bar := None;
             messages := ["Mapping is wrong for customer: " +:+ name customer] |}).
Proof.
  split.
  - unfold resolveSpan. cbv zeta.
    set (a := match mapGet projectStartDate m with
              | Some c => if c <? firstColumn then firstColumn else c
              | None => firstColumn
              end).
    set (b0 := match mapGet projectEndDate m with
               | Some c => if c <? firstColumn then totalHeaderColumns else c
               | None => totalHeaderColumns
               end).
    exists a, (if a >? b0 then a else b0).
    assert (Hab : a <= (if a >? b0 then a else b0))
      by (destruct (Z.gtb_spec a b0); lia).
    split_and!.
    + f_equal. destruct (Z.gtb_spec ((if a >? b0 then a else b0) - a + 1) 0); [done|lia].
    + done.
    + subst a. by intros ->.
    + subst b0. intros ->. destruct (Z.gtb_spec a totalHeaderColumns); lia.
    + subst a. intros c -> Hc. destruct (Z.ltb_spec c firstColumn); [lia|done].
    + subst b0. intros c -> Hc. destruct (Z.ltb_spec c firstColumn); [lia|].
      destruct (Z.gtb_spec a c); lia.
  - intros customer <- <- Hmissing. unfold resolveSpanChecked.
    destruct Hmissing as [-> | ->]; [done|].
    by destruct (mapGet (customerStart customer) m).
Qed.

(** C8 as stated fails on Code.js: in the work-week index from Monday
    2025-01-06 to Friday 2025-01-17 (columns 2..11) a customer from Saturday
    2025-01-11 to Wednesday 2025-01-15 has no column for its start; the
    nearest column at or after it is 7 (Monday 2025-01-13), the bar is
    painted from column 2, and no message is raised.  A customer from
    Monday 2025-01-06 to Sunday 2025-01-12 has no column for its end; the
    nearest column at or before it is 6, the bar goes up to column 11. *)
Lemma resolveSpan_not_nearest_column :
  (fun info =>
     let m := hiDailyDateToSheetColMap info in
     ( mapGet (ymd 2025 1 11) m,
       nearestColumnAtOrAfter m (ymd 2025 1 11),
       resolveSpan (1 + 1) (totalHeaderColumns info) m (ymd 2025 1 11) (ymd 2025 1 15),
       mapGet (ymd 2025 1 12) m,
       nearestColumnAtOrBefore m (ymd 2025 1 12),
       resolveSpan (1 + 1) (totalHeaderColumns info) m (ymd 2025 1 6) (ymd 2025 1 12) ))
    <$> generateTimelineHeaders UTC WorkWeek termOfMonthRule (ymd 2025 1 6) (ymd 2025 1 17) 1
  = Some ( None, Some 7, {| bar := Some (2, 9); messages := [] |},
           None, Some 6, {| bar := Some (2, 11); messages := [] |} ).
Proof. vm_compute. reflexivity. Qed.

(** ** Normalisation of the end date *)

Lemma adjustProjectEndDate_start startDate endDate :
  endDate < startDate -> adjustProjectEndDate startDate endDate = startDate.
Proof.
  intros Hlt. unfold adjustProjectEndDate.
  destruct (Z.ltb_spec endDate startDate); [done|lia].
Qed.

(** Within one month of one year [setDate] does reach the start date. *)
Lemma adjustEndDate_same_month startDate endDate :
  endDate < startDate ->
  getFullYear endDate = getFullYear startDate ->
  getMonth endDate = getMonth startDate ->
  adjustEndDate startDate endDate = startDate.
Proof.
  intros Hlt Hy Hm. unfold adjustEndDate, setDate.
  destruct (Z.ltb_spec endDate startDate); [|lia].
  unfold getFullYear, getMonth, getDate in *. rewrite Hy, Hm.
  rewrite <- (Z.add_0_r (DateFromTime startDate)), MakeDay_fields. lia.
Qed.

(** C4 on the code: for a row that starts on 2025-03-15 and ends on
    2025-01-10, [endDate.setDate(startDate.getDate())] yields 2025-01-15,
    which is neither the start date nor on or after it; the project
    timeline, which copies the start date, yields 2025-03-15. *)
Theorem adjustEndDate_across_months :
  adjustEndDate (ymd 2025 3 15) (ymd 2025 1 10) = ymd 2025 1 15
  /\ ymd 2025 1 15 < ymd 2025 3 15
  /\ adjustProjectEndDate (ymd 2025 3 15) (ymd 2025 1 10) = ymd 2025 3 15.
Proof. vm_compute. done. Qed.

(** ** Mutation of the caller's objects *)

Lemma setHoursZero_allocated r v (h : gmap nat Z) :
  h !! r = Some v -> setHoursZero r h = h /\ timeOf h r = v.
Proof.
  intros Hr. unfold setHoursZero, timeOf. rewrite Hr. simpl.
  split; [by apply insert_id|done].
Qed.

(** On the store [getTermForDate] computes what it computes on the day of
    its argument; its write leaves a whole day as it is. *)
Lemma getTermForDate_store_pure terms date v (h : gmap nat Z) :
  h !! date = Some v ->
  getTermForDate_store terms (getMonth v) (getFullYear v) date h
  = (getTermForDate_in terms v, h).
Proof.
  intros Hdate. destruct (setHoursZero_allocated date v h Hdate) as [Hset Htime].
  induction terms as [|term rest IH]; [done|].
  cbn [getTermForDate_store getTermForDate_in]. cbv zeta.
  rewrite Hset, Htime, IH. repeat case_match; done.
Qed.

Lemma termRound_store_spec (h : gmap nat Z) dateIso :
  termRound_store h dateIso
  = (getTermForDate dateIso, <[ fresh (dom h) := dateIso ]> h).
Proof.
  unfold termRound_store, newDateObject.
  assert (Hnew : <[ fresh (dom h) := dateIso ]> h !! fresh (dom h) = Some dateIso)
    by apply lookup_insert_eq.
  unfold timeOf at 1 2. rewrite Hnew.
  change (default 0 (Some dateIso)) with dateIso.
  by rewrite (getTermForDate_store_pure TERMS _ dateIso _ Hnew).
Qed.

Lemma termLoop_store_frame (h : gmap nat Z) keys r :
  is_Some (h !! r) ->
  foldl (fun h dateIso => (termRound_store h dateIso).2) h keys !! r = h !! r.
Proof.
  revert h. induction keys as [|d keys IH]; intros h Hr; [done|].
  cbn [foldl]. rewrite termRound_store_spec. cbn [snd].
  assert (Hne : fresh (dom h) <> r).
  { intros <-. apply elem_of_dom in Hr. by apply (is_fresh (dom h)). }
  rewrite IH; rewrite lookup_insert_ne by done; done.
Qed.

(** C9, as the code has it: packing sorts the caller's array in place, so
    afterwards the array holds the same objects in the stable order of
    their start dates (unchanged only if it was sorted already); no [Date]
    object is written by packing or column lookup, and the term loop
    writes only to the [Date] objects it creates itself: every [Date] of
    the caller keeps its value, and the array is left alone by the term
    loop. *)
Theorem engine_sorts_array_keeps_dates (σ : Store) (dailyMap : list (Z * Z))
    (totalHeaderColumns startRow fixedColumnIndex : Z) (sortedDailyDateKeys : list Z) :
  let after :=
    storeAfter (populateCustomerRows σ dailyMap totalHeaderColumns startRow
                  fixedColumnIndex) in
  dateObjects after = dateObjects σ
  /\ customerData after
     = jsSort (byStartDate (H := datesIn (dateObjects σ))) (customerData σ)
  /\ customerData after ≡ₚ customerData σ
  /\ (StronglySorted
        (fun a b => timeOf (dateObjects σ) (startRef a)
                    <= timeOf (dateObjects σ) (startRef b)) (customerData σ) ->
      customerData after = customerData σ)
  /\ customerData (termLoop_store σ sortedDailyDateKeys) = customerData σ
  /\ (forall r, is_Some (dateObjects σ !! r) ->
        dateObjects (termLoop_store σ sortedDailyDateKeys) !! r = dateObjects σ !! r).
Proof.
  cbv zeta.
  assert (Hsorted :
    customerData (storeAfter (populateCustomerRows σ dailyMap totalHeaderColumns
                                startRow fixedColumnIndex))
    = jsSort (byStartDate (H := datesIn (dateObjects σ))) (customerData σ)).
  { unfold populateCustomerRows. destruct σ as [h [|c data]]; done. }
  split_and!.
  - unfold populateCustomerRows. destruct σ as [h [|c data]]; done.
  - done.
  - rewrite Hsorted. apply (jsSort_perm (startDate (HasDates := datesIn (dateObjects σ)))).
  - intros Hs. rewrite Hsorted.
    by apply (jsSort_sorted_id (startDate (HasDates := datesIn (dateObjects σ)))).
  - done.
  - intros r Hr. by apply termLoop_store_frame.
Qed.

(** C9 as stated fails: an array that holds Beta (2025-02-10 to
    2025-02-14) before Alpha (2025-01-06 to 2025-01-10) holds Alpha before
    Beta after [populateCustomerRows]. *)
Lemma populateCustomerRows_reorders_array :
  customerData
    (storeAfter
       (populateCustomerRows
          {| dateObjects :=
               {[ 0%nat := ymd 2025 2 10; 1%nat := ymd 2025 2 14;
                  2%nat := ymd 2025 1 6; 3%nat := ymd 2025 1 10 ]};
             customerData := [ mkCustomerObj "Beta" 0 1; mkCustomerObj "Alpha" 2 3 ] |}
          (columnsFrom 2 (indexedDays WorkWeek (ymd 2025 1 6) (ymd 2025 2 14)))
          31 3 1))
  = [ mkCustomerObj "Alpha" 2 3; mkCustomerObj "Beta" 0 1 ].
Proof. vm_compute. reflexivity. Qed.

(** ** The scenario of the design document

    Alice works on A from 2025-01-06 to 2025-01-08 and on B from 2025-01-07
    to 2025-01-10, Bob on C from 2025-01-06 to 2025-01-09, in the people
    timeline of Code.js (one fixed column before the first data column 3):
    Alice takes two rows, Bob one, and each bar spans the columns of its
    days. *)
Example people_timeline_scenario :
  let A := mkProject "A" "A" None (ymd 2025 1 6) (ymd 2025 1 8) None in
  let B := mkProject "B" "B" None (ymd 2025 1 7) (ymd 2025 1 10) None in
  let C := mkProject "C" "C" None (ymd 2025 1 6) (ymd 2025 1 9) None in
  pack [A; B] = [[A]; [B]]
  /\ pack [C] = [[C]]
  /\ (fun info =>
        let m := hiDailyDateToSheetColMap info in
        let total := totalHeaderColumns info in
        (total,
         bar (resolveSpan 2 total m (startDate A) (endDate A)),
         bar (resolveSpan 2 total m (startDate B) (endDate B)),
         bar (resolveSpan 2 total m (startDate C) (endDate C))))
       <$> generateTimelineHeaders UTC WorkWeek termOfMonthRule (ymd 2025 1 6) (ymd 2025 1 10) 2
     = Some (7, Some (3, 5), Some (4, 7), Some (3, 6)).
Proof. vm_compute. done. Qed.

(** * Further properties of the scripts *)

(** ** End dates before the start date, and the rows of customers *)

Lemma setDate_closed d n : setDate d n = d + (n - getDate d).
Proof.
  unfold setDate, getDate.
  replace n with (DateFromTime d + (n - DateFromTime d)) at 1 by lia.
  apply MakeDay_fields.
Qed.

Lemma beforeMonth_fields d :
  beforeMonth d
  = DayFromYear (YearFromTime d) + monthStart (InLeapYear d) (MonthFromTime d) - 1.
Proof. unfold beforeMonth, getDate, DateFromTime, DayWithinYear. lia. Qed.

Lemma monthStart_bounds L m : 0 <= L <= 1 -> 0 <= monthStart L m <= 334 + L.
Proof.
  intros HL. unfold monthStart.
  destruct m as [|p|p]; try lia.
  do 4 (try destruct p as [p|p|]); lia.
Qed.

(** Days of different months: the months start at least 28 days apart. *)
Lemma beforeMonth_apart e s :
  e < s ->
  (getFullYear e, getMonth e) <> (getFullYear s, getMonth s) ->
  beforeMonth e + 28 <= beforeMonth s.
Proof.
  intros Hlt Hne. rewrite !beforeMonth_fields.
  pose proof (YearFromTime_mono e s ltac:(lia)) as Hmono.
  destruct (calendar_fields e) as (HLe & _ & Hwe & Hnexte & Hme).
  destruct (calendar_fields s) as (HLs & _ & Hws & _ & Hms).
  unfold getFullYear, getMonth in Hne.
  destruct (Z.eq_dec (YearFromTime e) (YearFromTime s)) as [Hy|Hy].
  - assert (HL : InLeapYear e = InLeapYear s) by (unfold InLeapYear; by rewrite Hy).
    assert (Hm : MonthFromTime e <> MonthFromTime s) by congruence.
    rewrite Hy, HL in *.
    set (L := InLeapYear s) in *. set (D := DayFromYear (YearFromTime s)) in *.
    clearbody L D. clear Hne Hy HL Hmono Hnexte.
    destruct Hme as [[He ?]|[[He ?]|[[He ?]|[[He ?]|[[He ?]|[[He ?]|[[He ?]|[[He ?]|[[He ?]|
        [[He ?]|[[He ?]|[He ?]]]]]]]]]]]];
    destruct Hms as [[Hs ?]|[[Hs ?]|[[Hs ?]|[[Hs ?]|[[Hs ?]|[[Hs ?]|[[Hs ?]|[[Hs ?]|[[Hs ?]|
        [[Hs ?]|[[Hs ?]|[Hs ?]]]]]]]]]]]];
    rewrite He, Hs in *; cbn [monthStart]; lia.
  - pose proof (DayFromYear_mono (YearFromTime e + 1) (YearFromTime s) ltac:(lia)).
    pose proof (monthStart_bounds (InLeapYear e) (MonthFromTime e) ltac:(lia)).
    pose proof (monthStart_bounds (InLeapYear s) (MonthFromTime s) ltac:(lia)).
    lia.
Qed.

Lemma adjustEndDate_only_within_month_aux (startDate endDate : Z) :
  endDate < startDate ->
  adjustEndDate startDate endDate = endDate + (getDate startDate - getDate endDate)
  /\ ((getFullYear endDate, getMonth endDate) = (getFullYear startDate, getMonth startDate) ->
      adjustEndDate startDate endDate = startDate)
  /\ ((getFullYear endDate, getMonth endDate) <> (getFullYear startDate, getMonth startDate) ->
      adjustEndDate startDate endDate + 28 <= startDate).
Proof.
  intros Hlt.
  assert (Hadj : adjustEndDate startDate endDate
                 = endDate + (getDate startDate - getDate endDate)).
  { unfold adjustEndDate. destruct (Z.ltb_spec endDate startDate); [|lia].
    apply setDate_closed. }
  split_and!; [done| |].
  - intros [= Hy Hm]. apply adjustEndDate_same_month; done.
  - intros Hne. rewrite Hadj.
    pose proof (beforeMonth_apart endDate startDate Hlt Hne) as Hapart.
    unfold beforeMonth in Hapart. lia.
Qed.

(** X1: an end date before the start date is moved by the difference of
    the two days of the month: it reaches the start date when both dates
    lie in the same month of the same year, and otherwise stays at least
    28 days before the start date. *)
Theorem adjustEndDate_only_within_month (startDate endDate : Z) :
  endDate < startDate ->
  adjustEndDate startDate endDate = endDate + (getDate startDate - getDate endDate)
  /\ ((getFullYear endDate, getMonth endDate) = (getFullYear startDate, getMonth startDate) ->
      adjustEndDate startDate endDate = startDate)
  /\ ((getFullYear endDate, getMonth endDate) <> (getFullYear startDate, getMonth startDate) ->
      adjustEndDate startDate endDate + 28 <= startDate).
Proof. apply adjustEndDate_only_within_month_aux. Qed.

Lemma adjustEndDate_only_within_month_witness :
  adjustEndDate (ymd 2025 3 31) (ymd 2025 2 10) + 28 <= ymd 2025 3 31.
Proof.
  refine (proj2 (proj2 (adjustEndDate_only_within_month
                          (ymd 2025 3 31) (ymd 2025 2 10) _)) _).
  - vm_compute. reflexivity.
  - vm_compute. discriminate.
Defined.

Lemma adjustEndDate_ordered s e : s <= e -> adjustEndDate s e = e.
Proof. intros Hle. unfold adjustEndDate. destruct (Z.ltb_spec e s); [lia|done]. Qed.

Lemma customerOfRow_interval row c :
  customerOfRow row = Some c ->
  normalized c \/ customerEnd c + 28 <= customerStart c.
Proof.
  unfold customerOfRow, normalized. cbv zeta.
  destruct (crStart row) as [s|], (crEnd row) as [e|]; intros [= <-]; simpl.
  - destruct (Z.le_gt_cases s e) as [Hle|Hgt].
    + left. rewrite adjustEndDate_ordered; lia.
    + destruct (adjustEndDate_only_within_month_aux s e) as (_ & Hsame & Hdiff); [lia|].
      destruct (decide ((getFullYear e, getMonth e) = (getFullYear s, getMonth s))).
      * left. rewrite Hsame; [lia|done].
      * right. by apply Hdiff.
  - left. rewrite adjustEndDate_ordered; lia.
  - left. rewrite adjustEndDate_ordered; lia.
Qed.

(** X2: [getCustomerData] keeps, in sheet order, the rows that have at
    least one date; a kept customer starts on its start cell, or on its end
    cell when the start cell is no date; its interval is well formed
    (start <= end) or ends at least 28 days before it starts, and it is
    well formed whenever no row has its end date in a month before the
    month of its start date. *)
Theorem getCustomerData_rows (dataRows : list CustomerRow) :
  name <$> getCustomerData dataRows
  = crName <$> filter (fun row => is_Some (crStart row) \/ is_Some (crEnd row)) dataRows
  /\ customerStart <$> getCustomerData dataRows
     = omap (fun row => match crStart row with
                        | Some s => Some s
                        | None => crEnd row
                        end) dataRows
  /\ Forall (fun c => normalized c \/ customerEnd c + 28 <= customerStart c)
       (getCustomerData dataRows)
  /\ (Forall (fun row => forall s e, crStart row = Some s -> crEnd row = Some e ->
                s <= e \/ (getFullYear e, getMonth e) = (getFullYear s, getMonth s))
        dataRows ->
      Forall normalized (getCustomerData dataRows)).
Proof.
  unfold getCustomerData. split_and!.
  - induction dataRows as [|row rows IH]; [done|].
    rewrite filter_cons. cbn [omap list_omap]. unfold customerOfRow at 1.
    destruct (crStart row) as [s|], (crEnd row) as [e|]; cbv zeta;
      (rewrite decide_True by (eauto using mk_is_Some))
      || (rewrite decide_False by (intros [[? [=]]|[? [=]]])); csimpl; by rewrite ?IH.
  - induction dataRows as [|row rows IH]; [done|].
    cbn [omap list_omap]. unfold customerOfRow at 1.
    destruct (crStart row) as [s|], (crEnd row) as [e|]; cbv zeta; csimpl;
      by rewrite ?IH.
  - apply Forall_forall. intros c Hc. apply list_elem_of_omap in Hc as (row & _ & Hrow).
    by eapply customerOfRow_interval.
  - intros Hrows. apply Forall_forall. intros c Hc.
    apply list_elem_of_omap in Hc as (row & Hin & Hrow).
    rewrite Forall_forall in Hrows. specialize (Hrows row Hin).
    unfold customerOfRow in Hrow. cbv zeta in Hrow. unfold normalized.
    destruct (crStart row) as [s|], (crEnd row) as [e|]; [| | |done];
      injection Hrow as <-; simpl.
    + destruct (Hrows s e eq_refl eq_refl) as [Hle|Hsame].
      * rewrite adjustEndDate_ordered; lia.
      * destruct (Z.le_gt_cases s e) as [Hle|Hgt].
        -- rewrite adjustEndDate_ordered; lia.
        -- rewrite adjustEndDate_same_month; try lia; by injection Hsame.
    + rewrite adjustEndDate_ordered; lia.
    + rewrite adjustEndDate_ordered; lia.
Qed.

(** ** The day walk and the weekly headers *)

Lemma columnsFrom_app col days1 days2 :
  columnsFrom col (days1 ++ days2)
  = columnsFrom col days1 ++ columnsFrom (col + Z.of_nat (length days1)) days2.
Proof.
  revert col. induction days1 as [|d days1 IH]; intros col; simpl.
  - by rewrite Z.add_0_r.
  - rewrite IH. do 3 f_equal. lia.
Qed.

Lemma monday_indexed mode d : getDay d = 1 -> dayIndexed mode (getDay d) = true.
Proof. intros ->. by destruct mode. Qed.

Lemma mondaysOf_cons d c m :
  mondaysOf ((d, c) :: m)
  = if getDay d =? 1 then (d, c) :: mondaysOf m else mondaysOf m.
Proof.
  unfold mondaysOf. rewrite filter_cons. cbn [fst].
  destruct (Z.eqb_spec (getDay d) 1).
  - by rewrite decide_True.
  - by rewrite decide_False.
Qed.

(** The walk records a weekly header for every Monday it gives a column. *)
Lemma walkLoop_weekly zone mode rounds lastChartDate w :
  (forall d, currentDate w <= d <= lastChartDate -> toISODate zone d = d) ->
  lastChartDate - currentDate w + 1 <= Z.of_nat rounds ->
  Forall (fun e => e.1 < currentDate w) (dailyDateToSheetColMap w) ->
  exists w',
    walkLoop zone mode rounds lastChartDate w = Some w'
    /\ let added := columnsFrom (currentSheetColIndex w)
                      (indexedDays mode (currentDate w) lastChartDate) in
       weeklyHeaderStartColIndices w'
       = weeklyHeaderStartColIndices w ++ (mondaysOf added).*2
       /\ weeklyHeaderStrings w'
          = weeklyHeaderStrings w
            ++ ((fun e => (e.1, getEndOfWeek mode e.1)) <$> mondaysOf added).
Proof.
  revert w. induction rounds as [|rounds IH]; intros w Hiso Hrounds Hkeys; cbv zeta.
  - exists w. unfold indexedDays. simpl.
    destruct (Z.leb_spec (currentDate w) lastChartDate); [lia|].
    rewrite seqZ_nil by lia. simpl. by rewrite !app_nil_r.
  - simpl. destruct (Z.leb_spec (currentDate w) lastChartDate) as [Hle|Hgt].
    2:{ exists w. unfold indexedDays. rewrite seqZ_nil by lia. simpl.
        by rewrite !app_nil_r. }
    assert (Hnext : currentDate (walkStep zone mode w) = currentDate w + 1).
    { unfold walkStep. cbv zeta. case_match; simpl; apply setDate_shift. }
    assert (Hkey : toISODate zone (currentDate w) = currentDate w)
      by (apply Hiso; lia).
    destruct (IH (walkStep zone mode w)) as (w' & Hrun & Hstarts & Hstrings).
    { rewrite Hnext. intros d Hd. apply Hiso. lia. }
    { rewrite Hnext. lia. }
    { rewrite Hnext. unfold walkStep. cbv zeta. rewrite Hkey. case_match; simpl.
      - rewrite mapSet_fresh.
        + apply Forall_app. split.
          * eapply Forall_impl; [exact Hkeys|]. simpl. intros; lia.
          * repeat constructor. simpl. lia.
        + eapply Forall_impl; [exact Hkeys|]. simpl. intros; lia.
      - eapply Forall_impl; [exact Hkeys|]. simpl. intros; lia. }
    exists w'. split; [done|].
    rewrite Hstarts, Hstrings, Hnext. unfold indexedDays.
    rewrite (seqZ_cons (currentDate w)) by lia.
    replace (Z.pred (lastChartDate - currentDate w + 1))
      with (lastChartDate - (currentDate w + 1) + 1) by lia.
    replace (Z.succ (currentDate w)) with (currentDate w + 1) by lia.
    rewrite filter_cons. unfold walkStep. cbv zeta.
    destruct (dayIndexed mode (getDay (currentDate w))) eqn:Hidx;
      cbn [currentSheetColIndex weeklyHeaderStartColIndices weeklyHeaderStrings].
    + rewrite decide_True by done. cbn [columnsFrom].
      rewrite mondaysOf_cons.
      destruct (getDay (currentDate w) =? 1) eqn:Hmon.
      * cbn [weeklyHeaderStartColIndices weeklyHeaderStrings fmap list_fmap fst snd].
        rewrite <- !(assoc_L (++)). done.
      * done.
    + rewrite decide_False by done. done.
Qed.

(** ** Which days have a column, and which *)

Lemma elem_of_indexedDays mode a b d :
  d ∈ indexedDays mode a b <-> a <= d <= b /\ dayIndexed mode (getDay d) = true.
Proof.
  unfold indexedDays. rewrite list_elem_of_filter, elem_of_seqZ.
  split; intros [? ?]; split; first [done | lia].
Qed.

Lemma indexedDays_empty mode a b : b < a -> indexedDays mode a b = [].
Proof. intros. unfold indexedDays. by rewrite seqZ_nil by lia. Qed.

Lemma indexedDays_split mode a d b :
  a <= d + 1 -> d <= b ->
  indexedDays mode a b = indexedDays mode a d ++ indexedDays mode (d + 1) b.
Proof.
  intros Ha Hb. unfold indexedDays.
  replace (b - a + 1) with ((d - a + 1) + (b - (d + 1) + 1)) by lia.
  rewrite seqZ_app by lia. rewrite filter_app. do 3 f_equal. lia.
Qed.

Lemma indexedDays_one mode d :
  indexedDays mode d d = if dayIndexed mode (getDay d) then [d] else [].
Proof.
  unfold indexedDays. replace (d - d + 1) with 1 by lia.
  change (seqZ d 1) with [0 + d]. rewrite Z.add_0_l, filter_cons, filter_nil.
  destruct (dayIndexed mode (getDay d)).
  - by rewrite decide_True.
  - by rewrite decide_False.
Qed.

Lemma indexedDays_lookup mode a b d :
  a <= d <= b -> dayIndexed mode (getDay d) = true ->
  indexedDays mode a b !! length (indexedDays mode a (d - 1)) = Some d.
Proof.
  intros Hr Hidx.
  rewrite (indexedDays_split mode a (d - 1) b) by lia.
  rewrite lookup_app_r by lia. rewrite Nat.sub_diag.
  replace (d - 1 + 1) with d by lia.
  rewrite (indexedDays_split mode d d b) by lia.
  rewrite indexedDays_one, Hidx. done.
Qed.

Lemma mapGet_indexedDays mode col a b d :
  mapGet d (columnsFrom col (indexedDays mode a b)) = columnOf mode col a b d.
Proof.
  unfold columnOf.
  destruct ((a <=? d) && (d <=? b) && dayIndexed mode (getDay d)) eqn:Hc.
  - apply andb_true_iff in Hc as [Hc Hidx]. apply andb_true_iff in Hc as [H1 H2].
    apply mapGet_columnsFrom; [apply indexedDays_NoDup|].
    apply indexedDays_lookup; [lia|done].
  - apply mapGet_columnsFrom_None. rewrite elem_of_indexedDays.
    intros [Hr Hidx]. rewrite Hidx in Hc.
    apply andb_false_iff in Hc as [Hc|Hc]; [|done].
    apply andb_false_iff in Hc as [Hc|Hc]; lia.
Qed.

Lemma columnOf_Some mode col a b d c :
  columnOf mode col a b d = Some c ->
  a <= d <= b /\ dayIndexed mode (getDay d) = true
  /\ c = col + Z.of_nat (length (indexedDays mode a (d - 1))).
Proof.
  unfold columnOf.
  destruct ((a <=? d) && (d <=? b) && dayIndexed mode (getDay d)) eqn:Hc; [|done].
  apply andb_true_iff in Hc as [Hc Hidx]. apply andb_true_iff in Hc as [H1 H2].
  intros [= <-]. split_and!; [lia|lia|done|done].
Qed.

Lemma indexedDays_before_lt mode a b d :
  a <= d <= b -> dayIndexed mode (getDay d) = true ->
  (length (indexedDays mode a (d - 1)) < length (indexedDays mode a b))%nat.
Proof.
  intros Hr Hidx. eapply lookup_lt_Some. by apply indexedDays_lookup.
Qed.

(** Looking up the key of a day: a day of another year has a key of that
    year, which is not in the map. *)
Lemma mapGet_key_indexedDays mode col a b d :
  0 <= getFullYear a -> getFullYear b <= 9999 ->
  mapGet (toISODate UTC d) (columnsFrom col (indexedDays mode a b))
  = columnOf mode col a b d.
Proof.
  intros Ha Hb.
  destruct (decide (0 <= getFullYear d <= 9999)) as [Hy|Hy].
  - rewrite (toISODate_UTC d Hy). apply mapGet_indexedDays.
  - rewrite mapGet_columnsFrom_None.
    + unfold columnOf.
      destruct ((a <=? d) && (d <=? b) && dayIndexed mode (getDay d)) eqn:Hc; [|done].
      apply andb_true_iff in Hc as [Hc _]. apply andb_true_iff in Hc as [H1 H2].
      exfalso. apply Hy. apply (years_between a b); [done|done|lia].
    + intros Hin%indexedDays_range. apply Hy.
      rewrite <- toISODate_UTC_year. by apply (years_between a b).
Qed.

Lemma index_lookup_aux mode termOf minOverallDate maxOverallDate firstFixedColumnIndex :
  0 <= getFullYear (getStartOfWeek minOverallDate) ->
  getFullYear (getEndOfWeek mode maxOverallDate) <= 9999 ->
  exists info,
    generateTimelineHeaders UTC mode termOf minOverallDate maxOverallDate
      firstFixedColumnIndex = Some info
    /\ let m := hiDailyDateToSheetColMap info in
       (forall d, mapGet (toISODate UTC d) m
                  = columnOf mode (firstFixedColumnIndex + 1)
                      (getStartOfWeek minOverallDate)
                      (getEndOfWeek mode maxOverallDate) d)
       /\ (forall d c, mapGet (toISODate UTC d) m = Some c ->
             firstFixedColumnIndex + 1 <= c <= totalHeaderColumns info)
       /\ (forall d1 d2 c1 c2,
             mapGet (toISODate UTC d1) m = Some c1 ->
             mapGet (toISODate UTC d2) m = Some c2 ->
             d1 < d2 -> c1 < c2).
Proof.
  intros Hfirst Hlast.
  destruct (generateTimelineHeaders_run mode termOf minOverallDate maxOverallDate
              firstFixedColumnIndex Hfirst Hlast)
    as (info & Hrun & Hmap & _ & _ & Htotal & _).
  exists info. split; [exact Hrun|]. cbv zeta. rewrite Hmap, Htotal.
  revert Hfirst Hlast.
  generalize (getStartOfWeek minOverallDate) (getEndOfWeek mode maxOverallDate).
  intros a b Ha Hb. split_and!.
  - intros d. by apply mapGet_key_indexedDays.
  - intros d c. rewrite mapGet_key_indexedDays by done.
    intros (Hr & Hidx & ->)%columnOf_Some.
    pose proof (indexedDays_before_lt mode a b d Hr Hidx). lia.
  - intros d1 d2 c1 c2. rewrite !mapGet_key_indexedDays by done.
    intros (Hr1 & Hidx1 & ->)%columnOf_Some (Hr2 & Hidx2 & ->)%columnOf_Some Hlt.
    assert (a <= d1 <= d2 - 1) as Hr by lia.
    pose proof (indexedDays_before_lt mode a (d2 - 1) d1 Hr Hidx1). lia.
Qed.

(** ** Round trip between the sorted keys and the columns *)

Lemma keyAt_columns col days c d :
  NoDup days ->
  keyAt days (c - col) = Some d <-> mapGet d (columnsFrom col days) = Some c.
Proof.
  intros Hnd. unfold keyAt. split.
  - destruct (Z.ltb_spec (c - col) 0); [done|]. intros Hk.
    rewrite (mapGet_columnsFrom col days _ d Hnd Hk). f_equal. lia.
  - intros Hget. destruct (decide (d ∈ days)) as [Hin|Hnin].
    + apply list_elem_of_lookup in Hin as [i Hi].
      rewrite (mapGet_columnsFrom col days i d Hnd Hi) in Hget.
      injection Hget as <-. destruct (Z.ltb_spec (col + Z.of_nat i - col) 0); [lia|].
      replace (Z.to_nat (col + Z.of_nat i - col)) with i by lia. done.
    + by rewrite mapGet_columnsFrom_None in Hget.
Qed.

Lemma keyAt_Some days idx :
  0 <= idx < Z.of_nat (length days) -> is_Some (keyAt days idx).
Proof.
  intros H. unfold keyAt. destruct (Z.ltb_spec idx 0); [lia|].
  apply lookup_lt_is_Some. lia.
Qed.

(** X5: in the zone UTC, for a walk within the years 0000 to 9999, the
    sorted keys and the map are inverse to each other: the key at position
    c - (firstFixedColumnIndex + 1) is the key that the map sends to
    column c; every column from the first data column to the last header
    column is the column of a key, and no key is found for any other
    column. *)
Theorem key_column_round_trip mode termOf minOverallDate maxOverallDate
    firstFixedColumnIndex :
  0 <= getFullYear (getStartOfWeek minOverallDate) ->
  getFullYear (getEndOfWeek mode maxOverallDate) <= 9999 ->
  exists info,
    generateTimelineHeaders UTC mode termOf minOverallDate maxOverallDate
      firstFixedColumnIndex = Some info
    /\ (forall c dateIso,
          keyAt (hiSortedDailyDateKeys info) (c - (firstFixedColumnIndex + 1))
          = Some dateIso
          <-> mapGet dateIso (hiDailyDateToSheetColMap info) = Some c)
    /\ (forall c, firstFixedColumnIndex + 1 <= c <= totalHeaderColumns info ->
          exists dateIso, mapGet dateIso (hiDailyDateToSheetColMap info) = Some c)
    /\ (forall c, c <= firstFixedColumnIndex \/ totalHeaderColumns info < c ->
          keyAt (hiSortedDailyDateKeys info) (c - (firstFixedColumnIndex + 1)) = None).
Proof.
  intros Hfirst Hlast.
  destruct (generateTimelineHeaders_run mode termOf minOverallDate maxOverallDate
              firstFixedColumnIndex Hfirst Hlast)
    as (info & Hrun & Hmap & Hkeys & _ & Htotal & _).
  exists info. split; [exact Hrun|]. rewrite Hmap, Hkeys, Htotal.
  generalize (indexedDays_NoDup mode (getStartOfWeek minOverallDate)
                (getEndOfWeek mode maxOverallDate)).
  generalize (indexedDays mode (getStartOfWeek minOverallDate)
                (getEndOfWeek mode maxOverallDate)).
  intros days Hnd. split_and!.
  - intros c d. by apply keyAt_columns.
  - intros c Hc.
    destruct (keyAt_Some days (c - (firstFixedColumnIndex + 1))) as [d Hd]; [lia|].
    exists d. by apply keyAt_columns.
  - intros c Hc. unfold keyAt.
    destruct (Z.ltb_spec (c - (firstFixedColumnIndex + 1)) 0); [done|].
    apply lookup_ge_None. lia.
Qed.

Lemma key_column_round_trip_witness :
  exists info,
    generateTimelineHeaders UTC WorkWeek termOfMonthRule (ymd 2025 1 8) (ymd 2025 1 10) 1
    = Some info
    /\ keyAt (hiSortedDailyDateKeys info) (4 - (1 + 1)) = Some (ymd 2025 1 8)
    /\ mapGet (ymd 2025 1 8) (hiDailyDateToSheetColMap info) = Some 4.
Proof.
  destruct (key_column_round_trip WorkWeek termOfMonthRule
              (ymd 2025 1 8) (ymd 2025 1 10) 1)
    as (info & Hrun & Hinv & _); [vm_compute; discriminate|vm_compute; discriminate|].
  exists info. split; [exact Hrun|].
  assert (Hget : mapGet (ymd 2025 1 8) (hiDailyDateToSheetColMap info) = Some 4).
  { revert Hrun. vm_compute. intros [= <-]. reflexivity. }
  split; [by apply Hinv|exact Hget].
Defined.

(** ** Counting the indexed days from a Monday *)

Lemma getDay_shift a n : getDay a = 1 -> getDay (a + n) = (1 + n) mod 7.
Proof. unfold getDay, WeekDay. intros H. Z.div_mod_to_equations. lia. Qed.

Lemma dayIndexed_offset mode a n :
  getDay a = 1 ->
  dayIndexed mode (getDay (a + n)) = (n mod 7 <=? weekSpan mode).
Proof.
  intros H. rewrite (getDay_shift a n H).
  destruct mode; unfold dayIndexed, weekSpan.
  - destruct (Z.leb_spec (n mod 7) 4), (Z.leb_spec 1 ((1 + n) mod 7)),
      (Z.leb_spec ((1 + n) mod 7) 5); simpl; try reflexivity;
      exfalso; Z.div_mod_to_equations; lia.
  - symmetry. apply Z.leb_le. Z.div_mod_to_equations; lia.
Qed.

Lemma indexedDays_count mode a n :
  getDay a = 1 -> 0 <= n ->
  Z.of_nat (length (indexedDays mode a (a + n - 1)))
  = (weekSpan mode + 1) * (n / 7) + Z.min (n mod 7) (weekSpan mode + 1).
Proof.
  intros Hmon Hn. revert n Hn. apply natlike_ind.
  - rewrite indexedDays_empty by lia. simpl. destruct mode; reflexivity.
  - intros n Hn IH.
    rewrite (indexedDays_split mode a (a + n - 1)) by lia.
    replace (a + n - 1 + 1) with (a + n) by lia.
    replace (a + Z.succ n - 1) with (a + n) by lia.
    rewrite length_app, Nat2Z.inj_add, IH, indexedDays_one.
    rewrite (dayIndexed_offset mode a n Hmon).
    assert (0 <= weekSpan mode + 1 <= 7) by (destruct mode; unfold weekSpan; lia).
    assert (weekSpan mode = 4 \/ weekSpan mode = 6) as Hs
      by (destruct mode; unfold weekSpan; lia).
    generalize dependent (weekSpan mode). intros s _ Hs1 [-> | ->].
    all: match goal with |- context [?x <=? ?y] => destruct (Z.leb_spec x y) end;
      simpl length; Z.div_mod_to_equations; lia.
Qed.

(** X4: in the zone UTC, for a walk within the years 0000 to 9999 whose
    min date has a year that is not read as 19yy, the column of a day that
    has one is given by the number n of days since the Monday of the first
    week: the first data column plus 5 for every full week (7 when
    weekends are shown) plus the position of the day in its week, which is
    at most 4 (6 when weekends are shown). *)
Theorem column_closed_form mode termOf minOverallDate maxOverallDate
    firstFixedColumnIndex :
  ~ (0 <= getFullYear minOverallDate <= 99) ->
  0 <= getFullYear (getStartOfWeek minOverallDate) ->
  getFullYear (getEndOfWeek mode maxOverallDate) <= 9999 ->
  exists info,
    generateTimelineHeaders UTC mode termOf minOverallDate maxOverallDate
      firstFixedColumnIndex = Some info
    /\ forall d c,
         mapGet (toISODate UTC d) (hiDailyDateToSheetColMap info) = Some c ->
         let n := d - (minOverallDate - (minOverallDate + 3) mod 7) in
         0 <= n /\ n mod 7 <= weekSpan mode
         /\ c = firstFixedColumnIndex + 1 + (weekSpan mode + 1) * (n / 7) + n mod 7.
Proof.
  intros Hmin Hfirst Hlast.
  destruct (generateTimelineHeaders_run mode termOf minOverallDate maxOverallDate
              firstFixedColumnIndex Hfirst Hlast) as (info & Hrun & Hmap & _).
  exists info. split; [exact Hrun|]. rewrite Hmap. clear Hrun Hmap.
  destruct (getStartOfWeek_monday _ Hmin) as [Hmon _].
  rewrite <- (getStartOfWeek_eq _ Hmin).
  revert Hfirst Hlast.
  generalize dependent (getStartOfWeek minOverallDate).
  generalize (getEndOfWeek mode maxOverallDate). intros b a Hmon Ha Hb d c.
  rewrite mapGet_key_indexedDays by done.
  intros (Hr & Hidx & ->)%columnOf_Some. cbv zeta.
  replace d with (a + (d - a)) in Hidx by lia.
  rewrite (dayIndexed_offset mode a (d - a) Hmon) in Hidx. apply Z.leb_le in Hidx.
  replace (d - 1) with (a + (d - a) - 1) by lia.
  rewrite (indexedDays_count mode a (d - a) Hmon) by lia.
  split_and!; [lia|done|]. lia.
Qed.

Lemma column_closed_form_witness :
  exists info,
    generateTimelineHeaders UTC WorkWeek termOfMonthRule (ymd 2025 1 8) (ymd 2025 1 24) 1
    = Some info
    /\ forall c,
         mapGet (toISODate UTC (ymd 2025 1 21)) (hiDailyDateToSheetColMap info) = Some c ->
         c = 1 + 1 + (weekSpan WorkWeek + 1) * 2 + 1.
Proof.
  destruct (column_closed_form WorkWeek termOfMonthRule (ymd 2025 1 8) (ymd 2025 1 24) 1)
    as (info & Hrun & Hcol);
    [intros [_ Hc]; vm_compute in Hc; congruence
    |vm_compute; discriminate|vm_compute; discriminate|].
  exists info. split; [exact Hrun|]. intros c Hc.
  exact (proj2 (proj2 (Hcol _ _ Hc))).
Defined.

(** ** The weekly headers *)

Lemma mondaysOf_app m1 m2 : mondaysOf (m1 ++ m2) = mondaysOf m1 ++ mondaysOf m2.
Proof. apply filter_app. Qed.

Lemma mondaysOf_none col days :
  Forall (fun d => getDay d <> 1) days -> mondaysOf (columnsFrom col days) = [].
Proof.
  revert col. induction days as [|d days IH]; intros col Hall; [done|].
  apply Forall_cons in Hall as [Hd Hall]. cbn [columnsFrom].
  rewrite mondaysOf_cons. destruct (Z.eqb_spec (getDay d) 1); [done|]. by apply IH.
Qed.

Lemma mondaysOf_week mode col monday :
  getDay monday = 1 ->
  mondaysOf (columnsFrom col (indexedDays mode monday (monday + 6))) = [(monday, col)].
Proof.
  intros Hmon. rewrite (indexedDays_split mode monday monday) by lia.
  rewrite indexedDays_one, (monday_indexed mode monday Hmon).
  cbn [app columnsFrom]. rewrite mondaysOf_cons, Hmon. cbn. f_equal.
  apply mondaysOf_none. apply Forall_forall. intros d [Hr _]%elem_of_indexedDays.
  replace d with (monday + (d - monday)) by lia. rewrite (getDay_shift _ _ Hmon).
  Z.div_mod_to_equations; lia.
Qed.

Lemma mondaysOf_weeks mode col monday (weeks : nat) :
  getDay monday = 1 ->
  mondaysOf (columnsFrom col (indexedDays mode monday (monday + 7 * Z.of_nat weeks - 1)))
  = (fun k : nat => (monday + 7 * Z.of_nat k,
                     col + (weekSpan mode + 1) * Z.of_nat k)) <$> seq 0 weeks.
Proof.
  intros Hmon. induction weeks as [|weeks IH].
  - by rewrite indexedDays_empty by lia.
  - rewrite (indexedDays_split mode monday (monday + 7 * Z.of_nat weeks - 1)) by lia.
    rewrite columnsFrom_app, mondaysOf_app, IH, seq_S, fmap_app. f_equal.
    rewrite (indexedDays_count mode monday (7 * Z.of_nat weeks) Hmon) by lia.
    replace (monday + 7 * Z.of_nat weeks - 1 + 1) with (monday + 7 * Z.of_nat weeks) by lia.
    replace (monday + 7 * Z.of_nat (S weeks) - 1)
      with (monday + 7 * Z.of_nat weeks + 6) by lia.
    rewrite (mondaysOf_week mode); [|rewrite (getDay_shift _ _ Hmon);
                                     Z.div_mod_to_equations; lia].
    cbn. do 2 f_equal.
    replace (7 * Z.of_nat weeks / 7) with (Z.of_nat weeks)
      by (Z.div_mod_to_equations; lia).
    replace ((7 * Z.of_nat weeks) mod 7) with 0 by (Z.div_mod_to_equations; lia).
    destruct mode; unfold weekSpan; lia.
Qed.

Lemma indexedDays_week_end mode monday weeks :
  getDay monday = 1 -> 1 <= weeks ->
  indexedDays mode monday (monday + 7 * (weeks - 1) + weekSpan mode)
  = indexedDays mode monday (monday + 7 * weeks - 1).
Proof.
  intros Hmon Hw. destruct mode; unfold weekSpan.
  - rewrite (indexedDays_split WorkWeek monday (monday + 7 * (weeks - 1) + 4)
               (monday + 7 * weeks - 1)) by lia.
    rewrite <- (app_nil_r (indexedDays _ _ _)) at 1. f_equal. symmetry.
    apply elem_of_nil_inv. intros d [Hr Hidx]%elem_of_indexedDays.
    replace d with (monday + (d - monday)) in Hidx by lia.
    rewrite (dayIndexed_offset WorkWeek _ _ Hmon) in Hidx. apply Z.leb_le in Hidx.
    unfold weekSpan in Hidx. Z.div_mod_to_equations; lia.
  - f_equal. lia.
Qed.

Lemma zip_fmap_fmap {A B C} (f : A -> B) (g : A -> C) (l : list A) :
  zip (f <$> l) (g <$> l) = (fun x => (f x, g x)) <$> l.
Proof. induction l as [|x l IH]; [done|]. cbn. by rewrite IH. Qed.

Lemma walkDays_weekly mode minOverallDate maxOverallDate firstFixedColumnIndex :
  let days := indexedDays mode (getStartOfWeek minOverallDate)
                (getEndOfWeek mode maxOverallDate) in
  let mondays := mondaysOf (columnsFrom (firstFixedColumnIndex + 1) days) in
  0 <= getFullYear (getStartOfWeek minOverallDate) ->
  getFullYear (getEndOfWeek mode maxOverallDate) <= 9999 ->
  exists w,
    walkDays UTC mode minOverallDate maxOverallDate firstFixedColumnIndex = Some w
    /\ dailyDateToSheetColMap w = columnsFrom (firstFixedColumnIndex + 1) days
    /\ currentSheetColIndex w = firstFixedColumnIndex + 1 + Z.of_nat (length days)
    /\ weeklyHeaderStartColIndices w = mondays.*2
    /\ weeklyHeaderStrings w = (fun e => (e.1, getEndOfWeek mode e.1)) <$> mondays.
Proof.
  cbv zeta. unfold walkDays. cbv zeta.
  generalize (getStartOfWeek minOverallDate) as firstChartDate.
  generalize (getEndOfWeek mode maxOverallDate) as lastChartDate.
  intros lastChartDate firstChartDate Hfirst Hlast.
  set (w0 := {| currentDate := firstChartDate;
                currentSheetColIndex := firstFixedColumnIndex + 1;
                dailyDateToSheetColMap := [];
                weeklyHeaderStrings := [];
                weeklyHeaderStartColIndices := [] |}).
  assert (Hrounds : lastChartDate - currentDate w0 + 1
                    <= Z.of_nat (Z.to_nat (lastChartDate - firstChartDate + 1)))
    by (cbn [currentDate w0]; lia).
  assert (Hkeys : Forall (fun e => e.1 < currentDate w0) (dailyDateToSheetColMap w0))
    by constructor.
  assert (Hiso : forall d, currentDate w0 <= d <= lastChartDate -> toISODate UTC d = d).
  { cbn [currentDate w0]. intros d Hd. apply toISODate_UTC.
    by apply (years_between firstChartDate lastChartDate). }
  destruct (walkLoop_run UTC mode _ lastChartDate w0 Hiso Hrounds Hkeys)
    as (w & Hrun & Hmap & Hcol).
  destruct (walkLoop_weekly UTC mode _ lastChartDate w0 Hiso Hrounds Hkeys)
    as (w' & Hrun' & Hstarts & Hstrings).
  assert (w' = w) as -> by congruence.
  exists w. split; [exact Hrun|].
  split; [exact Hmap|]. split; [exact Hcol|]. split; [exact Hstarts|exact Hstrings].
Qed.

Lemma weekSpan_cases mode : weekSpan mode = 4 \/ weekSpan mode = 6.
Proof. destruct mode; unfold weekSpan; lia. Qed.

Lemma indexedDays_weeks_length mode monday (weeks : nat) :
  getDay monday = 1 ->
  Z.of_nat (length (indexedDays mode monday (monday + 7 * Z.of_nat weeks - 1)))
  = (weekSpan mode + 1) * Z.of_nat weeks.
Proof.
  intros Hmon. rewrite (indexedDays_count mode monday _ Hmon) by lia.
  replace (7 * Z.of_nat weeks / 7) with (Z.of_nat weeks)
    by (Z.div_mod_to_equations; lia).
  replace ((7 * Z.of_nat weeks) mod 7) with 0 by (Z.div_mod_to_equations; lia).
  destruct (weekSpan_cases mode) as [-> | ->]; lia.
Qed.

Lemma weekRange_of_monday mode termOf firstFixedColumnIndex monday (weeks k : nat) text :
  getDay monday = 1 -> (k < weeks)%nat ->
  let days := indexedDays mode monday (monday + 7 * Z.of_nat weeks - 1) in
  let startCol := firstFixedColumnIndex + 1 + (weekSpan mode + 1) * Z.of_nat k in
  weekRange UTC mode termOf firstFixedColumnIndex
    (firstFixedColumnIndex + Z.of_nat (length days)) days text startCol
  = Some (let '(background, fontColor, bold) :=
            weekStyle (termOf (monday + 7 * Z.of_nat k)) in
          mkWeekRange startCol (weekSpan mode + 1) text background fontColor bold).
Proof.
  intros Hmon Hk. cbv zeta. unfold weekRange. cbv zeta.
  rewrite (indexedDays_weeks_length mode monday weeks Hmon).
  assert (Hkey : keyAt (indexedDays mode monday (monday + 7 * Z.of_nat weeks - 1))
                   (firstFixedColumnIndex + 1 + (weekSpan mode + 1) * Z.of_nat k
                    - (firstFixedColumnIndex + 1))
                 = Some (monday + 7 * Z.of_nat k)).
  { apply keyAt_columns; [apply indexedDays_NoDup|].
    rewrite mapGet_indexedDays. unfold columnOf.
    rewrite (dayIndexed_offset mode monday _ Hmon).
    replace ((7 * Z.of_nat k) mod 7) with 0 by (Z.div_mod_to_equations; lia).
    rewrite (indexedDays_weeks_length mode monday k Hmon).
    destruct (Z.leb_spec monday (monday + 7 * Z.of_nat k)); [|lia].
    destruct (Z.leb_spec (monday + 7 * Z.of_nat k) (monday + 7 * Z.of_nat weeks - 1));
      [|lia].
    destruct (Z.leb_spec 0 (weekSpan mode));
      [|destruct (weekSpan_cases mode); lia].
    reflexivity. }
  rewrite Hkey. cbn [fmap option_fmap option_map mbind option_bind].
  rewrite dateOfKey_UTC.
  destruct (weekSpan_cases mode) as [Hs | Hs]; rewrite Hs in *.
  all: rewrite Z.min_l by lia.
  all: match goal with |- context [?x >? 0] => replace x with (Z.succ (Z.pred x)) by lia end.
  all: match goal with |- context [Z.succ ?x >? 0] =>
         replace (Z.succ x >? 0) with true by (symmetry; apply Z.gtb_lt; lia) end.
  all: destruct (weekStyle _) as [[background fontColor] bold]; do 2 f_equal; lia.
Qed.

Lemma omap_fmap_Some {A B C} (f : A -> B) (h : B -> option C) (r : A -> C)
    (l : list A) :
  Forall (fun x => h (f x) = Some (r x)) l -> omap h (f <$> l) = r <$> l.
Proof.
  induction 1 as [|x l Hx _ IH]; [done|]. cbn. by rewrite Hx, IH.
Qed.

(** The weeks of the chart: the Monday of the first week, the number of
    weeks, and the last day of the walk. *)
Lemma chart_weeks mode minOverallDate maxOverallDate :
  minOverallDate <= maxOverallDate ->
  ~ (0 <= getFullYear minOverallDate <= 99) ->
  ~ (0 <= getFullYear maxOverallDate <= 99) ->
  let monday := getStartOfWeek minOverallDate in
  let weeks := Z.to_nat ((getStartOfWeek maxOverallDate - monday) / 7 + 1) in
  getDay monday = 1
  /\ (0 < weeks)%nat
  /\ getStartOfWeek maxOverallDate = monday + 7 * (Z.of_nat weeks - 1)
  /\ indexedDays mode monday (getEndOfWeek mode maxOverallDate)
     = indexedDays mode monday (monday + 7 * Z.of_nat weeks - 1).
Proof.
  intros Hle Hmin Hmax. cbv zeta.
  destruct (getStartOfWeek_monday _ Hmin) as [Hmon1 _].
  destruct (getStartOfWeek_monday _ Hmax) as [Hmon2 _].
  pose proof (getStartOfWeek_mono _ _ Hmin Hmax Hle) as Hmono.
  rewrite getEndOfWeek_eq.
  generalize dependent (getStartOfWeek maxOverallDate).
  generalize dependent (getStartOfWeek minOverallDate).
  intros a Ha b Hb Hab.
  assert (Hw : b = a + 7 * ((b - a) / 7)).
  { unfold getDay, WeekDay in Ha, Hb. Z.div_mod_to_equations; lia. }
  assert (0 <= (b - a) / 7) by (Z.div_mod_to_equations; lia).
  set (q := (b - a) / 7) in *.
  split_and!; [done|lia|lia|].
  rewrite <- (indexedDays_week_end mode a (Z.of_nat (Z.to_nat (q + 1))) Ha) by lia.
  f_equal. lia.
Qed.

(** X6: in the zone UTC, for a range of dates (min <= max, years not read
    as 19yy) whose walk stays within the years 0000 to 9999, the weekly
    header row has one merged range per week of the walk, in order: week k
    (from 0) starts at the first data column plus k times the number of
    shown days of a week and spans that many columns (5, or 7 when
    weekends are shown), so the ranges tile the data columns and the
    [Math.min] with the last header column never cuts one short; its text
    is formatted from its Monday and the end of that week, and its
    formatting is that of the term of its Monday. *)
Theorem weekly_headers_tile mode termOf minOverallDate maxOverallDate
    firstFixedColumnIndex :
  minOverallDate <= maxOverallDate ->
  ~ (0 <= getFullYear minOverallDate <= 99) ->
  ~ (0 <= getFullYear maxOverallDate <= 99) ->
  0 <= getFullYear (getStartOfWeek minOverallDate) ->
  getFullYear (getEndOfWeek mode maxOverallDate) <= 9999 ->
  let monday := getStartOfWeek minOverallDate in
  let weeks := Z.to_nat ((getStartOfWeek maxOverallDate - monday) / 7 + 1) in
  weeklyHeaderRanges UTC mode termOf minOverallDate maxOverallDate firstFixedColumnIndex
  = Some ((fun k : nat =>
             let weekMonday := monday + 7 * Z.of_nat k in
             let '(background, fontColor, bold) := weekStyle (termOf weekMonday) in
             mkWeekRange
               (firstFixedColumnIndex + 1 + (weekSpan mode + 1) * Z.of_nat k)
               (weekSpan mode + 1)
               (weekMonday, getEndOfWeek mode weekMonday)
               background fontColor bold) <$> seq 0 weeks)
  /\ totalDataColumns
       <$> generateTimelineHeaders UTC mode termOf minOverallDate maxOverallDate
             firstFixedColumnIndex
     = Some ((weekSpan mode + 1) * Z.of_nat weeks).
Proof.
  intros Hle Hmin Hmax Hfirst Hlast9. cbv zeta.
  destruct (chart_weeks mode _ _ Hle Hmin Hmax) as (Hmon & Hweeks & _ & Hdays).
  cbv zeta in Hdays.
  destruct (generateTimelineHeaders_run mode termOf minOverallDate maxOverallDate
              firstFixedColumnIndex Hfirst Hlast9)
    as (info & Hinfo & _ & _ & Htotal & _).
  destruct (walkDays_weekly mode minOverallDate maxOverallDate firstFixedColumnIndex
              Hfirst Hlast9)
    as (w & Hrun & Hmap & Hcol & Hstarts & Hstrings).
  cbv zeta in Htotal, Hmap, Hcol, Hstarts, Hstrings.
  unfold weeklyHeaderRanges.
  rewrite Hinfo, Hrun. cbn [mbind option_bind fmap option_fmap option_map].
  rewrite Htotal. clear Hinfo Htotal info Hrun.
  unfold mapKeys. rewrite Hmap, Hcol, Hstarts, Hstrings, columnsFrom_keys.
  rewrite indexedDays_sorted by done.
  rewrite Hdays. clear Hdays Hmap Hcol Hstarts Hstrings Hfirst Hlast9.
  generalize dependent (Z.to_nat ((getStartOfWeek maxOverallDate
                                   - getStartOfWeek minOverallDate) / 7 + 1)).
  generalize dependent (getStartOfWeek minOverallDate).
  intros monday Hmon weeks Hweeks.
  split; [|by rewrite (indexedDays_weeks_length mode monday weeks Hmon)]. f_equal.
  rewrite (mondaysOf_weeks mode _ monday weeks Hmon).
  rewrite zip_fmap_fmap, <- list_fmap_compose.
  apply omap_fmap_Some. apply Forall_forall. intros k Hk%elem_of_seq.
  unfold compose. cbn [fst snd].
  replace (firstFixedColumnIndex + 1
           + Z.of_nat (length (indexedDays mode monday (monday + 7 * Z.of_nat weeks - 1)))
           - (firstFixedColumnIndex + 1))
    with (Z.of_nat (length (indexedDays mode monday (monday + 7 * Z.of_nat weeks - 1))))
    by lia.
  apply (weekRange_of_monday mode termOf firstFixedColumnIndex monday weeks k);
    [exact Hmon|lia].
Qed.

Lemma weekly_headers_tile_witness :
  totalDataColumns
    <$> generateTimelineHeaders UTC WorkWeek termOfMonthRule (ymd 2025 1 29) (ymd 2025 2 5) 1
  = Some ((weekSpan WorkWeek + 1)
          * Z.of_nat (Z.to_nat ((getStartOfWeek (ymd 2025 2 5)
                                 - getStartOfWeek (ymd 2025 1 29)) / 7 + 1))).
Proof.
  refine (proj2 (weekly_headers_tile WorkWeek termOfMonthRule
                   (ymd 2025 1 29) (ymd 2025 2 5) 1 _ _ _ _ _)).
  - vm_compute. discriminate.
  - intros [_ Hc]. vm_compute in Hc. congruence.
  - intros [_ Hc]. vm_compute in Hc. congruence.
  - vm_compute. discriminate.
  - vm_compute. discriminate.
Defined.

(** ** Hiding the past *)

Lemma isoDateKey_Day today : isoDateKey today = toISODate UTC (Day today).
Proof.
  unfold toISODate. rewrite timeValue_UTC.
  unfold isoDateKey. by rewrite Day_newDateOfKey.
Qed.

Lemma newDateOfKey_gt dateIso today :
  (newDateOfKey dateIso >? today) = (dateIso >? Day today).
Proof.
  unfold newDateOfKey, Day, msPerDay.
  destruct (Z.gtb_spec (dateIso * 86400000) today), (Z.gtb_spec dateIso (today / 86400000));
    try reflexivity; exfalso; Z.div_mod_to_equations; lia.
Qed.

(** X7: in the zone UTC, for a range of dates (min <= max, years not read
    as 19yy) whose walk stays within the years 0000 to 9999: when the date
    of the current time has a column, the hidden columns are exactly those
    of the days before it (none when it is the first day); when it is
    before the first day of the walk, all data columns are hidden; when it
    is on or after the first day and has no column, a weekend day of the
    work-week chart or a day after the last one, nothing is hidden. *)
Theorem hidden_columns_are_the_past mode termOf minOverallDate maxOverallDate
    firstFixedColumnIndex today :
  minOverallDate <= maxOverallDate ->
  ~ (0 <= getFullYear minOverallDate <= 99) ->
  ~ (0 <= getFullYear maxOverallDate <= 99) ->
  0 <= getFullYear (getStartOfWeek minOverallDate) ->
  getFullYear (getEndOfWeek mode maxOverallDate) <= 9999 ->
  exists info,
    generateTimelineHeaders UTC mode termOf minOverallDate maxOverallDate
      firstFixedColumnIndex = Some info
    /\ let m := hiDailyDateToSheetColMap info in
       let hidden := columnsToHide firstFixedColumnIndex (totalDataColumns info) m
                       (hiSortedDailyDateKeys info) today in
       hiddenColumns UTC mode termOf minOverallDate maxOverallDate firstFixedColumnIndex
         today = Some hidden
       /\ (is_Some (mapGet (isoDateKey today) m) ->
           forall d c, mapGet (toISODate UTC d) m = Some c ->
                       (hides hidden c <-> d < localDay UTC today))
       /\ (localDay UTC today < getStartOfWeek minOverallDate ->
           hidden = Some (firstFixedColumnIndex + 1, totalDataColumns info)
           /\ 0 < totalDataColumns info)
       /\ (getStartOfWeek minOverallDate <= localDay UTC today ->
           mapGet (isoDateKey today) m = None ->
           hidden = None).
Proof.
  intros Hle Hmin Hmax Hfirst Hlast9.
  destruct (index_lookup_aux mode termOf minOverallDate maxOverallDate
              firstFixedColumnIndex Hfirst Hlast9)
    as (info & Hrun & Hget & Hbound & Hmono).
  destruct (generateTimelineHeaders_run mode termOf minOverallDate maxOverallDate
              firstFixedColumnIndex Hfirst Hlast9)
    as (info' & Hrun' & _ & Hkeys & Htotal & _).
  assert (info' = info) as -> by congruence. clear Hrun'.
  cbv zeta in Hkeys, Htotal.
  destruct (chart_weeks mode _ _ Hle Hmin Hmax) as (Hmon & Hweeks & Hlast & _).
  cbv zeta in Hlast.
  assert (Hhead : head (hiSortedDailyDateKeys info)
                  = Some (getStartOfWeek minOverallDate)).
  { rewrite Hkeys. apply indexedDays_head; [|by apply monday_indexed].
    rewrite getEndOfWeek_eq. destruct (weekSpan_cases mode); lia. }
  exists info. split; [exact Hrun|]. cbv zeta.
  unfold hiddenColumns. rewrite Hrun. cbn [mbind option_bind].
  split; [done|]. rewrite <- Hkeys in Htotal. clear Hrun Hkeys Hlast Hweeks Hfirst.
  generalize dependent (getStartOfWeek minOverallDate). intros monday Hget Hmon Hhead.
  unfold columnsToHide. cbv zeta. rewrite (isoDateKey_Day today).
  replace (localDay UTC today) with (Day today)
    by (unfold localDay, LocalTime, UTC; f_equal; lia).
  remember (Day today) as t eqn:Ht. split; [|split].
  - intros [ct Hct] d c Hc. rewrite Hct.
    pose proof (Hbound _ _ Hct) as Hbt. pose proof (Hbound _ _ Hc) as Hbc.
    assert (d < t <-> c < ct) as ->.
    { split; [by apply (Hmono d t)|]. intros Hlt.
      destruct (Z.lt_trichotomy d t) as [?|[->|Hgt]]; [done| |].
      - rewrite Hct in Hc. injection Hc as ->. lia.
      - pose proof (Hmono t d ct c Hct Hc Hgt). lia. }
    destruct (Z.gtb_spec ct (firstFixedColumnIndex + 1)); cbn [hides]; [|lia].
    destruct (Z.gtb_spec (ct - (firstFixedColumnIndex + 1)) 0); cbn [hides]; lia.
  - intros Hlt.
    destruct (mapGet (toISODate UTC t) (hiDailyDateToSheetColMap info)) as [ct|] eqn:Hct.
    + specialize (Hget t). rewrite Hct in Hget. symmetry in Hget.
      apply columnOf_Some in Hget. lia.
    + destruct (hiSortedDailyDateKeys info) as [|firstKey keys]; [done|].
      simpl in Hhead. injection Hhead as ->. rewrite newDateOfKey_gt, <- Ht.
      destruct (Z.gtb_spec monday t); [|lia].
      split; [done|]. rewrite Htotal. cbn [length]. lia.
  - intros Hge ->. destruct (hiSortedDailyDateKeys info) as [|firstKey keys]; [done|].
    simpl in Hhead. injection Hhead as ->. rewrite newDateOfKey_gt, <- Ht.
    destruct (Z.gtb_spec monday t); [lia|done].
Qed.

Lemma hidden_columns_are_the_past_witness :
  exists info,
    generateTimelineHeaders UTC WorkWeek termOfMonthRule (ymd 2025 1 29) (ymd 2025 2 5) 1
    = Some info
    /\ hiddenColumns UTC WorkWeek termOfMonthRule (ymd 2025 1 29) (ymd 2025 2 5) 1
         (timeValue UTC (ymd 2025 2 4) + 34200000)
       = Some (columnsToHide 1 (totalDataColumns info) (hiDailyDateToSheetColMap info)
                 (hiSortedDailyDateKeys info)
                 (timeValue UTC (ymd 2025 2 4) + 34200000)).
Proof.
  destruct (hidden_columns_are_the_past WorkWeek termOfMonthRule
              (ymd 2025 1 29) (ymd 2025 2 5) 1
              (timeValue UTC (ymd 2025 2 4) + 34200000))
    as (info & Hrun & Hhidden & _);
    [ vm_compute; discriminate
    | intros [_ Hc]; vm_compute in Hc; congruence
    | intros [_ Hc]; vm_compute in Hc; congruence
    | vm_compute; discriminate
    | vm_compute; discriminate |].
  exists info. split; [exact Hrun|exact Hhidden].
Defined.

(** ** The date range and the grouping by person *)

Lemma widenByCustomer_fold range l :
  let range' := foldl widenByCustomer range l in
  range'.1 <= range.1 /\ range.2 <= range'.2
  /\ (forall c, c ∈ l -> range'.1 <= customerStart c /\ customerEnd c <= range'.2)
  /\ (range'.1 = range.1 \/ range'.1 ∈ customerStart <$> l)
  /\ (range'.2 = range.2 \/ range'.2 ∈ customerEnd <$> l).
Proof.
  cbv zeta. revert range. induction l as [|c l IH]; intros range.
  - simpl. split_and!; [lia|lia| |by left|by left]. intros c Hc. by apply elem_of_nil in Hc.
  - cbn [foldl]. destruct (IH (widenByCustomer range c)) as (H1 & H2 & H3 & H4 & H5).
    assert (Hw1 : (widenByCustomer range c).1 <= range.1
                  /\ (widenByCustomer range c).1 <= customerStart c
                  /\ ((widenByCustomer range c).1 = range.1
                      \/ (widenByCustomer range c).1 = customerStart c)).
    { destruct range as [mn mx]. cbn. destruct (Z.ltb_spec (customerStart c) mn); lia. }
    assert (Hw2 : range.2 <= (widenByCustomer range c).2
                  /\ customerEnd c <= (widenByCustomer range c).2
                  /\ ((widenByCustomer range c).2 = range.2
                      \/ (widenByCustomer range c).2 = customerEnd c)).
    { destruct range as [mn mx]. cbn. destruct (Z.gtb_spec (customerEnd c) mx); lia. }
    split_and!; [lia|lia| | |].
    + intros c' [->|Hc']%elem_of_cons; [lia|by apply H3].
    + rewrite fmap_cons. destruct H4 as [H4|H4].
      * destruct Hw1 as (_ & _ & [Hw|Hw]); [left; congruence|right].
        rewrite H4, Hw. apply elem_of_cons. by left.
      * right. apply elem_of_cons. by right.
    + rewrite fmap_cons. destruct H5 as [H5|H5].
      * destruct Hw2 as (_ & _ & [Hw|Hw]); [left; congruence|right].
        rewrite H5, Hw. apply elem_of_cons. by left.
      * right. apply elem_of_cons. by right.
Qed.

Lemma assignmentsOf_snoc skip person rows row :
  assignmentsOf skip person (rows ++ [row])
  = assignmentsOf skip person rows
    ++ (if decide (cellPerson row = person)
        then option_list (assignmentOfRow skip row) else []).
Proof.
  unfold assignmentsOf. rewrite filter_app, omap_app. f_equal.
  rewrite filter_cons, filter_nil. destruct (decide (cellPerson row = person)); [|done].
  cbn. by destruct (assignmentOfRow skip row).
Qed.

(** What one round does, in terms of the assignment of the row. *)
Lemma collectRow_cases skip acc row :
  match assignmentOfRow skip row with
  | None => collectRow skip acc row = acc
  | Some x =>
      collectRow skip acc row
      = {| minOverallTimelineDate :=
             if projectStart x <? minOverallTimelineDate acc
             then projectStart x else minOverallTimelineDate acc;
           maxOverallTimelineDate :=
             if projectEnd x >? maxOverallTimelineDate acc
             then projectEnd x else maxOverallTimelineDate acc;
           projectsByPerson :=
             <[ cellPerson row := default [] (projectsByPerson acc !! cellPerson row)
                                  ++ [x] ]> (projectsByPerson acc) |}
  end.
Proof.
  unfold assignmentOfRow, collectRow. cbv zeta.
  destruct (skip && String.eqb (cellPerson row) "Milestone"); [done|].
  destruct (cellStart row) as [s|], (cellEnd row) as [e|]; done.
Qed.

Lemma collectRow_fold skip acc rows :
  let acc' := foldl (collectRow skip) acc rows in
  let kept := omap (assignmentOfRow skip) rows in
  (forall person,
      projectsByPerson acc' !! person
      = match projectsByPerson acc !! person, assignmentsOf skip person rows with
        | None, [] => None
        | o, l => Some (default [] o ++ l)
        end)
  /\ minOverallTimelineDate acc' <= minOverallTimelineDate acc
  /\ maxOverallTimelineDate acc <= maxOverallTimelineDate acc'
  /\ (forall x, x ∈ kept ->
        minOverallTimelineDate acc' <= projectStart x
        /\ projectEnd x <= maxOverallTimelineDate acc')
  /\ (minOverallTimelineDate acc' = minOverallTimelineDate acc
      \/ minOverallTimelineDate acc' ∈ projectStart <$> kept)
  /\ (maxOverallTimelineDate acc' = maxOverallTimelineDate acc
      \/ maxOverallTimelineDate acc' ∈ projectEnd <$> kept).
Proof.
  cbv zeta. induction rows as [|row rows IH] using rev_ind.
  - cbn. split_and!; [|lia|lia| |by left|by left].
    + intros person. unfold assignmentsOf. cbn.
      destruct (projectsByPerson acc !! person); [|done]. by rewrite app_nil_r.
    + intros x Hx. by apply elem_of_nil in Hx.
  - rewrite foldl_snoc, omap_app.
    replace (omap (assignmentOfRow skip) [row])
      with (option_list (assignmentOfRow skip row))
      by (cbn; by destruct (assignmentOfRow skip row)).
    destruct IH as (Hmap & Hmin & Hmax & Hin & Hlo & Hhi).
    set (acc1 := foldl (collectRow skip) acc rows) in *.
    pose proof (collectRow_cases skip acc1 row) as Hrow.
    destruct (assignmentOfRow skip row) as [x|] eqn:Hx.
    + rewrite Hrow. cbn [minOverallTimelineDate maxOverallTimelineDate projectsByPerson
                         option_list app].
      assert (Hw1 : forall m : Z, (if projectStart x <? m then projectStart x else m) <= m
                /\ (if projectStart x <? m then projectStart x else m) <= projectStart x
                /\ ((if projectStart x <? m then projectStart x else m) = m
                    \/ (if projectStart x <? m then projectStart x else m) = projectStart x)).
      { intros m. destruct (Z.ltb_spec (projectStart x) m); lia. }
      assert (Hw2 : forall m : Z, m <= (if projectEnd x >? m then projectEnd x else m)
                /\ projectEnd x <= (if projectEnd x >? m then projectEnd x else m)
                /\ ((if projectEnd x >? m then projectEnd x else m) = m
                    \/ (if projectEnd x >? m then projectEnd x else m) = projectEnd x)).
      { intros m. destruct (Z.gtb_spec (projectEnd x) m); lia. }
      specialize (Hw1 (minOverallTimelineDate acc1)).
      specialize (Hw2 (maxOverallTimelineDate acc1)).
      split_and!; [|lia|lia| | |].
      * intros person. rewrite assignmentsOf_snoc, Hx. cbn [option_list].
        destruct (decide (cellPerson row = person)) as [->|Hne].
        -- rewrite lookup_insert_eq, Hmap.
           destruct (projectsByPerson acc !! person) as [l0|],
             (assignmentsOf skip person rows) as [|y l]; cbn;
             rewrite ?app_nil_r, <- ?(assoc_L (++)); done.
        -- rewrite lookup_insert_ne by done. rewrite Hmap, app_nil_r. done.
      * intros y [Hy|Hy]%elem_of_app.
        -- specialize (Hin y Hy). lia.
        -- apply list_elem_of_singleton in Hy as ->. lia.
      * rewrite fmap_app. cbn [fmap list_fmap].
        destruct Hw1 as (_ & _ & [Hw|Hw]).
        -- rewrite Hw. destruct Hlo as [Hlo|Hlo]; [by left|right].
           apply elem_of_app. by left.
        -- right. rewrite Hw. apply elem_of_app. right. by apply list_elem_of_singleton.
      * rewrite fmap_app. cbn [fmap list_fmap].
        destruct Hw2 as (_ & _ & [Hw|Hw]).
        -- rewrite Hw. destruct Hhi as [Hhi|Hhi]; [by left|right].
           apply elem_of_app. by left.
        -- right. rewrite Hw. apply elem_of_app. right. by apply list_elem_of_singleton.
    + rewrite Hrow. cbn [option_list]. rewrite app_nil_r.
      split_and!; try done.
      intros person. rewrite assignmentsOf_snoc, Hx. cbn [option_list].
      rewrite Hmap. by destruct (decide _); rewrite app_nil_r.
Qed.

Lemma collect_aux skip milestoneData dataRows :
  let acc := collect skip milestoneData dataRows in
  let kept := omap (assignmentOfRow skip) dataRows in
  (forall person,
      default [] (projectsByPerson acc !! person) = assignmentsOf skip person dataRows)
  /\ (forall person,
        projectsByPerson acc !! person = None <-> assignmentsOf skip person dataRows = [])
  /\ (forall c, c ∈ milestoneData ->
        minOverallTimelineDate acc <= customerStart c
        /\ customerEnd c <= maxOverallTimelineDate acc)
  /\ (forall x, x ∈ kept ->
        minOverallTimelineDate acc <= projectStart x
        /\ projectEnd x <= maxOverallTimelineDate acc)
  /\ (minOverallTimelineDate acc = latestDate
      \/ minOverallTimelineDate acc
         ∈ (customerStart <$> milestoneData) ++ (projectStart <$> kept))
  /\ (maxOverallTimelineDate acc = - latestDate
      \/ maxOverallTimelineDate acc
         ∈ (customerEnd <$> milestoneData) ++ (projectEnd <$> kept)).
Proof.
  cbv zeta. unfold collect. cbv zeta.
  destruct (widenByCustomer_fold (latestDate, - latestDate) milestoneData)
    as (_ & _ & Hm & Hlo0 & Hhi0).
  set (range := foldl widenByCustomer (latestDate, - latestDate) milestoneData) in *.
  destruct (collectRow_fold skip
              {| minOverallTimelineDate := range.1;
                 maxOverallTimelineDate := range.2;
                 projectsByPerson := ∅ |} dataRows)
    as (Hmap & Hmin & Hmax & Hin & Hlo & Hhi).
  cbn [minOverallTimelineDate maxOverallTimelineDate projectsByPerson fst snd] in *.
  split_and!.
  - intros person. rewrite Hmap, lookup_empty.
    by destruct (assignmentsOf skip person dataRows).
  - intros person. rewrite Hmap, lookup_empty.
    by destruct (assignmentsOf skip person dataRows).
  - intros c Hc. specialize (Hm c Hc). lia.
  - exact Hin.
  - destruct Hlo as [Hlo|Hlo].
    + rewrite Hlo. destruct Hlo0 as [Hlo0|Hlo0]; [by left|right].
      apply elem_of_app. by left.
    + right. apply elem_of_app. by right.
  - destruct Hhi as [Hhi|Hhi].
    + rewrite Hhi. destruct Hhi0 as [Hhi0|Hhi0]; [by left|right].
      apply elem_of_app. by left.
    + right. apply elem_of_app. by right.
Qed.

(** ** Milestones and assignments of the "Combined" sheet *)

Lemma string_eqb_spec (a b : string) : String.eqb a b = bool_decide (a = b).
Proof.
  destruct (String.eqb_spec a b).
  - by rewrite bool_decide_eq_true_2.
  - by rewrite bool_decide_eq_false_2.
Qed.

Lemma getMilestoneData_names (dataRows : list SheetRow) :
  name <$> getMilestoneData dataRows
  = cellSummary
      <$> filter (fun row => cellPerson row = "Milestone"
                             /\ (is_Some (cellStart row) \/ is_Some (cellEnd row)))
            dataRows.
Proof.
  unfold getMilestoneData. induction dataRows as [|row rows IH]; [done|].
  rewrite filter_cons. cbn [omap list_omap]. unfold milestoneOfRow at 1.
  destruct (decide (cellPerson row = "Milestone")) as [Hp|Hp].
  - unfold customerOfRow. cbn [crStart crEnd crName].
    destruct (cellStart row) as [s|], (cellEnd row) as [e|]; cbv zeta;
      (rewrite decide_True by (split; [done|eauto using mk_is_Some]))
      || (rewrite decide_False by (intros [_ [[? [=]]|[? [=]]]])); csimpl;
      by rewrite ?IH.
  - rewrite decide_False by (intros [? _]; done). apply IH.
Qed.

Lemma assignmentsOf_Milestone (dataRows : list SheetRow) :
  assignmentsOf true "Milestone" dataRows = [].
Proof.
  unfold assignmentsOf. induction dataRows as [|row rows IH]; [done|].
  rewrite filter_cons. destruct (decide (cellPerson row = "Milestone")) as [Hp|Hp].
  - cbn [omap list_omap]. unfold assignmentOfRow at 1. rewrite Hp. cbn. apply IH.
  - apply IH.
Qed.

(** X11: in the milestone variant [getMilestoneData] keeps, in sheet order
    and named by their Summary cell, the rows of person 'Milestone' that
    have at least one date; no row is both a milestone and an assignment,
    'Milestone' is never a person of the chart, and every other row with
    two dates is an assignment of its person. *)
Theorem combined_sheet_split (dataRows : list SheetRow) :
  let acc := collect true (getMilestoneData dataRows) dataRows in
  name <$> getMilestoneData dataRows
  = cellSummary
      <$> filter (fun row => cellPerson row = "Milestone"
                             /\ (is_Some (cellStart row) \/ is_Some (cellEnd row)))
            dataRows
  /\ projectsByPerson acc !! "Milestone" = None
  /\ Forall (fun row => milestoneOfRow row = None \/ assignmentOfRow true row = None)
       dataRows
  /\ (forall row, row ∈ dataRows -> cellPerson row <> "Milestone" ->
        is_Some (cellStart row) -> is_Some (cellEnd row) ->
        exists x, assignmentOfRow true row = Some x
                  /\ x ∈ default [] (projectsByPerson acc !! cellPerson row)).
Proof.
  cbv zeta.
  destruct (collect_aux true (getMilestoneData dataRows) dataRows)
    as (Hget & Hnone & _).
  split_and!.
  - apply getMilestoneData_names.
  - apply Hnone. apply assignmentsOf_Milestone.
  - apply Forall_forall. intros row _. unfold milestoneOfRow, assignmentOfRow.
    destruct (decide (cellPerson row = "Milestone")) as [->|Hp]; [by right|by left].
  - intros row Hin Hp [s Hs] [e He].
    assert (Hx : assignmentOfRow true row
                 = Some (mkProject (cellProject row) (cellSummary row) None s
                           (adjustEndDate s e) None)).
    { unfold assignmentOfRow. rewrite string_eqb_spec.
      rewrite bool_decide_eq_false_2 by done. cbn. by rewrite Hs, He. }
    eexists. split; [exact Hx|]. rewrite Hget. unfold assignmentsOf.
    apply list_elem_of_omap. exists row. split; [|exact Hx].
    apply list_elem_of_filter. done.
Qed.

(** ** Bars of intervals inside the date range *)

Lemma dayIndexed_week_offset mode d :
  dayIndexed mode (getDay d) = true -> (d + 3) mod 7 <= weekSpan mode.
Proof.
  destruct mode; unfold dayIndexed, weekSpan, getDay, WeekDay.
  - intros [H1%Z.leb_le H2%Z.leb_le]%andb_true_iff. Z.div_mod_to_equations; lia.
  - intros _. Z.div_mod_to_equations; lia.
Qed.

Lemma resolveSpan_exact_aux mode termOf minOverallDate maxOverallDate
    firstFixedColumnIndex firstColumn projectStartDate projectEndDate :
  ~ (0 <= getFullYear minOverallDate <= 99) ->
  ~ (0 <= getFullYear maxOverallDate <= 99) ->
  0 <= getFullYear (getStartOfWeek minOverallDate) ->
  getFullYear (getEndOfWeek mode maxOverallDate) <= 9999 ->
  firstColumn <= firstFixedColumnIndex + 1 ->
  minOverallDate <= projectStartDate ->
  projectStartDate <= projectEndDate ->
  projectEndDate <= maxOverallDate ->
  dayIndexed mode (getDay projectStartDate) = true ->
  dayIndexed mode (getDay projectEndDate) = true ->
  exists info startSheetCol endSheetCol,
    generateTimelineHeaders UTC mode termOf minOverallDate maxOverallDate
      firstFixedColumnIndex = Some info
    /\ let m := hiDailyDateToSheetColMap info in
       toISODate UTC projectStartDate = projectStartDate
       /\ toISODate UTC projectEndDate = projectEndDate
       /\ mapGet (toISODate UTC projectStartDate) m = Some startSheetCol
       /\ mapGet (toISODate UTC projectEndDate) m = Some endSheetCol
       /\ resolveSpan firstColumn (totalHeaderColumns info) m
            (toISODate UTC projectStartDate) (toISODate UTC projectEndDate)
          = {| bar := Some (startSheetCol, endSheetCol); messages := [] |}
       /\ (forall customer,
             customerStart customer = projectStartDate ->
             customerEnd customer = projectEndDate ->
             resolveSpanChecked firstColumn (totalHeaderColumns info) m customer
             = {| bar := Some (startSheetCol, endSheetCol); messages := [] |})
       /\ endSheetCol - startSheetCol + 1
          = Z.of_nat (length (indexedDays mode projectStartDate projectEndDate))
       /\ (forall d c, mapGet (toISODate UTC d) m = Some c ->
             (startSheetCol <= c <= endSheetCol
              <-> projectStartDate <= d <= projectEndDate)).
Proof.
  intros Hmin Hmax Hfirst9 Hlast9 Hfc Hlo Hle Hhi Hs He.
  destruct (index_lookup_aux mode termOf minOverallDate maxOverallDate
              firstFixedColumnIndex Hfirst9 Hlast9)
    as (info & Hrun & Hget & Hbound & Hmono).
  cbv zeta in Hget, Hbound, Hmono.
  destruct (getStartOfWeek_monday _ Hmin) as [_ Hfirst].
  assert (Hlast : projectEndDate <= getEndOfWeek mode maxOverallDate).
  { rewrite getEndOfWeek_eq, (getStartOfWeek_eq _ Hmax).
    pose proof (dayIndexed_week_offset mode _ He).
    destruct (weekSpan_cases mode) as [Hsp|Hsp]; rewrite Hsp in *;
      Z.div_mod_to_equations; lia. }
  set (first := getStartOfWeek minOverallDate) in *.
  set (last := getEndOfWeek mode maxOverallDate) in *. clearbody first last.
  assert (Hks : toISODate UTC projectStartDate = projectStartDate)
    by (apply toISODate_UTC, (years_between first last); [done|done|lia]).
  assert (Hke : toISODate UTC projectEndDate = projectEndDate)
    by (apply toISODate_UTC, (years_between first last); [done|done|lia]).
  assert (Hcs : mapGet (toISODate UTC projectStartDate) (hiDailyDateToSheetColMap info)
                = Some (firstFixedColumnIndex + 1
                        + Z.of_nat (length (indexedDays mode first (projectStartDate - 1))))).
  { rewrite Hget. unfold columnOf. rewrite Hs.
    destruct (Z.leb_spec first projectStartDate); [|lia].
    destruct (Z.leb_spec projectStartDate last); [|lia]. done. }
  assert (Hce : mapGet (toISODate UTC projectEndDate) (hiDailyDateToSheetColMap info)
                = Some (firstFixedColumnIndex + 1
                        + Z.of_nat (length (indexedDays mode first (projectEndDate - 1))))).
  { rewrite Hget. unfold columnOf. rewrite He.
    destruct (Z.leb_spec first projectEndDate); [|lia].
    destruct (Z.leb_spec projectEndDate last); [|lia]. done. }
  set (cs := firstFixedColumnIndex + 1
             + Z.of_nat (length (indexedDays mode first (projectStartDate - 1)))) in *.
  set (ce := firstFixedColumnIndex + 1
             + Z.of_nat (length (indexedDays mode first (projectEndDate - 1)))) in *.
  assert (Hlen : ce - cs + 1
                 = Z.of_nat (length (indexedDays mode projectStartDate projectEndDate))).
  { pose proof (indexedDays_split mode first (projectStartDate - 1) projectEndDate
                  ltac:(lia) ltac:(lia)) as H1.
    pose proof (indexedDays_split mode first (projectEndDate - 1) projectEndDate
                  ltac:(lia) ltac:(lia)) as H2.
    replace (projectStartDate - 1 + 1) with projectStartDate in H1 by lia.
    replace (projectEndDate - 1 + 1) with projectEndDate in H2 by lia.
    rewrite indexedDays_one, He in H2. cbv iota in H2.
    apply (f_equal length) in H1, H2. rewrite length_app in H1, H2.
    cbn [length] in H2. subst cs ce. lia. }
  assert (Hcols : cs <= ce).
  { destruct (Z.eq_dec projectStartDate projectEndDate) as [Heq|Hne].
    - subst cs ce. rewrite Heq. lia.
    - pose proof (indexedDays_before_lt mode first (projectEndDate - 1)
                    projectStartDate ltac:(lia) Hs).
      subst cs ce. lia. }
  pose proof (Hbound _ _ Hcs) as Hbs. pose proof (Hbound _ _ Hce) as Hbe.
  assert (Hspan : resolveSpan firstColumn (totalHeaderColumns info)
                    (hiDailyDateToSheetColMap info)
                    (toISODate UTC projectStartDate) (toISODate UTC projectEndDate)
                  = {| bar := Some (cs, ce); messages := [] |}).
  { unfold resolveSpan. cbv zeta. rewrite Hcs, Hce.
    destruct (Z.ltb_spec cs firstColumn); [lia|].
    destruct (Z.ltb_spec ce firstColumn); [lia|].
    destruct (Z.gtb_spec cs ce); [lia|].
    destruct (Z.gtb_spec (ce - cs + 1) 0); [done|lia]. }
  exists info, cs, ce. split; [exact Hrun|]. cbv zeta.
  split_and!; [exact Hks|exact Hke|exact Hcs|exact Hce|exact Hspan| |exact Hlen|].
  - intros customer Hc1 Hc2. unfold resolveSpanChecked.
    rewrite Hks in Hcs, Hspan. rewrite Hke in Hce, Hspan.
    rewrite Hc1, Hc2, Hcs, Hce. exact Hspan.
  - intros d c Hc. split.
    + intros [H1 H2]. split.
      * destruct (Z.le_gt_cases projectStartDate d) as [?|Hgt]; [done|].
        pose proof (Hmono d projectStartDate c cs Hc Hcs ltac:(lia)). lia.
      * destruct (Z.le_gt_cases d projectEndDate) as [?|Hgt]; [done|].
        pose proof (Hmono projectEndDate d ce c Hce Hc ltac:(lia)). lia.
    + intros [H1 H2]. split.
      * destruct (Z.eq_dec d projectStartDate) as [->|Hne].
        -- rewrite Hcs in Hc. injection Hc as <-. lia.
        -- pose proof (Hmono projectStartDate d cs c Hcs Hc ltac:(lia)). lia.
      * destruct (Z.eq_dec d projectEndDate) as [->|Hne].
        -- rewrite Hce in Hc. injection Hc as <-. lia.
        -- pose proof (Hmono d projectEndDate c ce Hc Hce ltac:(lia)). lia.
Qed.

Lemma indexedDays_FullWeek a b : indexedDays FullWeek a b = seqZ a (b - a + 1).
Proof.
  unfold indexedDays. generalize (seqZ a (b - a + 1)). intros l.
  induction l as [|x l IH]; [done|]. rewrite filter_cons, IH. done.
Qed.

(** X10: in the milestone variant, which shows every day, in the zone UTC
    and with the range the loop over the rows leaves (years of its two
    ends not read as 19yy, its walk within the years 0000 to 9999), the
    keys of the dates of every milestone and of every kept assignment
    with start <= end are these dates, and each is painted from the column
    of its start day over end - start further columns; the message box for
    a missing column is never raised for them. *)
Theorem full_week_bars_span_their_days skipMilestones milestoneData dataRows termOf :
  let acc := collect skipMilestones milestoneData dataRows in
  ~ (0 <= getFullYear (minOverallTimelineDate acc) <= 99) ->
  ~ (0 <= getFullYear (maxOverallTimelineDate acc) <= 99) ->
  0 <= getFullYear (getStartOfWeek (minOverallTimelineDate acc)) ->
  getFullYear (getEndOfWeek FullWeek (maxOverallTimelineDate acc)) <= 9999 ->
  exists info,
    generateTimelineHeaders UTC FullWeek termOf (minOverallTimelineDate acc)
      (maxOverallTimelineDate acc) 1 = Some info
    /\ let m := hiDailyDateToSheetColMap info in
       (forall c, c ∈ milestoneData -> normalized c ->
          exists startSheetCol,
            toISODate UTC (customerStart c) = customerStart c
            /\ toISODate UTC (customerEnd c) = customerEnd c
            /\ mapGet (toISODate UTC (customerStart c)) m = Some startSheetCol
            /\ resolveSpanChecked (1 + 1) (totalHeaderColumns info) m c
               = {| bar := Some (startSheetCol,
                                 startSheetCol + (customerEnd c - customerStart c));
                    messages := [] |})
       /\ (forall x, x ∈ omap (assignmentOfRow skipMilestones) dataRows ->
           normalized x ->
           exists startSheetCol,
             toISODate UTC (projectStart x) = projectStart x
             /\ toISODate UTC (projectEnd x) = projectEnd x
             /\ mapGet (toISODate UTC (projectStart x)) m = Some startSheetCol
             /\ resolveSpan 2 (totalHeaderColumns info) m
                  (toISODate UTC (projectStart x)) (toISODate UTC (projectEnd x))
                = {| bar := Some (startSheetCol,
                                  startSheetCol + (projectEnd x - projectStart x));
                     messages := [] |}).
Proof.
  cbv zeta. intros Hmin Hmax Hfirst9 Hlast9.
  destruct (collect_aux skipMilestones milestoneData dataRows)
    as (_ & _ & Hms & Hxs & _).
  cbv zeta in Hms, Hxs.
  set (acc := collect skipMilestones milestoneData dataRows) in *. clearbody acc.
  destruct (generateTimelineHeaders_run FullWeek termOf (minOverallTimelineDate acc)
              (maxOverallTimelineDate acc) 1 Hfirst9 Hlast9) as (info & Hrun & _).
  exists info. split; [exact Hrun|].
  assert (Hbar : forall s e, minOverallTimelineDate acc <= s -> s <= e ->
            e <= maxOverallTimelineDate acc ->
            exists cs,
              toISODate UTC s = s /\ toISODate UTC e = e
              /\ mapGet (toISODate UTC s) (hiDailyDateToSheetColMap info) = Some cs
              /\ resolveSpan (1 + 1) (totalHeaderColumns info)
                   (hiDailyDateToSheetColMap info) (toISODate UTC s) (toISODate UTC e)
                 = {| bar := Some (cs, cs + (e - s)); messages := [] |}
              /\ mapGet (toISODate UTC e) (hiDailyDateToSheetColMap info)
                 = Some (cs + (e - s))).
  { intros s e Hlo Hle Hhi.
    destruct (resolveSpan_exact_aux FullWeek termOf (minOverallTimelineDate acc)
                (maxOverallTimelineDate acc) 1 (1 + 1) s e Hmin Hmax Hfirst9 Hlast9
                ltac:(lia) Hlo Hle Hhi eq_refl eq_refl)
      as (info' & cs & ce & Hrun' & Hks & Hke & Hcs & Hce & Hspan & _ & Hlen & _).
    assert (info' = info) as -> by congruence.
    rewrite indexedDays_FullWeek, length_seqZ in Hlen.
    assert (ce = cs + (e - s)) as -> by lia.
    exists cs. done. }
  split.
  - intros c Hc Hn. destruct (Hms c Hc) as [Hlo Hhi].
    destruct (Hbar (customerStart c) (customerEnd c) Hlo Hn Hhi)
      as (cs & Hks & Hke & Hcs & Hspan & Hce).
    exists cs. split_and!; [exact Hks|exact Hke|exact Hcs|].
    rewrite Hks in Hcs, Hspan. rewrite Hke in Hce, Hspan.
    unfold resolveSpanChecked. by rewrite Hcs, Hce.
  - intros x Hx Hn. destruct (Hxs x Hx) as [Hlo Hhi].
    destruct (Hbar (projectStart x) (projectEnd x) Hlo Hn Hhi)
      as (cs & Hks & Hke & Hcs & Hspan & _).
    exists cs. split_and!; [exact Hks|exact Hke|exact Hcs|exact Hspan].
Qed.

Lemma full_week_bars_span_their_days_witness :
  exists info,
    generateTimelineHeaders UTC FullWeek (termOfCatalog TERMS_DATA)
      (minOverallTimelineDate
         (collect true [mkCustomer "Launch" (ymd 2025 3 4) (ymd 2025 3 9)] []))
      (maxOverallTimelineDate
         (collect true [mkCustomer "Launch" (ymd 2025 3 4) (ymd 2025 3 9)] []))
      1 = Some info
    /\ exists startSheetCol,
         resolveSpanChecked (1 + 1) (totalHeaderColumns info)
           (hiDailyDateToSheetColMap info)
           (mkCustomer "Launch" (ymd 2025 3 4) (ymd 2025 3 9))
         = {| bar := Some (startSheetCol,
                           startSheetCol + (ymd 2025 3 9 - ymd 2025 3 4));
              messages := [] |}.
Proof.
  destruct (full_week_bars_span_their_days true
              [mkCustomer "Launch" (ymd 2025 3 4) (ymd 2025 3 9)] []
              (termOfCatalog TERMS_DATA))
    as (info & Hrun & Hms & _);
    [ intros [_ Hc]; vm_compute in Hc; congruence
    | intros [_ Hc]; vm_compute in Hc; congruence
    | vm_compute; discriminate
    | vm_compute; discriminate |].
  exists info. split; [exact Hrun|].
  destruct (Hms (mkCustomer "Launch" (ymd 2025 3 4) (ymd 2025 3 9)))
    as (cs & _ & _ & _ & Hbar);
    [apply list_elem_of_singleton; reflexivity | vm_compute; discriminate |].
  exists cs. exact Hbar.
Defined.

(** ** The term of a day *)

(** X12: for a day of a year after 100 the month rule of Code.js always
    finds a term, by the month alone: T4 of the previous year in January,
    T1 from February to April, T2 from May to July, T3 from August to
    October, T4 in November and December, each with the colour of
    [TERMS]. *)
Theorem getTermForDate_by_month d :
  100 < getFullYear d ->
  getTermForDate d
  = Some (let month := getMonth d in
          let year := getFullYear d in
          if month =? 0 then mkTermOfDay "T4" (year - 1) "#8b0000"
          else if month <=? 3 then mkTermOfDay "T1" year "#2f75b5"
          else if month <=? 6 then mkTermOfDay "T2" year "#4a4e69"
          else if month <=? 9 then mkTermOfDay "T3" year "#3a6b35"
          else mkTermOfDay "T4" year "#8b0000").
Proof.
  intros Hy. unfold getTermForDate, TERMS.
  cbn [getTermForDate_in mtName startMonth endMonth mtColor].
  simpl (String.eqb _ _). cbn [andb orb negb].
  change (2 - 1) with 1. change (4 - 1 + 1) with 4. change (5 - 1) with 4.
  change (7 - 1 + 1) with 7. change (8 - 1) with 7. change (10 - 1 + 1) with 10.
  change (11 - 1) with 10. change (1 - 1 + 1) with 1.
  unfold getFullYear, getMonth in *.
  destruct (calendar_fields d) as (HL & Hdays & Hw & Hnext & Hmonth).
  pose proof (DayFromYear_succ (YearFromTime d - 1)) as Hprev.
  replace (YearFromTime d - 1 + 1) with (YearFromTime d) in Hprev by lia.
  pose proof (DaysInYear_cases (YearFromTime d - 1)) as Hprevdays.
  assert (Hends :
    forall y, y = YearFromTime d \/ y = YearFromTime d + 1 \/ y = YearFromTime d - 1 ->
      forall m dt, 0 <= m <= 11 ->
        newDate y m dt
        = DayFromYear y + monthStart (if DaysInYear y =? 366 then 1 else 0) m + dt - 1).
  { intros y Hyy m dt Hm. rewrite newDate_full by lia. by apply MakeDay_month. }
  set (Y := YearFromTime d) in *. set (L := InLeapYear d) in *.
  assert (HLY : (if DaysInYear Y =? 366 then 1 else 0) = L) by reflexivity.
  destruct Hmonth
    as [[-> ?]|[[-> ?]|[[-> ?]|[[-> ?]|[[-> ?]|[[-> ?]|[[-> ?]|[[-> ?]|[[-> ?]|
        [[-> ?]|[[-> ?]|[-> ?]]]]]]]]]]]];
    cbn [Z.eqb Z.leb Z.compare Pos.compare Pos.compare_cont Pos.eqb orb negb monthStart] in *;
    rewrite !Hends by (auto; lia); rewrite ?HLY; cbn [monthStart];
    destruct_comparisons; try reflexivity.
  all: try (exfalso; repeat case_match; lia).
Qed.

Lemma getTermForDate_by_month_witness :
  getTermForDate (ymd 2025 1 15) = Some (mkTermOfDay "T4" 2024 "#8b0000").
Proof.
  refine (eq_trans (getTermForDate_by_month (ymd 2025 1 15) _) _).
  - vm_compute. reflexivity.
  - vm_compute. reflexivity.
Defined.

(** ** Reading the "Terms" sheet *)

Lemma termOfRow_cases row :
  match termOfRow row with
  | Returned o => colored row /\ o = datedTerm row
  | Thrown _ => ~ colored row \/ trStart row = OtherValue \/ trEnd row = OtherValue
  end.
Proof.
  unfold termOfRow, colored, datedTerm. cbv zeta.
  destruct (String.eqb_spec (trBackground row) ""); [cbn; left; tauto|].
  destruct (String.eqb_spec (trBackground row) "#ffffff"); [cbn; left; tauto|].
  destruct (String.eqb_spec (trBackground row) "#FFFFFF"); [cbn; left; tauto|].
  cbn [negb andb].
  destruct (trStart row) as [s|[s|]|], (trEnd row) as [e|[e|]|]; cbn;
    try destruct (e <? s); auto.
Qed.

Lemma datedTerm_ordered row t : datedTerm row = Some t -> termStart t <= termEnd t.
Proof.
  unfold datedTerm.
  destruct (dateOfCell (trStart row)) as [s|]; [|done].
  destruct (dateOfCell (trEnd row)) as [e|]; [|done]. cbn.
  destruct (Z.ltb_spec e s); [done|]. intros [= <-]. cbn. lia.
Qed.


(** ** Distinct colours *)

Lemma availableColors_NoDup : NoDup availableColors.
Proof. apply (bool_decide_unpack _). vm_compute. reflexivity. Qed.

Lemma availableColors_length : length availableColors = 19%nat.
Proof. reflexivity. Qed.

(** X14: two requests of a run get the same colour exactly when the ranks
    of their identifiers, in order of first request, agree modulo 19; so
    in a run with at most 19 distinct identifiers two requests get the same
    colour only for the same identifier. *)
Theorem colors_equal_iff_ranks_agree (identifiers : list string) (i j : nat) (id1 id2 : string)
    (n1 n2 : nat) :
  identifiers !! i = Some id1 ->
  identifiers !! j = Some id2 ->
  firstRequests identifiers !! n1 = Some id1 ->
  firstRequests identifiers !! n2 = Some id2 ->
  (colorsOfRun identifiers !! i = colorsOfRun identifiers !! j
   <-> (n1 mod 19 = n2 mod 19)%nat)
  /\ ((length (firstRequests identifiers) <= 19)%nat ->
      (colorsOfRun identifiers !! i = colorsOfRun identifiers !! j <-> id1 = id2)).
Proof.
  intros Hi Hj Hr1 Hr2.
  assert (Hnd : NoDup (firstRequests identifiers))
    by (apply seenAfter_NoDup; constructor).
  destruct (colorsFrom_lookup noColors [] identifiers i id1 noColors_agree Hi)
    as (m1 & Hm1 & Hc1).
  destruct (colorsFrom_lookup noColors [] identifiers j id2 noColors_agree Hj)
    as (m2 & Hm2 & Hc2).
  change (seenAfter [] identifiers) with (firstRequests identifiers) in Hm1, Hm2.
  pose proof (NoDup_lookup _ _ _ _ Hnd Hr1 Hm1) as <-.
  pose proof (NoDup_lookup _ _ _ _ Hnd Hr2 Hm2) as <-.
  unfold colorsOfRun. rewrite Hc1, Hc2, availableColors_length.
  assert (Hiff : Some (Some (availableColors !!! (n1 mod 19)%nat))
                 = Some (Some (availableColors !!! (n2 mod 19)%nat))
                 <-> (n1 mod 19 = n2 mod 19)%nat).
  { split; [|by intros ->]. intros Hcol0.
    assert (Hcol : availableColors !!! (n1 mod 19)%nat
                   = availableColors !!! (n2 mod 19)%nat) by congruence.
    clear Hcol0.
    pose proof (Nat.mod_upper_bound n1 19 ltac:(lia)) as Hb1.
    pose proof (Nat.mod_upper_bound n2 19 ltac:(lia)) as Hb2.
    assert (Hl1 : availableColors !! (n1 mod 19)%nat
                  = Some (availableColors !!! (n1 mod 19)%nat)).
    { apply list_lookup_lookup_total_lt. rewrite availableColors_length. lia. }
    assert (Hl2 : availableColors !! (n2 mod 19)%nat
                  = Some (availableColors !!! (n2 mod 19)%nat)).
    { apply list_lookup_lookup_total_lt. rewrite availableColors_length. lia. }
    rewrite Hcol in Hl1.
    exact (NoDup_lookup _ _ _ _ availableColors_NoDup Hl1 Hl2). }
  split; [exact Hiff|]. intros Hlen. rewrite Hiff.
  pose proof (lookup_lt_Some _ _ _ Hr1) as Hlt1.
  pose proof (lookup_lt_Some _ _ _ Hr2) as Hlt2.
  rewrite !Nat.mod_small by lia. split.
  - intros ->. congruence.
  - intros ->. exact (NoDup_lookup _ _ _ _ Hnd Hr1 Hr2).
Qed.

Lemma colors_equal_iff_ranks_agree_witness :
  colorsOfRun ["A"; "B"; "A"] !! 0%nat = colorsOfRun ["A"; "B"; "A"] !! 1%nat
  <-> (0 mod 19 = 1 mod 19)%nat.
Proof.
  refine (proj1 (colors_equal_iff_ranks_agree ["A"; "B"; "A"] 0 1 "A" "B" 0 1 _ _ _ _));
    vm_compute; reflexivity.
Defined.

(** ** Order within and between the rows of the packer *)
Section PackerOrderFacts.
Context {A : Type} `{HasDates A}.

Lemma not_qualifies_overlaps (x : A) (row : list A) :
  ~ qualifies x row -> exists y, y ∈ row /\ overlaps x y.
Proof.
  unfold qualifies. intros Hq.
  apply not_Forall_Exists in Hq; [|apply _].
  apply Exists_exists in Hq as (y & Hy & Hov). exists y. split; [done|].
  simpl in Hov. by destruct (decide (overlaps x y)).
Qed.

Lemma firstFit_greedy (rows : list (list A)) (x : A) :
  rowsGreedy rows -> rowsGreedy (firstFit rows x).
Proof.
  intros Hg.
  destruct (firstFit_cases rows x)
    as [(before & row & after & -> & Hq & Hbefore & ->)|[Hnone ->]].
  - intros i j earlier later z Hij Hi Hj Hz.
    assert (Hlater : exists later0, (before ++ row :: after) !! j = Some later0
              /\ (z ∈ later0 \/ (j = length before /\ z = x))).
    { destruct (decide (j < length before)%nat).
      - rewrite lookup_app_l in Hj |- * by done. eauto.
      - rewrite lookup_app_r in Hj |- * by lia.
        destruct (j - length before)%nat as [|k] eqn:Hk; simpl in *.
        + injection Hj as <-. exists row. split; [done|].
          apply elem_of_app in Hz as [Hz|Hz%list_elem_of_singleton]; [by left|].
          right. split; [lia|done].
        + eauto. }
    assert (Hearlier : exists earlier0, (before ++ row :: after) !! i = Some earlier0
              /\ forall y, y ∈ earlier0 -> y ∈ earlier).
    { destruct (decide (i < length before)%nat).
      - rewrite lookup_app_l in Hi |- * by done. eauto.
      - rewrite lookup_app_r in Hi |- * by lia.
        destruct (i - length before)%nat as [|k] eqn:Hk; simpl in *.
        + injection Hi as <-. exists row. split; [done|].
          intros y Hy. apply elem_of_app. by left.
        + eauto. }
    destruct Hlater as (later0 & Hj0 & [Hz0|[-> ->]]);
      destruct Hearlier as (earlier0 & Hi0 & Hsub).
    + destruct (Hg i j earlier0 later0 z Hij Hi0 Hj0 Hz0) as (y & Hy & Hov).
      exists y. split; [by apply Hsub|done].
    + rewrite lookup_app_l in Hi0 by done.
      rewrite Forall_forall in Hbefore.
      destruct (not_qualifies_overlaps x earlier0) as (y & Hy & Hov).
      { apply Hbefore. by eapply list_elem_of_lookup_2. }
      exists y. split; [by apply Hsub|done].
  - intros i j earlier later z Hij Hi Hj Hz.
    destruct (decide (j < length rows)%nat).
    + rewrite lookup_app_l in Hj by done.
      rewrite lookup_app_l in Hi by lia.
      exact (Hg i j earlier later z Hij Hi Hj Hz).
    + rewrite lookup_app_r in Hj by lia.
      destruct (j - length rows)%nat as [|k] eqn:Hk; simpl in Hj; [|done].
      injection Hj as <-. apply list_elem_of_singleton in Hz as ->.
      rewrite lookup_app_l in Hi by lia.
      rewrite Forall_forall in Hnone.
      apply not_qualifies_overlaps. apply Hnone. by eapply list_elem_of_lookup_2.
Qed.

Lemma foldl_firstFit_greedy (l : list A) (rows : list (list A)) :
  rowsGreedy rows -> rowsGreedy (foldl firstFit rows l).
Proof.
  revert rows. induction l as [|x l IH]; intros rows Hg; [done|].
  simpl. apply IH. by apply firstFit_greedy.
Qed.

Lemma pack_greedy (l : list A) : rowsGreedy (pack l).
Proof.
  unfold pack. rewrite packSorted_firstFit. apply foldl_firstFit_greedy.
  intros i j earlier later x _ Hi. done.
Qed.

Lemma rowChronological_snoc (row : list A) (x : A) :
  normalized x ->
  Forall (fun y => startDate y <= startDate x) row ->
  rowChronological row -> qualifies x row -> rowChronological (row ++ [x]).
Proof.
  intros Hn Hle Hrow Hq i j a b Hij Ha Hb.
  assert (Hi : (i < length row)%nat).
  { apply lookup_lt_Some in Hb. rewrite length_app in Hb. simpl in Hb. lia. }
  rewrite lookup_app_l in Ha by done.
  destruct (decide (j < length row)%nat).
  - rewrite lookup_app_l in Hb by done. exact (Hrow i j a b Hij Ha Hb).
  - rewrite lookup_app_r in Hb by lia.
    destruct (j - length row)%nat; simpl in Hb; [|done]. injection Hb as <-.
    apply list_elem_of_lookup_2 in Ha.
    rewrite Forall_forall in Hle. specialize (Hle a Ha).
    unfold qualifies in Hq. rewrite Forall_forall in Hq. specialize (Hq a Ha).
    unfold overlaps in Hq. unfold normalized in Hn. lia.
Qed.

Lemma firstFit_chronological (rows : list (list A)) (x : A) :
  normalized x ->
  Forall (fun y => startDate y <= startDate x) (concat rows) ->
  Forall rowChronological rows -> Forall rowChronological (firstFit rows x).
Proof.
  intros Hn Hle Hrows.
  destruct (firstFit_cases rows x)
    as [(before & row & after & -> & Hq & _ & ->)|[_ ->]].
  - apply Forall_app in Hrows as [Hb Ha]. apply Forall_cons in Ha as [Hr Ha].
    apply Forall_app. split; [done|]. apply Forall_cons. split; [|done].
    apply rowChronological_snoc; [done| |done|done].
    rewrite concat_app in Hle. apply Forall_app in Hle as [_ Hle].
    simpl in Hle. by apply Forall_app in Hle as [Hle _].
  - apply Forall_app. split; [done|]. apply Forall_cons. split; [|constructor].
    intros i j a b Hij Ha Hb. apply lookup_lt_Some in Hb. simpl in Hb. lia.
Qed.

Lemma foldl_firstFit_chronological (l : list A) (rows : list (list A)) :
  StronglySorted (fun a b => startDate a <= startDate b) l ->
  Forall normalized l ->
  Forall (fun y => Forall (fun x => startDate y <= startDate x) l) (concat rows) ->
  Forall rowChronological rows -> Forall rowChronological (foldl firstFit rows l).
Proof.
  intros Hs. revert rows.
  induction Hs as [|x l Hs IH Hx]; intros rows Hn Hle Hrows; simpl; [done|].
  apply Forall_cons in Hn as [Hnx Hn].
  apply IH; [done| |].
  - rewrite (firstFit_concat rows x). apply Forall_app. split.
    + eapply Forall_impl; [exact Hle|]. simpl. by intros y [_ ?]%Forall_cons.
    + by repeat constructor.
  - apply firstFit_chronological; [done| |done].
    eapply Forall_impl; [exact Hle|]. simpl. by intros y [? _]%Forall_cons.
Qed.

Lemma pack_chronological (l : list A) :
  Forall normalized l -> Forall rowChronological (pack l).
Proof.
  intros Hn. unfold pack. rewrite packSorted_firstFit.
  apply foldl_firstFit_chronological.
  - apply byStartDate_sorted.
  - by rewrite byStartDate_perm.
  - constructor.
  - constructor.
Qed.
End PackerOrderFacts.

(** ** The rows of the project timeline *)

Lemma widenByProjectRow_fold range rows :
  let range' := foldl widenByProjectRow range rows in
  range'.1 <= range.1
  /\ (forall row s, row ∈ rows -> rowStart row = Some s -> range'.1 <= s).
Proof.
  cbv zeta. revert range. induction rows as [|row rows IH]; intros range.
  - simpl. split; [lia|]. intros row s Hin. by apply elem_of_nil in Hin.
  - cbn [foldl]. destruct (IH (widenByProjectRow range row)) as [H1 H2].
    assert (Hw : (widenByProjectRow range row).1 <= range.1
                 /\ forall s, rowStart row = Some s ->
                      (widenByProjectRow range row).1 <= s).
    { destruct range as [mn mx]. cbn. destruct (rowStart row) as [s|].
      - destruct (Z.ltb_spec s mn); split; try lia; intros ? [= <-]; lia.
      - split; [lia|done]. }
    destruct Hw as [Hw1 Hw2]. split; [lia|].
    intros row' s [->|Hin]%elem_of_cons Hs.
    + specialize (Hw2 s Hs). lia.
    + by eapply H2.
Qed.

Lemma defaultProject_normalized range row : normalized (defaultProject range row).
Proof.
  unfold normalized, defaultProject, adjustProjectEndDate. cbn.
  destruct (Z.ltb_spec (default range.2 (rowDue row)) (default range.1 (rowStart row)));
    lia.
Qed.

(** X16: the project timeline keeps every data row of the "Projects"
    sheet: its projects are the rows with defaulted dates, sorted by start
    date; each has start <= end, and, when the start dates of the sheets
    lie before the latest date there is, none starts before the minimum of
    the range, nor does any customer. *)
Theorem allProjectsData_rows (today : Z) (customers : list Customer)
    (dataRowsProjects : list ProjectRow) :
  let range := projectsRange today customers dataRowsProjects in
  let projects := allProjectsData today customers dataRowsProjects in
  projects ≡ₚ defaultProject range <$> dataRowsProjects
  /\ length projects = length dataRowsProjects
  /\ StronglySorted (fun a b => startDate a <= startDate b) projects
  /\ Forall normalized projects
  /\ (Forall (fun c => customerStart c < latestDate) customers ->
      Forall (fun row => forall s, rowStart row = Some s -> s < latestDate)
        dataRowsProjects ->
      Forall (fun p => range.1 <= projectStart p) projects
      /\ Forall (fun c => range.1 <= customerStart c) customers).
Proof.
  cbv zeta. unfold allProjectsData. cbv zeta.
  set (range := projectsRange today customers dataRowsProjects).
  split_and!.
  - apply byStartDate_perm.
  - rewrite byStartDate_perm. apply length_fmap.
  - apply byStartDate_sorted.
  - rewrite byStartDate_perm. apply Forall_fmap, Forall_forall. intros row _.
    apply defaultProject_normalized.
  - intros Hcs Hrows.
    destruct (widenByCustomer_fold (latestDate, - latestDate) customers)
      as (Hc1 & _ & Hc2 & _).
    destruct (widenByProjectRow_fold
                (foldl widenByCustomer (latestDate, - latestDate) customers)
                dataRowsProjects) as (Hp1 & Hp2).
    cbn [fst] in Hc1.
    assert (Hrange : forall s, (exists row, row ∈ dataRowsProjects /\ rowStart row = Some s)
                               \/ (exists c, c ∈ customers /\ customerStart c = s) ->
                               range.1 <= s).
    { intros s Hs. subst range. unfold projectsRange. cbv zeta.
      set (r := foldl widenByProjectRow _ dataRowsProjects) in *.
      assert (Hr : r.1 <= s).
      { destruct Hs as [(row & Hin & Hs)|(c & Hin & <-)].
        - by eapply Hp2.
        - specialize (Hc2 c Hin). lia. }
      assert (Hlt : s < latestDate).
      { destruct Hs as [(row & Hin & Hs)|(c & Hin & <-)].
        - rewrite Forall_forall in Hrows. by eapply Hrows.
        - rewrite Forall_forall in Hcs. by apply Hcs. }
      destruct (Z.eqb_spec r.1 latestDate); [lia|done]. }
    split.
    + rewrite byStartDate_perm. apply Forall_fmap, Forall_forall. intros row Hin.
      cbn. destruct (rowStart row) as [s|] eqn:Hs; cbn; [|lia].
      apply Hrange. left. eauto.
    + apply Forall_forall. intros c Hin. apply Hrange. right. eauto.
Qed.

(** ** The weekly header blocks of the milestone variant *)

Lemma runEnd_step zone inBlock keys rounds endIdx next :
  keys !! S endIdx = Some next -> inBlock (getDay (dateOfKey zone next)) = true ->
  runEnd zone inBlock keys (S rounds) endIdx = runEnd zone inBlock keys rounds (S endIdx).
Proof. intros Hk Hb. cbn [runEnd]. by rewrite Hk, Hb. Qed.

Lemma runEnd_stop zone inBlock keys rounds endIdx next :
  keys !! S endIdx = Some next -> inBlock (getDay (dateOfKey zone next)) = false ->
  runEnd zone inBlock keys rounds endIdx = Some endIdx.
Proof. intros Hk Hb. destruct rounds; cbn [runEnd]; by rewrite Hk, Hb. Qed.

Lemma runEnd_end zone inBlock keys rounds endIdx :
  keys !! S endIdx = None -> runEnd zone inBlock keys rounds endIdx = Some endIdx.
Proof. intros Hk. destruct rounds; cbn [runEnd]; by rewrite Hk. Qed.

Lemma blockLoop_workday zone termOf dailyMap keys rounds i dateIso endIdx :
  keys !! i = Some dateIso -> isWorkDay (getDay (dateOfKey zone dateIso)) = true ->
  runEnd zone isWorkDay keys (length keys) i = Some endIdx ->
  blockLoop zone termOf dailyMap keys (S rounds) i
  = rest ← blockLoop zone termOf dailyMap keys rounds (S endIdx);
    Some (match blockColumns (mapGet dateIso dailyMap)
                  (keys !! endIdx ≫= fun k => mapGet k dailyMap) with
          | Some (s, n) =>
              let '(background, fontColor, bold) :=
                weekStyle (termOf (dateOfKey zone dateIso)) in
              [ mkHeaderBlock s n ((fun k => (dateIso, k)) <$> keys !! endIdx)
                  background fontColor bold ]
          | None => []
          end ++ rest).
Proof. intros Hk Hd Hr. cbn [blockLoop]. by rewrite Hk, Hd, Hr. Qed.

Lemma blockLoop_weekend zone termOf dailyMap keys rounds i dateIso endIdx :
  keys !! i = Some dateIso -> isWorkDay (getDay (dateOfKey zone dateIso)) = false ->
  isWeekendDay (getDay (dateOfKey zone dateIso)) = true ->
  runEnd zone isWeekendDay keys (length keys) i = Some endIdx ->
  blockLoop zone termOf dailyMap keys (S rounds) i
  = rest ← blockLoop zone termOf dailyMap keys rounds (S endIdx);
    Some (match blockColumns (mapGet dateIso dailyMap)
                  (keys !! endIdx ≫= fun k => mapGet k dailyMap) with
          | Some (s, n) => [ mkHeaderBlock s n None "#D3D3D3" "#000000" false ]
          | None => []
          end ++ rest).
Proof. intros Hk Hd Hw Hr. cbn [blockLoop]. by rewrite Hk, Hd, Hw, Hr. Qed.

Section WeekBlocks.
Variable termOf : Z -> option (string * string).
Variables (dailyMap : list (Z * Z)) (keys : list Z).
Variables (monday firstFixedColumnIndex : Z) (weeks : nat).
Hypothesis Hmonday : getDay monday = 1.
Hypothesis Hkeys : forall j : nat,
  keys !! j = if decide (j < 7 * weeks)%nat then Some (monday + Z.of_nat j) else None.
Hypothesis Hmap : forall j : nat, (j < 7 * weeks)%nat ->
  mapGet (monday + Z.of_nat j) dailyMap = Some (firstFixedColumnIndex + 1 + Z.of_nat j).

Lemma block_key (j : nat) :
  (j < 7 * weeks)%nat -> keys !! j = Some (monday + Z.of_nat j).
Proof. intros Hj. rewrite Hkeys. by rewrite decide_True. Qed.

Lemma block_day (j : nat) : getDay (monday + Z.of_nat j) = (1 + Z.of_nat j) mod 7.
Proof. by apply getDay_shift. Qed.

Lemma block_workday (k r : nat) :
  isWorkDay (getDay (monday + Z.of_nat (7 * k + r))) = (r mod 7 <? 5)%nat.
Proof.
  rewrite block_day. unfold isWorkDay.
  destruct (Nat.ltb_spec (r mod 7) 5) as [Hr|Hr].
  - apply andb_true_iff. split; apply Z.leb_le.
    all: pose proof (Nat.mod_upper_bound r 7 ltac:(lia));
      pose proof (Nat.div_mod_eq r 7); Z.div_mod_to_equations; lia.
  - apply andb_false_iff.
    pose proof (Nat.mod_upper_bound r 7 ltac:(lia)).
    pose proof (Nat.div_mod_eq r 7).
    destruct (decide (r mod 7 = 5)%nat).
    + right. apply Z.leb_gt. Z.div_mod_to_equations; lia.
    + left. apply Z.leb_gt. Z.div_mod_to_equations; lia.
Qed.

Lemma block_weekend (k r : nat) :
  isWeekendDay (getDay (monday + Z.of_nat (7 * k + r))) = negb (r mod 7 <? 5)%nat.
Proof.
  rewrite block_day. unfold isWeekendDay.
  pose proof (Nat.mod_upper_bound r 7 ltac:(lia)).
  pose proof (Nat.div_mod_eq r 7).
  destruct (Nat.ltb_spec (r mod 7) 5) as [Hr|Hr]; cbn [negb].
  - apply orb_false_iff. split; apply Z.eqb_neq; Z.div_mod_to_equations; lia.
  - apply orb_true_iff. destruct (decide (r mod 7 = 5)%nat).
    + left. apply Z.eqb_eq. Z.div_mod_to_equations; lia.
    + right. apply Z.eqb_eq. Z.div_mod_to_equations; lia.
Qed.

Lemma runEnd_workdays (k rounds : nat) :
  (k < weeks)%nat -> (4 <= rounds)%nat ->
  runEnd UTC isWorkDay keys rounds (7 * k) = Some (7 * k + 4)%nat.
Proof.
  intros Hk Hr. do 4 (destruct rounds as [|rounds]; [lia|]).
  rewrite (runEnd_step UTC _ _ _ _ (monday + Z.of_nat (7 * k + 1)));
    [|rewrite <- block_key by lia; f_equal; lia|by rewrite dateOfKey_UTC, block_workday].
  rewrite (runEnd_step UTC _ _ _ _ (monday + Z.of_nat (7 * k + 2)));
    [|rewrite <- block_key by lia; f_equal; lia|by rewrite dateOfKey_UTC, block_workday].
  rewrite (runEnd_step UTC _ _ _ _ (monday + Z.of_nat (7 * k + 3)));
    [|rewrite <- block_key by lia; f_equal; lia|by rewrite dateOfKey_UTC, block_workday].
  rewrite (runEnd_step UTC _ _ _ _ (monday + Z.of_nat (7 * k + 4)));
    [|rewrite <- block_key by lia; f_equal; lia|by rewrite dateOfKey_UTC, block_workday].
  rewrite (runEnd_stop UTC _ _ _ _ (monday + Z.of_nat (7 * k + 5)));
    [|rewrite <- block_key by lia; f_equal; lia|by rewrite dateOfKey_UTC, block_workday].
  f_equal. lia.
Qed.

Lemma runEnd_weekend (k rounds : nat) :
  (k < weeks)%nat -> (1 <= rounds)%nat ->
  runEnd UTC isWeekendDay keys rounds (7 * k + 5) = Some (7 * k + 6)%nat.
Proof.
  intros Hk Hr. destruct rounds as [|rounds]; [lia|].
  rewrite (runEnd_step UTC _ _ _ _ (monday + Z.of_nat (7 * k + 6)));
    [|rewrite <- block_key by lia; f_equal; lia|by rewrite dateOfKey_UTC, block_weekend].
  destruct (decide (S k < weeks)%nat).
  - rewrite (runEnd_stop UTC _ _ _ _ (monday + Z.of_nat (7 * S k + 0)));
      [|rewrite <- block_key by lia; f_equal; lia|by rewrite dateOfKey_UTC, block_weekend].
    f_equal. lia.
  - rewrite runEnd_end; [f_equal; lia|].
    rewrite Hkeys. rewrite decide_False by lia. done.
Qed.

Lemma blockLoop_weeks (n k rounds : nat) :
  (k + n = weeks)%nat -> (2 * n <= rounds)%nat -> length keys = (7 * weeks)%nat ->
  blockLoop UTC termOf dailyMap keys rounds (7 * k)
  = Some (flat_map (weekBlocks termOf monday firstFixedColumnIndex) (seq k n)).
Proof.
  revert k rounds. induction n as [|n IH]; intros k rounds Hk Hr Hlen.
  - destruct rounds; cbn [blockLoop]; rewrite Hkeys, decide_False by lia; done.
  - destruct rounds as [|rounds]; [lia|]. destruct rounds as [|rounds]; [lia|].
    rewrite (blockLoop_workday UTC _ _ _ _ _ (monday + Z.of_nat (7 * k + 0)) (7 * k + 4));
      [|rewrite <- block_key by lia; f_equal; lia
       |by rewrite dateOfKey_UTC, block_workday
       |rewrite Hlen; apply runEnd_workdays; lia].
    replace (S (7 * k + 4)) with (7 * k + 5)%nat by lia.
    rewrite (blockLoop_weekend UTC _ _ _ _ _ (monday + Z.of_nat (7 * k + 5)) (7 * k + 6));
      [|apply block_key; lia
       |by rewrite dateOfKey_UTC, block_workday
       |by rewrite dateOfKey_UTC, block_weekend
       |rewrite Hlen; apply runEnd_weekend; lia].
    replace (S (7 * k + 6)) with (7 * S k)%nat by lia.
    rewrite (IH (S k) rounds) by lia. cbn [mbind option_bind seq flat_map].
    rewrite !Hmap by lia.
    rewrite (block_key (7 * k + 4)), (block_key (7 * k + 6)) by lia.
    cbn [mbind option_bind fmap option_fmap option_map].
    rewrite !Hmap by lia. unfold blockColumns.
    replace (firstFixedColumnIndex + 1 + Z.of_nat (7 * k + 4)
             - (firstFixedColumnIndex + 1 + Z.of_nat (7 * k + 0)) + 1) with 5 by lia.
    replace (firstFixedColumnIndex + 1 + Z.of_nat (7 * k + 6)
             - (firstFixedColumnIndex + 1 + Z.of_nat (7 * k + 5)) + 1) with 2 by lia.
    change (5 >? 0) with true. change (2 >? 0) with true. cbv iota.
    f_equal. unfold weekBlocks at 2. cbv zeta. rewrite dateOfKey_UTC.
    replace (monday + Z.of_nat (7 * k + 0)) with (monday + 7 * Z.of_nat k) by lia.
    destruct (weekStyle (termOf (monday + 7 * Z.of_nat k))) as [[background fontColor] bold].
    cbn [app].
    replace (Z.of_nat (7 * k + 0)) with (7 * Z.of_nat k) by lia.
    replace (monday + Z.of_nat (7 * k + 4)) with (monday + 7 * Z.of_nat k + 4) by lia.
    replace (firstFixedColumnIndex + 1 + Z.of_nat (7 * k + 5))
      with (firstFixedColumnIndex + 1 + 7 * Z.of_nat k + 5) by lia.
    reflexivity.
Qed.
End WeekBlocks.

(** X17: in the milestone variant, in the zone UTC, for a range of dates
    (min <= max, years not read as 19yy) whose walk stays within the years
    0000 to 9999, the weekly header row consists, for every week of the
    walk in order, of a block over the five columns from Monday to Friday,
    with a text formatted from these two days and the formatting of the
    term of the Monday, followed by a grey block without text over the two
    columns of the weekend; the loop ends within as many rounds as there
    are days. *)
Theorem weekly_blocks_by_week termOf minOverallDate maxOverallDate firstFixedColumnIndex :
  minOverallDate <= maxOverallDate ->
  ~ (0 <= getFullYear minOverallDate <= 99) ->
  ~ (0 <= getFullYear maxOverallDate <= 99) ->
  0 <= getFullYear (getStartOfWeek minOverallDate) ->
  getFullYear (getEndOfWeek FullWeek maxOverallDate) <= 9999 ->
  let monday := getStartOfWeek minOverallDate in
  let weeks := Z.to_nat ((getStartOfWeek maxOverallDate - monday) / 7 + 1) in
  weeklyHeaderBlocks UTC termOf minOverallDate maxOverallDate firstFixedColumnIndex
  = Some (flat_map (weekBlocks termOf monday firstFixedColumnIndex) (seq 0 weeks)).
Proof.
  intros Hle Hmin Hmax Hfirst9 Hlast9. cbv zeta.
  destruct (chart_weeks FullWeek _ _ Hle Hmin Hmax) as (Hmon & Hweeks & _ & Hdays).
  cbv zeta in Hdays.
  destruct (generateTimelineHeaders_run FullWeek termOf minOverallDate maxOverallDate
              firstFixedColumnIndex Hfirst9 Hlast9) as (info & Hinfo & Hmap & Hkeys & _).
  cbv zeta in Hmap, Hkeys.
  unfold weeklyHeaderBlocks. rewrite Hinfo. cbn [mbind option_bind].
  rewrite Hmap, Hkeys, Hdays. clear Hinfo Hmap Hkeys Hdays info Hfirst9 Hlast9.
  generalize dependent (Z.to_nat ((getStartOfWeek maxOverallDate
                                   - getStartOfWeek minOverallDate) / 7 + 1)).
  generalize dependent (getStartOfWeek minOverallDate).
  intros monday Hmon weeks Hweeks.
  rewrite indexedDays_FullWeek.
  replace (monday + 7 * Z.of_nat weeks - 1 - monday + 1) with (Z.of_nat (7 * weeks)) by lia.
  assert (Hlen : length (seqZ monday (Z.of_nat (7 * weeks))) = (7 * weeks)%nat).
  { rewrite length_seqZ. lia. }
  assert (Hkeys : forall j : nat,
            seqZ monday (Z.of_nat (7 * weeks)) !! j
            = if decide (j < 7 * weeks)%nat then Some (monday + Z.of_nat j) else None).
  { intros j. destruct (decide (j < 7 * weeks)%nat).
    - apply lookup_seqZ. lia.
    - apply lookup_ge_None. rewrite Hlen. lia. }
  rewrite Hlen.
  assert (Hmap : forall j : nat, (j < 7 * weeks)%nat ->
            mapGet (monday + Z.of_nat j)
              (columnsFrom (firstFixedColumnIndex + 1)
                 (seqZ monday (Z.of_nat (7 * weeks))))
            = Some (firstFixedColumnIndex + 1 + Z.of_nat j)).
  { intros j Hj. apply mapGet_columnsFrom; [apply NoDup_seqZ|].
    by rewrite Hkeys, decide_True. }
  pose proof (blockLoop_weeks termOf _ _ monday firstFixedColumnIndex weeks
                Hmon Hkeys Hmap weeks 0 (7 * weeks) ltac:(lia) ltac:(lia) Hlen) as Hloop.
  rewrite Nat.mul_0_r in Hloop. exact Hloop.
Qed.

Lemma weekly_blocks_by_week_witness :
  weeklyHeaderBlocks UTC (termOfCatalog TERMS_DATA) (ymd 2024 10 29) (ymd 2024 11 5) 1
  = Some (flat_map
            (weekBlocks (termOfCatalog TERMS_DATA) (getStartOfWeek (ymd 2024 10 29)) 1)
            (seq 0 (Z.to_nat ((getStartOfWeek (ymd 2024 11 5)
                               - getStartOfWeek (ymd 2024 10 29)) / 7 + 1)))).
Proof.
  refine (weekly_blocks_by_week (termOfCatalog TERMS_DATA)
            (ymd 2024 10 29) (ymd 2024 11 5) 1 _ _ _ _ _).
  - vm_compute. discriminate.
  - intros [_ Hc]. vm_compute in Hc. congruence.
  - intros [_ Hc]. vm_compute in Hc. congruence.
  - vm_compute. discriminate.
  - vm_compute. discriminate.
Defined.

(** ** Outside the zone UTC and the years 0000 to 9999

    The properties of the date axis above are stated for the zone UTC and
    for walks within the years 0000 to 9999.  Elsewhere the keys do not
    denote the days of the walk, as the following runs show. *)

(** In the year 10000 the keys hold the month only: the five work days
    from 10000-01-03 to 10000-01-07 share one key, which the last of them
    leaves at column 6. *)
Example keys_of_the_year_10000 :
  (fun info => (hiDailyDateToSheetColMap info, totalDataColumns info))
    <$> generateTimelineHeaders UTC WorkWeek termOfMonthRule
          (ymd 10000 1 5) (ymd 10000 1 5) 1
  = Some ([(ymd 10000 1 1, 6)], 5).
Proof. vm_compute. done. Qed.

(** One hour east of UTC the key of a day is the date of the day before.
    On Thursday 2025-01-09 at ten in the morning the key of the current
    time is the key of the Friday: the columns of Monday to Thursday are
    hidden, that of today among them.  In the zone UTC those of Monday to
    Wednesday are. *)
Example east_of_UTC_today_is_hidden :
  toISODate 60 (ymd 2025 1 10) = ymd 2025 1 9
  /\ hiddenColumns 60 WorkWeek termOfMonthRule (ymd 2025 1 6) (ymd 2025 1 10) 1
       (timeValue 60 (ymd 2025 1 9) + 10 * 3600000)
     = Some (Some (2, 4))
  /\ hiddenColumns UTC WorkWeek termOfMonthRule (ymd 2025 1 6) (ymd 2025 1 10) 1
       (timeValue UTC (ymd 2025 1 9) + 10 * 3600000)
     = Some (Some (2, 3)).
Proof. vm_compute. done. Qed.

(** Eight hours west of UTC [new Date(key)] falls on the evening of the
    day before.  The column of Thursday 2025-05-01 is labelled with the
    term of April, and the blocks of the milestone variant begin with the
    column of the Monday as a weekend block of its own. *)
Example west_of_UTC_headers_are_shifted :
  dateOfKey (-480) (toISODate (-480) (ymd 2025 5 1)) = ymd 2025 4 30
  /\ (fun info => concat (rangeCells <$> hiTermMergeRanges info))
       <$> generateTimelineHeaders (-480) WorkWeek termOfMonthRule
             (ymd 2025 4 28) (ymd 2025 5 2) 1
     = Some [(2, "T1 2025"); (3, "T1 2025"); (4, "T1 2025"); (5, "T1 2025");
             (6, "T2 2025")]
  /\ (fun info => concat (rangeCells <$> hiTermMergeRanges info))
       <$> generateTimelineHeaders UTC WorkWeek termOfMonthRule
             (ymd 2025 4 28) (ymd 2025 5 2) 1
     = Some [(2, "T1 2025"); (3, "T1 2025"); (4, "T1 2025"); (5, "T2 2025");
             (6, "T2 2025")]
  /\ (fun blocks : list HeaderBlock =>
        (fun block => (hbStartCol block, hbNumCols block)) <$> blocks)
       <$> weeklyHeaderBlocks (-480) (termOfCatalog TERMS_DATA)
             (ymd 2024 10 29) (ymd 2024 11 5) 1
     = Some [(2, 1); (3, 5); (8, 2); (10, 5); (15, 1)]
  /\ (fun blocks : list HeaderBlock =>
        (fun block => (hbStartCol block, hbNumCols block)) <$> blocks)
       <$> weeklyHeaderBlocks UTC (termOfCatalog TERMS_DATA)
             (ymd 2024 10 29) (ymd 2024 11 5) 1
     = Some [(2, 5); (7, 2); (9, 5); (14, 2)].
Proof. vm_compute. done. Qed.

(** ** The rows of people in Code.js *)

Lemma keeps_refl h : keeps h h.
Proof. by intros r _. Qed.

Lemma keeps_trans h1 h2 h3 : keeps h1 h2 -> keeps h2 h3 -> keeps h1 h3.
Proof.
  intros H12 H23 r Hr. rewrite H23; [by apply H12|]. rewrite H12; done.
Qed.

Lemma keeps_timeOf h h' r : keeps h h' -> is_Some (h !! r) -> timeOf h' r = timeOf h r.
Proof. intros Hk Hr. unfold timeOf. by rewrite Hk. Qed.

Lemma keeps_insert_new h r v : h !! r = None -> keeps h (<[ r := v ]> h).
Proof.
  intros Hr r' [w Hw]. rewrite lookup_insert_ne; [done|]. intros ->. congruence.
Qed.

Lemma fresh_unallocated (h : gmap nat Z) : h !! fresh (dom h) = None.
Proof. apply not_elem_of_dom. apply is_fresh. Qed.

Lemma newDateOfCell_spec cell h o h' :
  newDateOfCell cell h = (o, h') ->
  keeps h h'
  /\ match cell, o with
     | Some v, Some r => h !! r = None /\ h' = <[ r := v ]> h
     | None, None => h' = h
     | _, _ => False
     end.
Proof.
  destruct cell as [v|]; cbn; intros [= <- <-].
  - split; [apply keeps_insert_new, fresh_unallocated|].
    split; [apply fresh_unallocated|done].
  - split; [apply keeps_refl|done].
Qed.

(** The adjustment of an end date that no earlier object shares. *)
Lemma adjust_own_end (h h2 : gmap nat Z) (s e : nat) :
  keeps h h2 -> is_Some (h2 !! s) -> is_Some (h2 !! e) ->
  (timeOf h2 e < timeOf h2 s -> h !! e = None /\ s <> e) ->
  let h3 := if timeOf h2 e <? timeOf h2 s
            then <[ e := setDate (timeOf h2 e) (getDate (timeOf h2 s)) ]> h2
            else h2 in
  keeps h h3
  /\ is_Some (h3 !! s) /\ is_Some (h3 !! e)
  /\ timeOf h3 s = timeOf h2 s
  /\ timeOf h3 e = adjustEndDate (timeOf h2 s) (timeOf h2 e).
Proof.
  intros Hk Hs He Hown. cbv zeta. unfold adjustEndDate.
  destruct (Z.ltb_spec (timeOf h2 e) (timeOf h2 s)) as [Hlt|Hge].
  - destruct (Hown Hlt) as [Hnew Hne]. split_and!.
    + intros r Hr. rewrite lookup_insert_ne; [by apply Hk|].
      intros <-. destruct Hr as [? Hr]. congruence.
    + by rewrite lookup_insert_ne.
    + rewrite lookup_insert_eq. eauto.
    + unfold timeOf at 1. by rewrite lookup_insert_ne.
    + unfold timeOf at 1. by rewrite lookup_insert_eq.
  - done.
Qed.

Lemma projectDetailOf_allocated (h0 : gmap nat Z)
    (projectDetailsMap : gmap string ProjectDetail) key r :
  (forall k pd r, projectDetailsMap !! k = Some pd ->
     pdProjectStartDate pd = Some r \/ pdProjectEndDate pd = Some r ->
     is_Some (h0 !! r)) ->
  pdProjectStartDate (projectDetailOf projectDetailsMap key) = Some r
  \/ pdProjectEndDate (projectDetailOf projectDetailsMap key) = Some r ->
  is_Some (h0 !! r).
Proof.
  intros Hall. unfold projectDetailOf.
  destruct (projectDetailsMap !! key) as [pd|] eqn:Hpd; cbn.
  - by apply (Hall key pd r).
  - intros [?|?]; done.
Qed.

(** The round from the two references on. *)
Lemma peopleRound_push (h : gmap nat Z) (st : People) (h2 : gmap nat Z) (s e : nat)
    person key pd :
  peDates st = h ->
  keeps h h2 -> is_Some (h !! peMin st) -> is_Some (h !! peMax st) ->
  is_Some (h2 !! s) -> is_Some (h2 !! e) ->
  (timeOf h2 e < timeOf h2 s -> h !! e = None /\ s <> e) ->
  let h3 := if timeOf h2 e <? timeOf h2 s
            then <[ e := setDate (timeOf h2 e) (getDate (timeOf h2 s)) ]> h2
            else h2 in
  let st' :=
    {| peDates := h3;
       peMin := if timeOf h3 s <? timeOf h3 (peMin st) then s else peMin st;
       peMax := if timeOf h3 e >? timeOf h3 (peMax st) then e else peMax st;
       peProjectsByPerson :=
         <[ person := default [] (peProjectsByPerson st !! person)
                      ++ [ mkAssigned key (pdSummary pd) (pdEpicName pd) s e
                             (pdStatus pd) ] ]>
           (peProjectsByPerson st) |} in
  let x := mkProject key (pdSummary pd) (pdEpicName pd) (timeOf h2 s)
             (adjustEndDate (timeOf h2 s) (timeOf h2 e)) (pdStatus pd) in
  keeps h (peDates st')
  /\ is_Some (peDates st' !! peMin st') /\ is_Some (peDates st' !! peMax st')
  /\ projectOf (peDates st')
       (mkAssigned key (pdSummary pd) (pdEpicName pd) s e (pdStatus pd)) = x
  /\ is_Some (peDates st' !! s) /\ is_Some (peDates st' !! e)
  /\ timeOf (peDates st') (peMin st') = Z.min (projectStart x) (timeOf h (peMin st))
  /\ timeOf (peDates st') (peMax st') = Z.max (projectEnd x) (timeOf h (peMax st)).
Proof.
  intros Hh Hk Hmin Hmax Hs He Hown. cbv zeta.
  destruct (adjust_own_end h h2 s e Hk Hs He Hown) as (Hk3 & Hs3 & He3 & Hts & Hte).
  cbv zeta in Hk3, Hs3, He3, Hts, Hte.
  set (h3 := if timeOf h2 e <? timeOf h2 s
             then <[ e := setDate (timeOf h2 e) (getDate (timeOf h2 s)) ]> h2
             else h2) in *.
  cbn [peDates peMin peMax peProjectsByPerson projectStart projectEnd].
  pose proof (keeps_timeOf h h3 _ Hk3 Hmin) as Htmin.
  pose proof (keeps_timeOf h h3 _ Hk3 Hmax) as Htmax.
  assert (Hmin3 : is_Some (h3 !! peMin st)) by (rewrite Hk3; done).
  assert (Hmax3 : is_Some (h3 !! peMax st)) by (rewrite Hk3; done).
  split_and!.
  - exact Hk3.
  - by destruct (timeOf h3 s <? timeOf h3 (peMin st)).
  - by destruct (timeOf h3 e >? timeOf h3 (peMax st)).
  - unfold projectOf. cbn. by rewrite Hts, Hte.
  - exact Hs3.
  - exact He3.
  - rewrite Htmin, Hts. destruct (Z.ltb_spec (timeOf h2 s) (timeOf h (peMin st))); lia.
  - rewrite Htmax, Hte.
    destruct (Z.gtb_spec (adjustEndDate (timeOf h2 s) (timeOf h2 e)) (timeOf h (peMax st)));
      lia.
Qed.

Lemma peopleRound_spec (h0 : gmap nat Z) (projectDetailsMap : gmap string ProjectDetail)
    (st : People) (row : PeopleRow) :
  keeps h0 (peDates st) ->
  (forall k pd r, projectDetailsMap !! k = Some pd ->
     pdProjectStartDate pd = Some r \/ pdProjectEndDate pd = Some r ->
     is_Some (h0 !! r)) ->
  is_Some (peDates st !! peMin st) -> is_Some (peDates st !! peMax st) ->
  dueDatesHold h0 projectDetailsMap [row] ->
  roundResult h0 projectDetailsMap st (peopleRound projectDetailsMap st row) row.
Proof.
  intros Hk0 Hall Hmin Hmax Hdue.
  unfold dueDatesHold in Hdue. rewrite Forall_singleton in Hdue.
  set (pd := projectDetailOf projectDetailsMap (prProject row)) in *.
  assert (Hpd : forall r, pdProjectStartDate pd = Some r \/ pdProjectEndDate pd = Some r ->
                  is_Some (h0 !! r))
    by (intros r; apply projectDetailOf_allocated, Hall).
  set (h := peDates st) in *.
  assert (Hshared : forall h2 r, keeps h h2 ->
            pdProjectStartDate pd = Some r \/ pdProjectEndDate pd = Some r ->
            is_Some (h !! r) /\ is_Some (h2 !! r) /\ timeOf h2 r = timeOf h0 r).
  { intros h2 r Hk2 Hr. pose proof (Hpd r Hr) as H0.
    assert (Hh : is_Some (h !! r)) by (rewrite Hk0; done).
    split_and!; [done|by rewrite Hk2|].
    rewrite (keeps_timeOf h h2 r Hk2 Hh). by apply keeps_timeOf. }
  unfold roundResult, peopleRound, assignmentOfPeopleRow. cbv zeta.
  fold pd. fold h.
  destruct (newDateOfCell (prStart row) h) as [so h1] eqn:Hn1.
  destruct (newDateOfCell_spec _ _ _ _ Hn1) as [Hk1 Hs1]. clear Hn1.
  destruct (newDateOfCell (prEnd row) h1) as [eo h2] eqn:Hn2.
  destruct (newDateOfCell_spec _ _ _ _ Hn2) as [Hk2 Hs2]. clear Hn2.
  pose proof (keeps_trans _ _ _ Hk1 Hk2) as Hk12.
  destruct (prStart row) as [v|] eqn:Hstart, so as [r1|]; try done;
    destruct (prEnd row) as [w|] eqn:Hend, eo as [r2|]; try done;
    cbn [dateOrElse mbind option_bind fmap option_fmap option_map].
  - (* both dates of the row *)
    destruct Hs1 as [Hr1 ->], Hs2 as [Hr2 ->].
    assert (Hne : r1 <> r2) by (intros ->; by rewrite lookup_insert_eq in Hr2).
    assert (Hv : timeOf (<[r2:=w]> (<[r1:=v]> h)) r1 = v).
    { unfold timeOf. rewrite lookup_insert_ne by done. by rewrite lookup_insert_eq. }
    assert (Hw : timeOf (<[r2:=w]> (<[r1:=v]> h)) r2 = w).
    { unfold timeOf. by rewrite lookup_insert_eq. }
    edestruct (peopleRound_push h st (<[r2:=w]> (<[r1:=v]> h)) r1 r2
                 (prPerson row) (prProject row) pd eq_refl Hk12 Hmin Hmax)
      as (H1 & H2 & H3 & H4 & H5 & H6 & H7 & H8).
    { rewrite lookup_insert_ne by done. rewrite lookup_insert_eq. eauto. }
    { rewrite lookup_insert_eq. eauto. }
    { intros _. split; [|done]. rewrite lookup_insert_ne in Hr2 by done. done. }
    cbv zeta in H1, H2, H3, H4, H5, H6, H7, H8. rewrite Hv, Hw in *.
    split_and!; [exact H1|exact H2|exact H3|]. eexists. split; [reflexivity|].
    split_and!; [exact H4|exact H5|exact H6|exact H7|exact H8].
  - (* the end date of the project *)
    destruct Hs1 as [Hr1 ->]. subst h2.
    destruct (pdProjectEndDate pd) as [e|] eqn:He; cbn.
    + destruct (Hshared (<[r1:=v]> h) e Hk1 (or_intror eq_refl)) as (Heh & Heh1 & Hte).
      assert (Hne : r1 <> e) by (intros ->; destruct Heh; congruence).
      assert (Hv : timeOf (<[r1:=v]> h) r1 = v).
      { unfold timeOf. by rewrite lookup_insert_eq. }
      specialize (Hdue eq_refl v e eq_refl eq_refl).
      edestruct (peopleRound_push h st (<[r1:=v]> h) r1 e
                   (prPerson row) (prProject row) pd eq_refl Hk1 Hmin Hmax)
        as (H1 & H2 & H3 & H4 & H5 & H6 & H7 & H8).
      { rewrite lookup_insert_eq. eauto. }
      { exact Heh1. }
      { rewrite Hv, Hte. lia. }
      cbv zeta in H1, H2, H3, H4, H5, H6, H7, H8. rewrite Hv, Hte in *.
      split_and!; [exact H1|exact H2|exact H3|]. eexists. split; [reflexivity|].
      split_and!; [exact H4|exact H5|exact H6|exact H7|exact H8].
    + cbn [peDates peMin peMax peProjectsByPerson].
      split_and!; [exact Hk1|by rewrite Hk1|by rewrite Hk1|done|done|done].
  - (* the start date of the project *)
    subst h1. destruct Hs2 as [Hr2 ->].
    destruct (pdProjectStartDate pd) as [s|] eqn:Hs; cbn.
    + destruct (Hshared (<[r2:=w]> h) s Hk2 (or_introl eq_refl)) as (Hsh & Hsh2 & Hts).
      assert (Hne : s <> r2) by (intros ->; destruct Hsh; congruence).
      assert (Hw : timeOf (<[r2:=w]> h) r2 = w).
      { unfold timeOf. by rewrite lookup_insert_eq. }
      edestruct (peopleRound_push h st (<[r2:=w]> h) s r2
                   (prPerson row) (prProject row) pd eq_refl Hk2 Hmin Hmax)
        as (H1 & H2 & H3 & H4 & H5 & H6 & H7 & H8).
      { exact Hsh2. }
      { rewrite lookup_insert_eq. eauto. }
      { intros _. done. }
      cbv zeta in H1, H2, H3, H4, H5, H6, H7, H8. rewrite Hw, Hts in *.
      split_and!; [exact H1|exact H2|exact H3|]. eexists. split; [reflexivity|].
      split_and!; [exact H4|exact H5|exact H6|exact H7|exact H8].
    + cbn [peDates peMin peMax peProjectsByPerson].
      split_and!; [exact Hk2|by rewrite Hk2|by rewrite Hk2|done|done|done].
  - (* both dates of the project *)
    subst h1 h2.
    destruct (pdProjectStartDate pd) as [s|] eqn:Hs; cbn.
    + destruct (pdProjectEndDate pd) as [e|] eqn:He; cbn.
      * destruct (Hshared h s (keeps_refl h) (or_introl eq_refl)) as (Hsh & _ & Hts).
        destruct (Hshared h e (keeps_refl h) (or_intror eq_refl)) as (Heh & _ & Hte).
        specialize (Hdue eq_refl (timeOf h0 s) e eq_refl eq_refl).
        edestruct (peopleRound_push h st h s e
                     (prPerson row) (prProject row) pd eq_refl (keeps_refl h) Hmin Hmax)
          as (H1 & H2 & H3 & H4 & H5 & H6 & H7 & H8).
        { exact Hsh. }
        { exact Heh. }
        { rewrite Hts, Hte. lia. }
        cbv zeta in H1, H2, H3, H4, H5, H6, H7, H8. rewrite Hts, Hte in *.
        split_and!; [exact H1|exact H2|exact H3|]. eexists. split; [reflexivity|].
        split_and!; [exact H4|exact H5|exact H6|exact H7|exact H8].
      * cbn [peDates peMin peMax peProjectsByPerson].
        split_and!; [apply keeps_refl|done|done|done|done|done].
    + cbn [peDates peMin peMax peProjectsByPerson].
      destruct (pdProjectEndDate pd);
        split_and!; [apply keeps_refl|done|done|done|done|done
                    |apply keeps_refl|done|done|done|done|done].
Qed.

Lemma projectOf_keeps h h' a :
  keeps h h' -> is_Some (h !! asStartRef a) -> is_Some (h !! asEndRef a) ->
  projectOf h' a = projectOf h a.
Proof.
  intros Hk Hs He. unfold projectOf.
  by rewrite (keeps_timeOf h h' _ Hk Hs), (keeps_timeOf h h' _ Hk He).
Qed.

(** X18: in Code.js, when the references of the map of the projects and of
    the range hold objects and no row that takes the due date of its
    project starts after it, the loop over the rows of people changes no
    object that was there before; it keeps the rows that have a start and
    an end date, their own or the one of their project, and groups them by
    person in sheet order, each with the summary, epic and status of its
    project, its start date, and its end date adjusted as for a customer;
    the range holds every kept assignment and has not shrunk. *)
Theorem people_rows_take_project_dates (h0 : gmap nat Z) (projectDetailsMap : gmap string ProjectDetail)
    (st0 : People) (dataRowsPeople : list PeopleRow) :
  allocated h0 projectDetailsMap st0 ->
  dueDatesHold h0 projectDetailsMap dataRowsPeople ->
  let st := peopleLoop projectDetailsMap st0 dataRowsPeople in
  let h := peDates st in
  keeps h0 h
  /\ (forall person,
        projectOf h <$> default [] (peProjectsByPerson st !! person)
        = omap (assignmentOfPeopleRow h0 projectDetailsMap)
            (filter (fun row => prPerson row = person) dataRowsPeople))
  /\ (forall x, x ∈ omap (assignmentOfPeopleRow h0 projectDetailsMap) dataRowsPeople ->
        timeOf h (peMin st) <= projectStart x /\ projectEnd x <= timeOf h (peMax st))
  /\ timeOf h (peMin st) <= timeOf h0 (peMin st0)
  /\ timeOf h0 (peMax st0) <= timeOf h (peMax st).
Proof.
  intros (Hh0 & Hempty & Hmin0 & Hmax0 & Hall) Hdue. cbv zeta. unfold peopleLoop.
  enough (Hinv :
    let st := foldl (peopleRound projectDetailsMap) st0 dataRowsPeople in
    let h := peDates st in
    (keeps h0 h /\ is_Some (h !! peMin st) /\ is_Some (h !! peMax st)
     /\ (forall person a, a ∈ default [] (peProjectsByPerson st !! person) ->
           is_Some (h !! asStartRef a) /\ is_Some (h !! asEndRef a)))
    /\ (forall person,
          projectOf h <$> default [] (peProjectsByPerson st !! person)
          = omap (assignmentOfPeopleRow h0 projectDetailsMap)
              (filter (fun row => prPerson row = person) dataRowsPeople))
    /\ (forall x, x ∈ omap (assignmentOfPeopleRow h0 projectDetailsMap) dataRowsPeople ->
          timeOf h (peMin st) <= projectStart x /\ projectEnd x <= timeOf h (peMax st))
    /\ timeOf h (peMin st) <= timeOf h0 (peMin st0)
    /\ timeOf h0 (peMax st0) <= timeOf h (peMax st)).
  { cbv zeta in Hinv. destruct Hinv as ((Hk & _) & Hrest). split; [exact Hk|exact Hrest]. }
  cbv zeta.
  induction dataRowsPeople as [|row rows IH] using rev_ind.
  - cbn [foldl]. rewrite Hh0, Hempty. split_and!.
    + apply keeps_refl.
    + exact Hmin0.
    + exact Hmax0.
    + intros person a. rewrite lookup_empty. cbn. by intros ?%elem_of_nil.
    + intros person. by rewrite lookup_empty.
    + intros x ?%elem_of_nil. done.
    + lia.
    + lia.
  - unfold dueDatesHold in Hdue. apply Forall_app in Hdue as [Hdue Hrow].
    destruct (IH Hdue) as ((Hk & Hmin & Hmax & Hrefs) & Hgroup & Hbounds & Hlo & Hhi).
    clear IH. rewrite foldl_snoc.
    set (st := foldl (peopleRound projectDetailsMap) st0 rows) in *.
    destruct (peopleRound_spec h0 projectDetailsMap st row Hk Hall Hmin Hmax Hrow)
      as (Hk' & Hmin' & Hmax' & Hres).
    set (st' := peopleRound projectDetailsMap st row) in *.
    assert (Hold : forall person a, a ∈ default [] (peProjectsByPerson st !! person) ->
              projectOf (peDates st') a = projectOf (peDates st) a
              /\ is_Some (peDates st' !! asStartRef a)
              /\ is_Some (peDates st' !! asEndRef a)).
    { intros person a Ha. destruct (Hrefs person a Ha) as [Hs He].
      split_and!; [by apply projectOf_keeps|by rewrite Hk'|by rewrite Hk']. }
    assert (Hmap : forall person,
              projectOf (peDates st') <$> default [] (peProjectsByPerson st !! person)
              = projectOf (peDates st) <$> default [] (peProjectsByPerson st !! person)).
    { intros person. apply list_fmap_ext. intros i a Ha.
      apply list_elem_of_lookup_2 in Ha. by apply (Hold person). }
    rewrite omap_app.
    replace (omap (assignmentOfPeopleRow h0 projectDetailsMap) [row])
      with (option_list (assignmentOfPeopleRow h0 projectDetailsMap row))
      by (cbn; by destruct (assignmentOfPeopleRow h0 projectDetailsMap row)).
    assert (Hfilter : forall person,
              omap (assignmentOfPeopleRow h0 projectDetailsMap)
                (filter (fun row => prPerson row = person) (rows ++ [row]))
              = omap (assignmentOfPeopleRow h0 projectDetailsMap)
                  (filter (fun row => prPerson row = person) rows)
                ++ (if decide (prPerson row = person)
                    then option_list (assignmentOfPeopleRow h0 projectDetailsMap row)
                    else [])).
    { intros person. rewrite filter_app, omap_app. f_equal.
      rewrite filter_cons, filter_nil. destruct (decide (prPerson row = person)); [|done].
      cbn. by destruct (assignmentOfPeopleRow h0 projectDetailsMap row). }
    destruct (assignmentOfPeopleRow h0 projectDetailsMap row) as [x|] eqn:Hx.
    + destruct Hres as (a & Hpush & Ha & Has & Hae & Htmin & Htmax).
      split_and!.
      * by eapply keeps_trans.
      * exact Hmin'.
      * exact Hmax'.
      * intros person b. rewrite Hpush.
        destruct (decide (prPerson row = person)) as [->|Hne].
        -- rewrite lookup_insert_eq. cbn.
           intros [Hb|Hb%list_elem_of_singleton]%elem_of_app.
           ++ destruct (Hold person b Hb) as (_ & ? & ?). done.
           ++ subst b. done.
        -- rewrite lookup_insert_ne by done. intros Hb.
           destruct (Hold person b Hb) as (_ & ? & ?). done.
      * intros person. rewrite Hfilter, Hpush. cbn [option_list].
        destruct (decide (prPerson row = person)) as [->|Hne].
        -- rewrite lookup_insert_eq. cbn [default id]. rewrite fmap_app, Hmap, Hgroup.
           cbn. by rewrite Ha.
        -- rewrite lookup_insert_ne by done. by rewrite Hmap, Hgroup, app_nil_r.
      * rewrite Htmin, Htmax. cbn [option_list].
        intros y [Hy|Hy%list_elem_of_singleton]%elem_of_app.
        -- specialize (Hbounds y Hy). lia.
        -- subst y. lia.
      * rewrite Htmin. lia.
      * rewrite Htmax. lia.
    + destruct Hres as (Hsame & Hmn & Hmx).
      assert (Htmin : timeOf (peDates st') (peMin st') = timeOf (peDates st) (peMin st)).
      { rewrite Hmn. by apply keeps_timeOf. }
      assert (Htmax : timeOf (peDates st') (peMax st') = timeOf (peDates st) (peMax st)).
      { rewrite Hmx. by apply keeps_timeOf. }
      cbn [option_list]. rewrite app_nil_r, Htmin, Htmax.
      split_and!.
      * by eapply keeps_trans.
      * exact Hmin'.
      * exact Hmax'.
      * intros person b. rewrite Hsame. intros Hb.
        destruct (Hold person b Hb) as (_ & ? & ?). done.
      * intros person. rewrite Hfilter, Hsame, Hmap, Hgroup.
        by destruct (decide _); rewrite app_nil_r.
      * exact Hbounds.
      * exact Hlo.
      * exact Hhi.
Qed.

Lemma people_rows_take_project_dates_witness :
  timeOf
    (peDates
       (peopleLoop {[ "K" := mkProjectDetail "Kay" None None (Some 2%nat) None ]}
          (mkPeople {[ 0%nat := latestDate; 1%nat := - latestDate;
                       2%nat := ymd 2025 3 30 ]} 0 1 ∅)
          [ mkPeopleRow "Alice" "K" (Some (ymd 2025 3 1)) None ]))
    (peMin
       (peopleLoop {[ "K" := mkProjectDetail "Kay" None None (Some 2%nat) None ]}
          (mkPeople {[ 0%nat := latestDate; 1%nat := - latestDate;
                       2%nat := ymd 2025 3 30 ]} 0 1 ∅)
          [ mkPeopleRow "Alice" "K" (Some (ymd 2025 3 1)) None ]))
  <= timeOf {[ 0%nat := latestDate; 1%nat := - latestDate; 2%nat := ymd 2025 3 30 ]}
       0%nat.
Proof.
  refine (proj1 (proj2 (proj2 (proj2
            (people_rows_take_project_dates
               {[ 0%nat := latestDate; 1%nat := - latestDate; 2%nat := ymd 2025 3 30 ]}
               {[ "K" := mkProjectDetail "Kay" None None (Some 2%nat) None ]}
               (mkPeople {[ 0%nat := latestDate; 1%nat := - latestDate;
                            2%nat := ymd 2025 3 30 ]} 0 1 ∅)
               [ mkPeopleRow "Alice" "K" (Some (ymd 2025 3 1)) None ] _ _))))).
  - split_and!; [reflexivity|reflexivity|by eexists|by eexists|].
    intros k pd r [<- <-]%lookup_singleton_Some [[=]|[= <-]]. by eexists.
  - repeat constructor. intros _ startDate due [= <-] [= <-]. vm_compute. discriminate.
Defined.

(** Without the condition the adjustment reaches the shared object: Alice
    works on K from 2025-03-01 and Bob from 2025-04-05, both without an end
    date, and K is due on 2025-03-30.  Bob's round sets the day of the month
    of the due date to 5; after the loop Alice's assignment ends on
    2025-03-05 as well, and so does the range, while Bob starts a month
    later. *)
Example shared_due_date_is_adjusted :
  let h0 : gmap nat Z :=
    {[ 0%nat := latestDate; 1%nat := - latestDate; 2%nat := ymd 2025 3 30 ]} in
  let projectDetailsMap : gmap string ProjectDetail :=
    {[ "K" := mkProjectDetail "Kay" None None (Some 2%nat) None ]} in
  let rows := [ mkPeopleRow "Alice" "K" (Some (ymd 2025 3 1)) None;
                mkPeopleRow "Bob" "K" (Some (ymd 2025 4 5)) None ] in
  let st := peopleLoop projectDetailsMap (mkPeople h0 0 1 ∅) rows in
  projectEnd <$> omap (assignmentOfPeopleRow h0 projectDetailsMap) (take 1 rows)
  = [ymd 2025 3 30]
  /\ (fun a => projectEnd (projectOf (peDates st) a))
       <$> default [] (peProjectsByPerson st !! "Alice")
     = [ymd 2025 3 5]
  /\ (fun a => projectStart (projectOf (peDates st) a))
       <$> default [] (peProjectsByPerson st !! "Bob")
     = [ymd 2025 4 5]
  /\ timeOf (peDates st) (peMax st) = ymd 2025 3 5.
Proof. vm_compute. done. Qed.

(** ** The map of the projects *)

Lemma detailOfRow_keeps h h' pd row :
  keeps h h' -> detailOfRow h pd row -> detailOfRow h' pd row.
Proof.
  intros Hk (H1 & H2 & H3 & H4 & H5). split_and!; [done|done|done| |].
  - destruct (pdProjectStartDate pd) as [r|], (rowStart row) as [v|];
      try done; cbn in *. injection H4 as H4. by rewrite Hk; [rewrite H4|rewrite H4].
  - destruct (pdProjectEndDate pd) as [r|], (rowDue row) as [v|];
      try done; cbn in *. injection H5 as H5. by rewrite Hk; [rewrite H5|rewrite H5].
Qed.

Lemma projectDetailRound_spec h m row :
  let res := projectDetailRound (h, m) row in
  keeps h res.1
  /\ (if decide (rowKey row = "") then res.2 = m
      else exists pd, res.2 = <[ rowKey row := pd ]> m /\ detailOfRow res.1 pd row).
Proof.
  cbv zeta. unfold projectDetailRound.
  destruct (newDateOfCell (rowStart row) h) as [so h1] eqn:Hn1.
  destruct (newDateOfCell_spec _ _ _ _ Hn1) as [Hk1 Hs1]. clear Hn1.
  destruct (newDateOfCell (rowDue row) h1) as [eo h2] eqn:Hn2.
  destruct (newDateOfCell_spec _ _ _ _ Hn2) as [Hk2 Hs2]. clear Hn2.
  pose proof (keeps_trans _ _ _ Hk1 Hk2) as Hk12.
  destruct (String.eqb_spec (rowKey row) "") as [Hkey|Hkey]; cbn [fst snd].
  - split; [done|]. by rewrite decide_True.
  - split; [done|]. rewrite decide_False by done. eexists. split; [reflexivity|].
    unfold detailOfRow. cbn. split_and!; [done|done|done| |].
    + destruct (rowStart row) as [v|], so as [r|]; try done. cbn.
      destruct Hs1 as [_ ->]. f_equal. rewrite Hk2; [|rewrite lookup_insert_eq; eauto].
      apply lookup_insert_eq.
    + destruct (rowDue row) as [w|], eo as [r|]; try done. cbn.
      destruct Hs2 as [_ ->]. f_equal. apply lookup_insert_eq.
Qed.

(** X19: the map of the projects holds, for every key that is not empty,
    the last row of the sheet with that key: its summary, epic and status,
    and two date objects that hold its dates (none for a cell that is no
    date); rows without a key give no entry, and no object that was there
    before is changed. *)
Theorem projectDetails_last_row_wins (h : gmap nat Z)
    (dataRowsProjectsRaw : list ProjectRow) :
  let res := projectDetails h dataRowsProjectsRaw in
  keeps h res.1
  /\ forall k,
       match last (filter (fun row => rowKey row = k) dataRowsProjectsRaw) with
       | Some row =>
           if decide (k = "") then res.2 !! k = None
           else exists pd, res.2 !! k = Some pd /\ detailOfRow res.1 pd row
       | None => res.2 !! k = None
       end.
Proof.
  cbv zeta. unfold projectDetails.
  induction dataRowsProjectsRaw as [|row rows IH] using rev_ind.
  - cbn. split; [apply keeps_refl|]. intros k. apply lookup_empty.
  - rewrite foldl_snoc. destruct IH as [Hk IH].
    destruct (foldl projectDetailRound (h, ∅) rows) as [h1 m1]. cbn [fst snd] in *.
    destruct (projectDetailRound_spec h1 m1 row) as [Hk1 Hrow]. cbv zeta in Hk1, Hrow.
    destruct (projectDetailRound (h1, m1) row) as [h2 m2]. cbn [fst snd] in *.
    split; [by eapply keeps_trans|]. intros k. specialize (IH k).
    rewrite filter_app, filter_cons, filter_nil.
    destruct (decide (rowKey row = k)) as [Hkey|Hkey].
    + rewrite last_snoc. subst k.
      destruct (decide (rowKey row = "")) as [He|He].
      * subst m2. by destruct (last _).
      * destruct Hrow as (pd & -> & Hpd). exists pd. by rewrite lookup_insert_eq.
    + rewrite app_nil_r.
      assert (Hm2 : m2 !! k = m1 !! k).
      { destruct (decide (rowKey row = "")); [by subst m2|].
        destruct Hrow as (pd & -> & _). by rewrite lookup_insert_ne. }
      rewrite Hm2. destruct (last _) as [row'|]; [|done].
      destruct (decide (k = "")); [done|].
      destruct IH as (pd & Hpd & Hdet). exists pd. split; [done|].
      by eapply detailOfRow_keeps.
Qed.

(** X3: in the zone UTC, for any range whose walk stays within the years
    0000 to 9999, the key of a day has a column exactly when the day lies
    between the first and the last day of the walk and its weekday is
    shown; its column is the first data column plus the number of shown
    days before it.  Columns lie between the first data column and the
    last header column, and a later day has a larger column. *)
Theorem index_columns_of_days (mode : WeekMode) (termOf : Z -> option (string * string))
    (minOverallDate maxOverallDate firstFixedColumnIndex : Z) :
  0 <= getFullYear (getStartOfWeek minOverallDate) ->
  getFullYear (getEndOfWeek mode maxOverallDate) <= 9999 ->
  exists info,
    generateTimelineHeaders UTC mode termOf minOverallDate maxOverallDate
      firstFixedColumnIndex = Some info
    /\ let m := hiDailyDateToSheetColMap info in
       (forall d, mapGet (toISODate UTC d) m
                  = columnOf mode (firstFixedColumnIndex + 1)
                      (getStartOfWeek minOverallDate)
                      (getEndOfWeek mode maxOverallDate) d)
       /\ (forall d c, mapGet (toISODate UTC d) m = Some c ->
             firstFixedColumnIndex + 1 <= c <= totalHeaderColumns info)
       /\ (forall d1 d2 c1 c2,
             mapGet (toISODate UTC d1) m = Some c1 ->
             mapGet (toISODate UTC d2) m = Some c2 ->
             d1 < d2 -> c1 < c2).
Proof. apply index_lookup_aux. Qed.

Lemma index_columns_of_days_witness :
  exists info,
    generateTimelineHeaders UTC WorkWeek termOfMonthRule (ymd 2025 1 8) (ymd 2025 1 24) 1
    = Some info
    /\ mapGet (toISODate UTC (ymd 2025 1 21)) (hiDailyDateToSheetColMap info)
       = columnOf WorkWeek (1 + 1) (getStartOfWeek (ymd 2025 1 8))
           (getEndOfWeek WorkWeek (ymd 2025 1 24)) (ymd 2025 1 21).
Proof.
  destruct (index_columns_of_days WorkWeek termOfMonthRule
              (ymd 2025 1 8) (ymd 2025 1 24) 1)
    as (info & Hrun & Hget & _); [vm_compute; discriminate|vm_compute; discriminate|].
  exists info. split; [exact Hrun|apply Hget].
Defined.

(** X8: the loop over the rows of people of the variants groups the kept
    rows by person, in sheet order (a person without a kept row has no
    entry), and leaves a range that holds every milestone (or customer) and
    every kept assignment; each end of the range is the initial extreme
    date or a date of one of them. *)
Theorem collect_groups_and_range (skipMilestones : bool)
    (milestoneData : list Customer) (dataRows : list SheetRow) :
  let acc := collect skipMilestones milestoneData dataRows in
  let kept := omap (assignmentOfRow skipMilestones) dataRows in
  (forall person,
      default [] (projectsByPerson acc !! person)
      = assignmentsOf skipMilestones person dataRows)
  /\ (forall person,
        projectsByPerson acc !! person = None
        <-> assignmentsOf skipMilestones person dataRows = [])
  /\ (forall c, c ∈ milestoneData ->
        minOverallTimelineDate acc <= customerStart c
        /\ customerEnd c <= maxOverallTimelineDate acc)
  /\ (forall x, x ∈ kept ->
        minOverallTimelineDate acc <= projectStart x
        /\ projectEnd x <= maxOverallTimelineDate acc)
  /\ (minOverallTimelineDate acc = latestDate
      \/ minOverallTimelineDate acc
         ∈ (customerStart <$> milestoneData) ++ (projectStart <$> kept))
  /\ (maxOverallTimelineDate acc = - latestDate
      \/ maxOverallTimelineDate acc
         ∈ (customerEnd <$> milestoneData) ++ (projectEnd <$> kept)).
Proof. apply collect_aux. Qed.

(** X9: in the zone UTC, for a walk within the years 0000 to 9999, an
    interval inside the date range (min <= start <= end <= max, years of
    min and max not read as 19yy) whose two ends fall on shown weekdays has
    its two dates as keys and is painted from the column of its start day
    to the column of its end day, whatever column at or before the first
    data column the caller clamps at ([fixedColumnIndex + 1], or the
    literal 2 or 1): no clamping takes place and no message is raised, also
    in the variants that check for a missing column; the bar has as many
    columns as there are shown days from start to end, and covers the
    columns of exactly those days. *)
Theorem resolveSpan_exact_within_range (mode : WeekMode)
    (termOf : Z -> option (string * string))
    (minOverallDate maxOverallDate firstFixedColumnIndex firstColumn
     projectStartDate projectEndDate : Z) :
  ~ (0 <= getFullYear minOverallDate <= 99) ->
  ~ (0 <= getFullYear maxOverallDate <= 99) ->
  0 <= getFullYear (getStartOfWeek minOverallDate) ->
  getFullYear (getEndOfWeek mode maxOverallDate) <= 9999 ->
  firstColumn <= firstFixedColumnIndex + 1 ->
  minOverallDate <= projectStartDate ->
  projectStartDate <= projectEndDate ->
  projectEndDate <= maxOverallDate ->
  dayIndexed mode (getDay projectStartDate) = true ->
  dayIndexed mode (getDay projectEndDate) = true ->
  exists info startSheetCol endSheetCol,
    generateTimelineHeaders UTC mode termOf minOverallDate maxOverallDate
      firstFixedColumnIndex = Some info
    /\ let m := hiDailyDateToSheetColMap info in
       toISODate UTC projectStartDate = projectStartDate
       /\ toISODate UTC projectEndDate = projectEndDate
       /\ mapGet (toISODate UTC projectStartDate) m = Some startSheetCol
       /\ mapGet (toISODate UTC projectEndDate) m = Some endSheetCol
       /\ resolveSpan firstColumn (totalHeaderColumns info) m
            (toISODate UTC projectStartDate) (toISODate UTC projectEndDate)
          = {| bar := Some (startSheetCol, endSheetCol); messages := [] |}
       /\ (forall customer,
             customerStart customer = projectStartDate ->
             customerEnd customer = projectEndDate ->
             resolveSpanChecked firstColumn (totalHeaderColumns info) m customer
             = {| bar := Some (startSheetCol, endSheetCol); messages := [] |})
       /\ endSheetCol - startSheetCol + 1
          = Z.of_nat (length (indexedDays mode projectStartDate projectEndDate))
       /\ (forall d c, mapGet (toISODate UTC d) m = Some c ->
             (startSheetCol <= c <= endSheetCol
              <-> projectStartDate <= d <= projectEndDate)).
Proof. apply resolveSpan_exact_aux. Qed.

Lemma resolveSpan_exact_within_range_witness :
  exists info startSheetCol endSheetCol,
    generateTimelineHeaders UTC WorkWeek termOfMonthRule (ymd 2025 1 8) (ymd 2025 1 24) 2
    = Some info
    /\ resolveSpan 2 (totalHeaderColumns info) (hiDailyDateToSheetColMap info)
         (toISODate UTC (ymd 2025 1 10)) (toISODate UTC (ymd 2025 1 14))
       = {| bar := Some (startSheetCol, endSheetCol); messages := [] |}
    /\ endSheetCol - startSheetCol + 1
       = Z.of_nat (length (indexedDays WorkWeek (ymd 2025 1 10) (ymd 2025 1 14))).
Proof.
  destruct (resolveSpan_exact_within_range WorkWeek termOfMonthRule
              (ymd 2025 1 8) (ymd 2025 1 24) 2 2 (ymd 2025 1 10) (ymd 2025 1 14))
    as (info & cs & ce & Hrun & _ & _ & _ & _ & Hspan & _ & Hlen & _);
    [ intros [_ Hc]; vm_compute in Hc; congruence
    | intros [_ Hc]; vm_compute in Hc; congruence
    | vm_compute; discriminate
    | vm_compute; discriminate
    | vm_compute; discriminate
    | vm_compute; discriminate
    | vm_compute; discriminate
    | vm_compute; discriminate
    | vm_compute; reflexivity
    | vm_compute; reflexivity |].
  exists info, cs, ce. split; [exact Hrun|]. split; [exact Hspan|exact Hlen].
Defined.

(** X15: in the rows of the packer a member of a later row overlaps some
    member of every earlier row, so no bar fits into a row above its own;
    and for intervals with start <= end the members of a row follow one
    another in time: an earlier member starts no later than a later one
    and ends before it starts. *)
Theorem pack_rows_greedy_and_chronological {A : Type} `{HasDates A} (l : list A) :
  (forall i j earlier later x,
      (i < j)%nat -> pack l !! i = Some earlier -> pack l !! j = Some later ->
      x ∈ later -> exists y, y ∈ earlier /\ overlaps x y)
  /\ (Forall normalized l ->
      forall row i j a b,
        row ∈ pack l -> (i < j)%nat -> row !! i = Some a -> row !! j = Some b ->
        startDate a <= startDate b /\ endDate a < startDate b).
Proof.
  split.
  - apply pack_greedy.
  - intros Hn row i j a b Hrow. pose proof (pack_chronological l Hn) as Hall.
    rewrite Forall_forall in Hall. apply (Hall row Hrow).
Qed.
